(** * bubble-list: the list component's state engine (list.go)

    A shallow embedding of the item store, the selection manager, the
    filter state machine and the viewport reconciliation of [list.go],
    and of the default delegate of [defaultitem.go], followed by the
    properties of the specification stated against it and by further
    properties of the code.

    Conventions.
    - Go's [int] is a 64-bit two's-complement integer: values are [Z],
      and every [+], [-] and [/] of the source is written with the
      wrapping operations of [GoInt].
    - A run-time panic (index or slice bounds out of range, integer
      division by zero, a method called on nil) is the [Panic] result
      of the [result] monad.
    - A slice is its sequence of elements, with the nil slice kept apart
      from the empty one because the source tests [items == nil].
      Capacity is not tracked: no function modelled here reads beyond
      [len].
    - Methods with a pointer receiver are functions that return the
      updated [Model]. *)

From Stdlib Require Import ZArith List Bool String Lia Permutation.
Import ListNotations.
Local Open Scope Z_scope.
Set Warnings "-register-all".

(* ------------------------------------------------------------------ *)
(** ** Go's [int] *)

Module GoInt.

Definition min_int : Z := - 2 ^ 63.
Definition max_int : Z := 2 ^ 63 - 1.

(** Two's-complement wrap-around into [min_int .. max_int]. *)
Definition wrap (z : Z) : Z := (z + 2 ^ 63) mod 2 ^ 64 - 2 ^ 63.

Definition in_range (z : Z) : Prop := min_int <= z <= max_int.

Definition add (a b : Z) : Z := wrap (a + b).
Definition sub (a b : Z) : Z := wrap (a - b).

Lemma wrap_id z : in_range z -> wrap z = z.
Proof.
  unfold in_range, wrap, min_int, max_int. intros H.
  rewrite Z.mod_small; lia.
Qed.

Lemma wrap_in_range z : in_range (wrap z).
Proof.
  unfold in_range, wrap, min_int, max_int.
  pose proof (Z.mod_pos_bound (z + 2 ^ 63) (2 ^ 64)). lia.
Qed.

Lemma add_id a b : in_range (a + b) -> add a b = a + b.
Proof. apply wrap_id. Qed.

Lemma sub_id a b : in_range (a - b) -> sub a b = a - b.
Proof. apply wrap_id. Qed.

End GoInt.

(* ------------------------------------------------------------------ *)
(** ** Run-time panics *)

Inductive panic : Type :=
| IndexOutOfRange
| SliceBoundsOutOfRange
| IntegerDivideByZero
| NilDereference.

Inductive result (A : Type) : Type :=
| Ok (a : A)
| Panic (p : panic).

Arguments Ok {A} a.
Arguments Panic {A} p.

Definition bind {A B : Type} (r : result A) (k : A -> result B) : result B :=
  match r with
  | Ok a => k a
  | Panic p => Panic p
  end.

Notation "x <- r ;; k" := (bind r (fun x => k))
  (at level 61, r at next level, right associativity).

(** Go's [a / b] on [int]: truncated towards zero, panics when [b] is 0. *)
Definition go_quot (a b : Z) : result Z :=
  if b =? 0 then Panic IntegerDivideByZero else Ok (GoInt.wrap (Z.quot a b)).

(** [max] and [min] of list.go. *)
Definition max (a b : Z) : Z := if a >? b then a else b.
Definition min (a b : Z) : Z := if a <? b then a else b.

Definition setInBounds (x low high : Z) : Z := min high (max x low).

(* ------------------------------------------------------------------ *)
(** ** Slices *)

Inductive slice (A : Type) : Type :=
| nil_slice
| mk_slice (l : list A).

Arguments nil_slice {A}.
Arguments mk_slice {A} l.

Section Slices.
Context {A : Type}.

Definition elems (s : slice A) : list A :=
  match s with
  | nil_slice => []
  | mk_slice l => l
  end.

Definition is_nil (s : slice A) : bool :=
  match s with
  | nil_slice => true
  | mk_slice _ => false
  end.

(** [len(s)] *)
Definition len (s : slice A) : Z := Z.of_nat (List.length (elems s)).

(** [s[i]] *)
Definition slice_get (s : slice A) (i : Z) : result A :=
  if (0 <=? i) && (i <? len s) then
    match nth_error (elems s) (Z.to_nat i) with
    | Some a => Ok a
    | None => Panic IndexOutOfRange
    end
  else Panic IndexOutOfRange.

Fixpoint list_set (l : list A) (n : nat) (v : A) : list A :=
  match l, n with
  | [], _ => []
  | _ :: t, O => v :: t
  | h :: t, S n' => h :: list_set t n' v
  end.

(** [s[i] = v] *)
Definition slice_set (s : slice A) (i : Z) (v : A) : result (slice A) :=
  if (0 <=? i) && (i <? len s) then Ok (mk_slice (list_set (elems s) (Z.to_nat i) v))
  else Panic IndexOutOfRange.

(** [append(s, v)] *)
Definition append (s : slice A) (v : A) : slice A := mk_slice (elems s ++ [v]).

(** The bounds check of the slicing expression [s[lo:]]: the offset of
    the view into [s]. *)
Definition slice_from (s : slice A) (lo : Z) : result nat :=
  if (0 <=? lo) && (lo <=? len s) then Ok (Z.to_nat lo)
  else Panic SliceBoundsOutOfRange.

(** [s[:hi]] for [hi] up to [len(s)]. *)
Definition slice_to (s : slice A) (hi : Z) : result (slice A) :=
  if (0 <=? hi) && (hi <=? len s) then
    match s with
    | nil_slice => Ok nil_slice
    | mk_slice l => Ok (mk_slice (firstn (Z.to_nat hi) l))
    end
  else Panic SliceBoundsOutOfRange.

(** The backing array after [copy] between two views of it that start
    at offsets [d] (destination) and [s] (source) and both run to its
    end: [copy] moves as many elements as the shorter view holds and
    behaves as if the source were read before anything is written. *)
Definition copy_overlap (l : list A) (d s : nat) : list A :=
  let n := Nat.min (List.length l - d) (List.length l - s) in
  firstn d l ++ firstn n (skipn s l) ++ skipn (d + n) l.

(** [copy(s[dlo:], s[slo:])]: the destination operand is evaluated first. *)
Definition copy_within (s : slice A) (dlo slo : Z) : result (slice A) :=
  d <- slice_from s dlo ;;
  o <- slice_from s slo ;;
  match s with
  | nil_slice => Ok nil_slice
  | mk_slice l => Ok (mk_slice (copy_overlap l d o))
  end.

(** The shared body of [removeItemFromSlice] and
    [removeFilterMatchFromSlice]; [zero] is the value written into the
    vacated last cell ([nil], resp. [filteredItem{}]). *)
Definition remove_from_slice (zero : A) (i : slice A) (index : Z) : result (slice A) :=
  if index >=? len i then Ok i (* noop *)
  else
    i1 <- copy_within i index (GoInt.add index 1) ;;
    i2 <- slice_set i1 (GoInt.sub (len i) 1) zero ;;
    slice_to i2 (GoInt.sub (len i) 1).

End Slices.

(* ------------------------------------------------------------------ *)
(** ** Collaborators outside list.go

    The component is written against Bubble Tea and the bubbles
    packages [key], [textinput], [spinner] and [help].  Their types are
    abstract here and only the operations list.go calls are named.  The
    two equations are the part of textinput's contract the filter
    state machine depends on: [Reset] empties the value and [Blur]
    leaves it alone. *)

Class Externals : Type := {
  (** Values of the interface type [Item]; [nil_item] is the nil interface. *)
  Item : Type;
  nil_item : Item;
  Item_FilterValue : Item -> string;
  Item_is_nil : Item -> bool;
  (** [tea.KeyMsg], and [key.Binding] with [key.Matches], [SetEnabled], [Enabled]. *)
  tea_KeyMsg : Type;
  key_Binding : Type;
  key_Matches : tea_KeyMsg -> key_Binding -> bool;
  key_SetEnabled : key_Binding -> bool -> key_Binding;
  key_Enabled : key_Binding -> bool;
  (** [textinput.Model] *)
  textinput_Model : Type;
  textinput_Value : textinput_Model -> string;
  textinput_Reset : textinput_Model -> textinput_Model;
  textinput_Blur : textinput_Model -> textinput_Model;
  textinput_Focus : textinput_Model -> textinput_Model;
  textinput_CursorEnd : textinput_Model -> textinput_Model;
  textinput_Reset_Value : forall t, textinput_Value (textinput_Reset t) = EmptyString;
  textinput_Blur_Value : forall t, textinput_Value (textinput_Blur t) = textinput_Value t;
  (** [spinner.Model] and [spinner.TickMsg] *)
  spinner_Model : Type;
  spinner_TickMsg : Type;
  (** Messages and commands list.go only passes on. *)
  other_Msg : Type;
  other_Cmd : Type
}.

(** [KeyMap]: the bindings list.go reads and enables (the type is
    declared in keys.go). *)
Module KeyMap.
Record t {E : Externals} : Type := mk {
  CursorUp : key_Binding;
  CursorDown : key_Binding;
  MoveUp : key_Binding;
  MoveDown : key_Binding;
  GoToStart : key_Binding;
  GoToEnd : key_Binding;
  Filter : key_Binding;
  ClearFilter : key_Binding;
  CancelWhileFiltering : key_Binding;
  AcceptWhileFiltering : key_Binding;
  ShowFullHelp : key_Binding;
  CloseFullHelp : key_Binding;
  Quit : key_Binding;
  ForceQuit : key_Binding
}.
Arguments mk {E}.

(** Updates of one binding ([m.KeyMap.X.SetEnabled(v)] writes the
    binding back in place). *)
Definition set_Filter {E : Externals} (b : key_Binding) (km : t) : t :=
  mk (CursorUp km) (CursorDown km) (MoveUp km) (MoveDown km) (GoToStart km)
    (GoToEnd km) b (ClearFilter km) (CancelWhileFiltering km)
    (AcceptWhileFiltering km) (ShowFullHelp km) (CloseFullHelp km) (Quit km)
    (ForceQuit km).

Definition set_ClearFilter {E : Externals} (b : key_Binding) (km : t) : t :=
  mk (CursorUp km) (CursorDown km) (MoveUp km) (MoveDown km) (GoToStart km)
    (GoToEnd km) (Filter km) b (CancelWhileFiltering km) (AcceptWhileFiltering km)
    (ShowFullHelp km) (CloseFullHelp km) (Quit km) (ForceQuit km).

Definition set_AcceptWhileFiltering {E : Externals} (b : key_Binding) (km : t) : t :=
  mk (CursorUp km) (CursorDown km) (MoveUp km) (MoveDown km) (GoToStart km)
    (GoToEnd km) (Filter km) (ClearFilter km) (CancelWhileFiltering km) b
    (ShowFullHelp km) (CloseFullHelp km) (Quit km) (ForceQuit km).

Definition set_ShowFullHelp {E : Externals} (b : key_Binding) (km : t) : t :=
  mk (CursorUp km) (CursorDown km) (MoveUp km) (MoveDown km) (GoToStart km)
    (GoToEnd km) (Filter km) (ClearFilter km) (CancelWhileFiltering km)
    (AcceptWhileFiltering km) b (CloseFullHelp km) (Quit km) (ForceQuit km).

Definition set_CloseFullHelp {E : Externals} (b : key_Binding) (km : t) : t :=
  mk (CursorUp km) (CursorDown km) (MoveUp km) (MoveDown km) (GoToStart km)
    (GoToEnd km) (Filter km) (ClearFilter km) (CancelWhileFiltering km)
    (AcceptWhileFiltering km) (ShowFullHelp km) b (Quit km) (ForceQuit km).

Definition set_Quit {E : Externals} (b : key_Binding) (km : t) : t :=
  mk (CursorUp km) (CursorDown km) (MoveUp km) (MoveDown km) (GoToStart km)
    (GoToEnd km) (Filter km) (ClearFilter km) (CancelWhileFiltering km)
    (AcceptWhileFiltering km) (ShowFullHelp km) (CloseFullHelp km) b (ForceQuit km).

Definition set_ForceQuit {E : Externals} (b : key_Binding) (km : t) : t :=
  mk (CursorUp km) (CursorDown km) (MoveUp km) (MoveDown km) (GoToStart km)
    (GoToEnd km) (Filter km) (ClearFilter km) (CancelWhileFiltering km)
    (AcceptWhileFiltering km) (ShowFullHelp km) (CloseFullHelp km) (Quit km) b.
End KeyMap.

(** [FilterState] *)
Inductive FilterState : Type :=
| Unfiltered     (* no filter set *)
| Filtering      (* user is actively setting a filter *)
| FilterApplied. (* a filter is applied and user is not editing filter *)

Definition FilterState_eqb (a b : FilterState) : bool :=
  match a, b with
  | Unfiltered, Unfiltered | Filtering, Filtering | FilterApplied, FilterApplied => true
  | _, _ => false
  end.

(** [Rank] *)
Record Rank : Type := {
  Index_ : Z;
  MatchedIndexes : slice Z
}.

Definition FilterFunc : Type := string -> list string -> list Rank.

(** [*time.Timer]: nil, or a timer that is running or stopped. *)
Inductive timer : Type := timer_running | timer_stopped.

(** [help.Model]: the two fields list.go touches. *)
Record help_Model : Type := {
  ShowAll : bool;
  help_Width : Z
}.

Section Component.
Context {E : Externals}.

(** [filteredItem] *)
Record filteredItem : Type := {
  item : Item;        (* item matched *)
  matches : slice Z   (* rune indices of matched items *)
}.

(** [filteredItem{}] *)
Definition zero_filteredItem : filteredItem :=
  {| item := nil_item; matches := nil_slice |}.

(** [filteredItems.items]: [make] returns a non-nil slice. *)
Definition filteredItems_items (f : slice filteredItem) : slice Item :=
  mk_slice (map item (elems f)).

(** [tea.Msg], by the cases Update's type switch tells apart. *)
Inductive Msg : Type :=
| KeyMsg (k : tea_KeyMsg)
| FilterMatchesMsg (fi : slice filteredItem)
| TickMsg (t : spinner_TickMsg)
| statusMessageTimeoutMsg
| OtherMsg (o : other_Msg).

(** [ItemDelegate]: [Height()], [Spacing()], and the [help.KeyMap] the
    delegate may also implement ([ShortHelp()], [FullHelp()]). *)
Record ItemDelegate : Type := {
  Height : Z;
  Spacing : Z;
  delegate_help : option (list key_Binding * list (list key_Binding))
}.

(** [Model].  The fields that only feed the rendering (names, title,
    styles, status message lifetime) are left out. *)
Record Model : Type := {
  showTitle : bool;
  showFilter : bool;
  showStatusBar : bool;
  showHelp : bool;
  filteringEnabled : bool;
  keyMap : KeyMap.t;
  Filter : FilterFunc;
  disableQuitKeybindings : bool;
  AdditionalFullHelpKeys : option (list key_Binding);
  spinner : spinner_Model;
  showSpinner : bool;
  width : Z;
  height : Z;
  Help : help_Model;
  FilterInput : textinput_Model;
  filterState : FilterState;
  statusMessage : string;
  statusMessageTimer : option timer;
  items : slice Item;
  index : Z;
  firstItemIndexInView : Z;
  lastItemIndexInView : Z;
  filteredItems : slice filteredItem;
  delegate : ItemDelegate
}.

(** Field updates ([m.f = v]). *)
Definition set_keyMap (v : KeyMap.t) (m : Model) : Model :=
  {| showTitle := showTitle m; showFilter := showFilter m;
     showStatusBar := showStatusBar m; showHelp := showHelp m;
     filteringEnabled := filteringEnabled m; keyMap := v; Filter := Filter m;
     disableQuitKeybindings := disableQuitKeybindings m;
     AdditionalFullHelpKeys := AdditionalFullHelpKeys m; spinner := spinner m;
     showSpinner := showSpinner m; width := width m; height := height m; Help := Help m;
     FilterInput := FilterInput m; filterState := filterState m;
     statusMessage := statusMessage m; statusMessageTimer := statusMessageTimer m;
     items := items m; index := index m; firstItemIndexInView := firstItemIndexInView m;
     lastItemIndexInView := lastItemIndexInView m; filteredItems := filteredItems m;
     delegate := delegate m |}.

Definition set_spinner (v : spinner_Model) (m : Model) : Model :=
  {| showTitle := showTitle m; showFilter := showFilter m;
     showStatusBar := showStatusBar m; showHelp := showHelp m;
     filteringEnabled := filteringEnabled m; keyMap := keyMap m; Filter := Filter m;
     disableQuitKeybindings := disableQuitKeybindings m;
     AdditionalFullHelpKeys := AdditionalFullHelpKeys m; spinner := v;
     showSpinner := showSpinner m; width := width m; height := height m; Help := Help m;
     FilterInput := FilterInput m; filterState := filterState m;
     statusMessage := statusMessage m; statusMessageTimer := statusMessageTimer m;
     items := items m; index := index m; firstItemIndexInView := firstItemIndexInView m;
     lastItemIndexInView := lastItemIndexInView m; filteredItems := filteredItems m;
     delegate := delegate m |}.

Definition set_Help (v : help_Model) (m : Model) : Model :=
  {| showTitle := showTitle m; showFilter := showFilter m;
     showStatusBar := showStatusBar m; showHelp := showHelp m;
     filteringEnabled := filteringEnabled m; keyMap := keyMap m; Filter := Filter m;
     disableQuitKeybindings := disableQuitKeybindings m;
     AdditionalFullHelpKeys := AdditionalFullHelpKeys m; spinner := spinner m;
     showSpinner := showSpinner m; width := width m; height := height m; Help := v;
     FilterInput := FilterInput m; filterState := filterState m;
     statusMessage := statusMessage m; statusMessageTimer := statusMessageTimer m;
     items := items m; index := index m; firstItemIndexInView := firstItemIndexInView m;
     lastItemIndexInView := lastItemIndexInView m; filteredItems := filteredItems m;
     delegate := delegate m |}.

Definition set_FilterInput (v : textinput_Model) (m : Model) : Model :=
  {| showTitle := showTitle m; showFilter := showFilter m;
     showStatusBar := showStatusBar m; showHelp := showHelp m;
     filteringEnabled := filteringEnabled m; keyMap := keyMap m; Filter := Filter m;
     disableQuitKeybindings := disableQuitKeybindings m;
     AdditionalFullHelpKeys := AdditionalFullHelpKeys m; spinner := spinner m;
     showSpinner := showSpinner m; width := width m; height := height m; Help := Help m;
     FilterInput := v; filterState := filterState m; statusMessage := statusMessage m;
     statusMessageTimer := statusMessageTimer m; items := items m; index := index m;
     firstItemIndexInView := firstItemIndexInView m;
     lastItemIndexInView := lastItemIndexInView m; filteredItems := filteredItems m;
     delegate := delegate m |}.

Definition set_filterState (v : FilterState) (m : Model) : Model :=
  {| showTitle := showTitle m; showFilter := showFilter m;
     showStatusBar := showStatusBar m; showHelp := showHelp m;
     filteringEnabled := filteringEnabled m; keyMap := keyMap m; Filter := Filter m;
     disableQuitKeybindings := disableQuitKeybindings m;
     AdditionalFullHelpKeys := AdditionalFullHelpKeys m; spinner := spinner m;
     showSpinner := showSpinner m; width := width m; height := height m; Help := Help m;
     FilterInput := FilterInput m; filterState := v; statusMessage := statusMessage m;
     statusMessageTimer := statusMessageTimer m; items := items m; index := index m;
     firstItemIndexInView := firstItemIndexInView m;
     lastItemIndexInView := lastItemIndexInView m; filteredItems := filteredItems m;
     delegate := delegate m |}.

Definition set_statusMessage (v : string) (m : Model) : Model :=
  {| showTitle := showTitle m; showFilter := showFilter m;
     showStatusBar := showStatusBar m; showHelp := showHelp m;
     filteringEnabled := filteringEnabled m; keyMap := keyMap m; Filter := Filter m;
     disableQuitKeybindings := disableQuitKeybindings m;
     AdditionalFullHelpKeys := AdditionalFullHelpKeys m; spinner := spinner m;
     showSpinner := showSpinner m; width := width m; height := height m; Help := Help m;
     FilterInput := FilterInput m; filterState := filterState m; statusMessage := v;
     statusMessageTimer := statusMessageTimer m; items := items m; index := index m;
     firstItemIndexInView := firstItemIndexInView m;
     lastItemIndexInView := lastItemIndexInView m; filteredItems := filteredItems m;
     delegate := delegate m |}.

Definition set_statusMessageTimer (v : option timer) (m : Model) : Model :=
  {| showTitle := showTitle m; showFilter := showFilter m;
     showStatusBar := showStatusBar m; showHelp := showHelp m;
     filteringEnabled := filteringEnabled m; keyMap := keyMap m; Filter := Filter m;
     disableQuitKeybindings := disableQuitKeybindings m;
     AdditionalFullHelpKeys := AdditionalFullHelpKeys m; spinner := spinner m;
     showSpinner := showSpinner m; width := width m; height := height m; Help := Help m;
     FilterInput := FilterInput m; filterState := filterState m;
     statusMessage := statusMessage m; statusMessageTimer := v; items := items m;
     index := index m; firstItemIndexInView := firstItemIndexInView m;
     lastItemIndexInView := lastItemIndexInView m; filteredItems := filteredItems m;
     delegate := delegate m |}.

Definition set_items (v : slice Item) (m : Model) : Model :=
  {| showTitle := showTitle m; showFilter := showFilter m;
     showStatusBar := showStatusBar m; showHelp := showHelp m;
     filteringEnabled := filteringEnabled m; keyMap := keyMap m; Filter := Filter m;
     disableQuitKeybindings := disableQuitKeybindings m;
     AdditionalFullHelpKeys := AdditionalFullHelpKeys m; spinner := spinner m;
     showSpinner := showSpinner m; width := width m; height := height m; Help := Help m;
     FilterInput := FilterInput m; filterState := filterState m;
     statusMessage := statusMessage m; statusMessageTimer := statusMessageTimer m;
     items := v; index := index m; firstItemIndexInView := firstItemIndexInView m;
     lastItemIndexInView := lastItemIndexInView m; filteredItems := filteredItems m;
     delegate := delegate m |}.

Definition set_index (v : Z) (m : Model) : Model :=
  {| showTitle := showTitle m; showFilter := showFilter m;
     showStatusBar := showStatusBar m; showHelp := showHelp m;
     filteringEnabled := filteringEnabled m; keyMap := keyMap m; Filter := Filter m;
     disableQuitKeybindings := disableQuitKeybindings m;
     AdditionalFullHelpKeys := AdditionalFullHelpKeys m; spinner := spinner m;
     showSpinner := showSpinner m; width := width m; height := height m; Help := Help m;
     FilterInput := FilterInput m; filterState := filterState m;
     statusMessage := statusMessage m; statusMessageTimer := statusMessageTimer m;
     items := items m; index := v; firstItemIndexInView := firstItemIndexInView m;
     lastItemIndexInView := lastItemIndexInView m; filteredItems := filteredItems m;
     delegate := delegate m |}.

Definition set_firstItemIndexInView (v : Z) (m : Model) : Model :=
  {| showTitle := showTitle m; showFilter := showFilter m;
     showStatusBar := showStatusBar m; showHelp := showHelp m;
     filteringEnabled := filteringEnabled m; keyMap := keyMap m; Filter := Filter m;
     disableQuitKeybindings := disableQuitKeybindings m;
     AdditionalFullHelpKeys := AdditionalFullHelpKeys m; spinner := spinner m;
     showSpinner := showSpinner m; width := width m; height := height m; Help := Help m;
     FilterInput := FilterInput m; filterState := filterState m;
     statusMessage := statusMessage m; statusMessageTimer := statusMessageTimer m;
     items := items m; index := index m; firstItemIndexInView := v;
     lastItemIndexInView := lastItemIndexInView m; filteredItems := filteredItems m;
     delegate := delegate m |}.

Definition set_lastItemIndexInView (v : Z) (m : Model) : Model :=
  {| showTitle := showTitle m; showFilter := showFilter m;
     showStatusBar := showStatusBar m; showHelp := showHelp m;
     filteringEnabled := filteringEnabled m; keyMap := keyMap m; Filter := Filter m;
     disableQuitKeybindings := disableQuitKeybindings m;
     AdditionalFullHelpKeys := AdditionalFullHelpKeys m; spinner := spinner m;
     showSpinner := showSpinner m; width := width m; height := height m; Help := Help m;
     FilterInput := FilterInput m; filterState := filterState m;
     statusMessage := statusMessage m; statusMessageTimer := statusMessageTimer m;
     items := items m; index := index m; firstItemIndexInView := firstItemIndexInView m;
     lastItemIndexInView := v; filteredItems := filteredItems m; delegate := delegate m |}.

Definition set_filteredItems (v : slice filteredItem) (m : Model) : Model :=
  {| showTitle := showTitle m; showFilter := showFilter m;
     showStatusBar := showStatusBar m; showHelp := showHelp m;
     filteringEnabled := filteringEnabled m; keyMap := keyMap m; Filter := Filter m;
     disableQuitKeybindings := disableQuitKeybindings m;
     AdditionalFullHelpKeys := AdditionalFullHelpKeys m; spinner := spinner m;
     showSpinner := showSpinner m; width := width m; height := height m; Help := Help m;
     FilterInput := FilterInput m; filterState := filterState m;
     statusMessage := statusMessage m; statusMessageTimer := statusMessageTimer m;
     items := items m; index := index m; firstItemIndexInView := firstItemIndexInView m;
     lastItemIndexInView := lastItemIndexInView m; filteredItems := v;
     delegate := delegate m |}.

Definition set_filteringEnabled (v : bool) (m : Model) : Model :=
  {| showTitle := showTitle m; showFilter := showFilter m;
     showStatusBar := showStatusBar m; showHelp := showHelp m;
     filteringEnabled := v; keyMap := keyMap m; Filter := Filter m;
     disableQuitKeybindings := disableQuitKeybindings m;
     AdditionalFullHelpKeys := AdditionalFullHelpKeys m; spinner := spinner m;
     showSpinner := showSpinner m; width := width m; height := height m; Help := Help m;
     FilterInput := FilterInput m; filterState := filterState m;
     statusMessage := statusMessage m; statusMessageTimer := statusMessageTimer m;
     items := items m; index := index m; firstItemIndexInView := firstItemIndexInView m;
     lastItemIndexInView := lastItemIndexInView m; filteredItems := filteredItems m;
     delegate := delegate m |}.

Definition set_disableQuitKeybindings (v : bool) (m : Model) : Model :=
  {| showTitle := showTitle m; showFilter := showFilter m;
     showStatusBar := showStatusBar m; showHelp := showHelp m;
     filteringEnabled := filteringEnabled m; keyMap := keyMap m; Filter := Filter m;
     disableQuitKeybindings := v;
     AdditionalFullHelpKeys := AdditionalFullHelpKeys m; spinner := spinner m;
     showSpinner := showSpinner m; width := width m; height := height m; Help := Help m;
     FilterInput := FilterInput m; filterState := filterState m;
     statusMessage := statusMessage m; statusMessageTimer := statusMessageTimer m;
     items := items m; index := index m; firstItemIndexInView := firstItemIndexInView m;
     lastItemIndexInView := lastItemIndexInView m; filteredItems := filteredItems m;
     delegate := delegate m |}.

(** [tea.Cmd].  A command is a deferred computation; it is kept as a
    description of what was requested.  [cmd_filterItems m] is the
    closure [filterItems(m)] returns, holding its snapshot of the model. *)
Inductive Cmd : Type :=
| cmd_nil
| tea_Quit
| textinput_Blink
| cmd_filterItems (snapshot : Model)
| cmd_other (c : other_Cmd)
| tea_Batch (cmds : list Cmd).

(** The collaborators whose behaviour depends on the model or on a
    message: the Update methods of the text input, the spinner and the
    delegate, the rendered heights that [lipgloss.Height] measures on
    the title, status and help views, and the defaults [New] installs. *)
Class Collaborators : Type := {
  textinput_Update : textinput_Model -> Msg -> textinput_Model * Cmd;
  spinner_Update : spinner_Model -> spinner_TickMsg -> spinner_Model * Cmd;
  delegate_Update : ItemDelegate -> Msg -> Model -> Model * Cmd;
  titleView_Height : Model -> Z;
  statusView_Height : Model -> Z;
  helpView_Height : Model -> Z;
  textinput_New : textinput_Model;
  spinner_New : spinner_Model;
  help_New : help_Model;
  DefaultKeyMap : KeyMap.t;
  DefaultFilter : FilterFunc
}.

Context {C : Collaborators}.

(* ------------------------------------------------------------------ *)
(** ** Item store helpers *)

(** [insertItemIntoSlice] *)
Definition insertItemIntoSlice (items : slice Item) (item : Item) (index : Z)
  : result (slice Item) :=
  if is_nil items then Ok (mk_slice [item])
  else if index >=? len items then Ok (append items item)
  else
    let index := max 0 index in
    let items := append items nil_item in
    items <- copy_within items (GoInt.add index 1) index ;;
    slice_set items index item.

(** [removeItemFromSlice] *)
Definition removeItemFromSlice (i : slice Item) (index : Z) : result (slice Item) :=
  remove_from_slice nil_item i index.

(** [removeFilterMatchFromSlice] *)
Definition removeFilterMatchFromSlice (i : slice filteredItem) (index : Z)
  : result (slice filteredItem) :=
  remove_from_slice zero_filteredItem i index.

(** [swapItemsInSlice] *)
Definition swapItemsInSlice (items : slice Item) (firstIndex secondIndex : Z)
  : result (slice Item) :=
  if is_nil items then Ok items
  else
    let maxIndex := GoInt.sub (len items) 1 in
    let firstIndex := setInBounds firstIndex 0 maxIndex in
    let secondIndex := setInBounds secondIndex 0 maxIndex in
    a <- slice_get items secondIndex ;;
    b <- slice_get items firstIndex ;;
    items <- slice_set items firstIndex a ;;
    slice_set items secondIndex b.

(** [countEnabledBindings] *)
Definition countEnabledBindings (groups : list (list key_Binding)) : Z :=
  fold_left
    (fun agg group =>
       fold_left (fun agg kb => if key_Enabled kb then GoInt.add agg 1 else agg) group agg)
    groups 0.

(* ------------------------------------------------------------------ *)
(** ** Methods of [Model] *)

(** [Model.AvailableItems] *)
Definition AvailableItems (m : Model) : slice Item :=
  if negb (FilterState_eqb (filterState m) Unfiltered)
  then filteredItems_items (filteredItems m)
  else items m.

(** [Model.Index] *)
Definition Index (m : Model) : Z := index m.

(** [Model.Select] *)
Definition Select (m : Model) (index : Z) : Model :=
  let size := len (AvailableItems m) in
  if size =? 0 then set_index (-1) m
  else if index <? 0 then set_index 0 m
  else if index >? GoInt.sub size 1 then set_index (GoInt.sub size 1) m
  else set_index index m.

(** [Model.ResetSelected] *)
Definition ResetSelected (m : Model) : Model := Select m 0.

(** [Model.CursorUp] *)
Definition CursorUp (m : Model) : Model := Select m (GoInt.sub (index m) 1).

(** [Model.CursorDown] *)
Definition CursorDown (m : Model) : Model := Select m (GoInt.add (index m) 1).

(** [Model.SelectedItem] *)
Definition SelectedItem (m : Model) : result Item :=
  let i := Index m in
  let items := AvailableItems m in
  if (i <? 0) || (len items =? 0) || (len items <=? i) then Ok nil_item
  else slice_get items i.

(** [Model.FullHelp] *)
Definition FullHelp (m : Model) : list (list key_Binding) :=
  let km := keyMap m in
  let kb := [[KeyMap.CursorUp km; KeyMap.CursorDown km; KeyMap.MoveUp km;
              KeyMap.MoveDown km; KeyMap.GoToStart km; KeyMap.GoToEnd km]] in
  let filtering := FilterState_eqb (filterState m) Filtering in
  let kb :=
    if negb filtering then
      match delegate_help (delegate m) with
      | Some (_, full) => kb ++ full
      | None => kb
      end
    else kb in
  let listLevelBindings :=
    [KeyMap.Filter km; KeyMap.ClearFilter km; KeyMap.AcceptWhileFiltering km;
     KeyMap.CancelWhileFiltering km] in
  let listLevelBindings :=
    match negb filtering, AdditionalFullHelpKeys m with
    | true, Some extra => listLevelBindings ++ extra
    | _, _ => listLevelBindings
    end in
  kb ++ [listLevelBindings; [KeyMap.Quit km; KeyMap.CloseFullHelp km]].

(** [Model.updateKeybindings]: set keybindings according to the filter state. *)
Definition updateKeybindings (m : Model) : Model :=
  let km := keyMap m in
  match filterState m with
  | Filtering =>
    set_keyMap
      {| KeyMap.CursorUp := key_SetEnabled (KeyMap.CursorUp km) false;
         KeyMap.CursorDown := key_SetEnabled (KeyMap.CursorDown km) false;
         KeyMap.MoveUp := key_SetEnabled (KeyMap.MoveUp km) false;
         KeyMap.MoveDown := key_SetEnabled (KeyMap.MoveDown km) false;
         KeyMap.GoToStart := key_SetEnabled (KeyMap.GoToStart km) false;
         KeyMap.GoToEnd := key_SetEnabled (KeyMap.GoToEnd km) false;
         KeyMap.Filter := key_SetEnabled (KeyMap.Filter km) false;
         KeyMap.ClearFilter := key_SetEnabled (KeyMap.ClearFilter km) false;
         KeyMap.CancelWhileFiltering := key_SetEnabled (KeyMap.CancelWhileFiltering km) true;
         KeyMap.AcceptWhileFiltering :=
           key_SetEnabled (KeyMap.AcceptWhileFiltering km)
             (negb (String.eqb (textinput_Value (FilterInput m)) EmptyString));
         KeyMap.ShowFullHelp := key_SetEnabled (KeyMap.ShowFullHelp km) false;
         KeyMap.CloseFullHelp := key_SetEnabled (KeyMap.CloseFullHelp km) false;
         KeyMap.Quit := key_SetEnabled (KeyMap.Quit km) false;
         KeyMap.ForceQuit := KeyMap.ForceQuit km |} m
  | _ =>
    let hasItems := negb (len (items m) =? 0) in
    let km1 :=
      {| KeyMap.CursorUp := key_SetEnabled (KeyMap.CursorUp km) hasItems;
         KeyMap.CursorDown := key_SetEnabled (KeyMap.CursorDown km) hasItems;
         KeyMap.MoveUp := key_SetEnabled (KeyMap.MoveUp km) hasItems;
         KeyMap.MoveDown := key_SetEnabled (KeyMap.MoveDown km) hasItems;
         KeyMap.GoToStart := key_SetEnabled (KeyMap.GoToStart km) hasItems;
         KeyMap.GoToEnd := key_SetEnabled (KeyMap.GoToEnd km) hasItems;
         KeyMap.Filter := key_SetEnabled (KeyMap.Filter km) (filteringEnabled m && hasItems);
         KeyMap.ClearFilter :=
           key_SetEnabled (KeyMap.ClearFilter km)
             (FilterState_eqb (filterState m) FilterApplied);
         KeyMap.CancelWhileFiltering := key_SetEnabled (KeyMap.CancelWhileFiltering km) false;
         KeyMap.AcceptWhileFiltering := key_SetEnabled (KeyMap.AcceptWhileFiltering km) false;
         KeyMap.ShowFullHelp := KeyMap.ShowFullHelp km;
         KeyMap.CloseFullHelp := KeyMap.CloseFullHelp km;
         KeyMap.Quit := key_SetEnabled (KeyMap.Quit km) (negb (disableQuitKeybindings m));
         KeyMap.ForceQuit := KeyMap.ForceQuit km |} in
    let m1 := set_keyMap km1 m in
    let minHelp :=
      if ShowAll (Help m1) then true
      else countEnabledBindings (FullHelp m1) >? 1 in
    set_keyMap
      (KeyMap.set_CloseFullHelp (key_SetEnabled (KeyMap.CloseFullHelp km1) minHelp)
         (KeyMap.set_ShowFullHelp (key_SetEnabled (KeyMap.ShowFullHelp km1) minHelp) km1))
      m1
  end.

(** [Model.resetFiltering] *)
Definition resetFiltering (m : Model) : Model :=
  if FilterState_eqb (filterState m) Unfiltered then m
  else
    let m := set_filterState Unfiltered m in
    let m := set_FilterInput (textinput_Reset (FilterInput m)) m in
    let m := set_filteredItems nil_slice m in
    updateKeybindings m.

(** [Model.itemsAsFilterItems] *)
Definition itemsAsFilterItems (m : Model) : slice filteredItem :=
  mk_slice (map (fun item => {| item := item; matches := nil_slice |}) (elems (items m))).

(** [filterItems]: the command closes over its copy of the model. *)
Definition filterItems (m : Model) : Cmd := cmd_filterItems m.

(** The message the closure of [filterItems] produces when it runs. *)
Definition filterItems_run (m : Model) : result Msg :=
  if String.eqb (textinput_Value (FilterInput m)) EmptyString
     || FilterState_eqb (filterState m) Unfiltered
  then Ok (FilterMatchesMsg (itemsAsFilterItems m))
  else
    let items := items m in
    targets <-
      fold_left
        (fun acc t =>
           targets <- acc ;;
           if Item_is_nil t then Panic NilDereference
           else Ok (targets ++ [Item_FilterValue t]))
        (elems items) (Ok []) ;;
    filterMatches <-
      fold_left
        (fun acc r =>
           filterMatches <- acc ;;
           it <- slice_get items (Index_ r) ;;
           Ok (filterMatches ++ [{| item := it; matches := MatchedIndexes r |}]))
        (Filter m (textinput_Value (FilterInput m)) targets)
        (Ok []) ;;
    Ok (FilterMatchesMsg (mk_slice filterMatches)).

(** [Model.SetItems] *)
Definition SetItems (m : Model) (i : slice Item) : Model * Cmd :=
  let m := set_items i m in
  let '(m, cmd) :=
    if negb (FilterState_eqb (filterState m) Unfiltered) then
      let m := set_filteredItems nil_slice m in
      (m, filterItems m)
    else (m, cmd_nil) in
  (updateKeybindings m, cmd).

(** [Model.MoveItemUp] *)
Definition MoveItemUp (m : Model) (index : Z) : result Model :=
  if FilterState_eqb (filterState m) Unfiltered then
    items' <- swapItemsInSlice (items m) index (GoInt.sub index 1) ;;
    Ok (CursorUp (set_items items' m))
  else Ok m.

(** [Model.MoveItemDown] *)
Definition MoveItemDown (m : Model) (index : Z) : result Model :=
  if FilterState_eqb (filterState m) Unfiltered then
    items' <- swapItemsInSlice (items m) index (GoInt.add index 1) ;;
    Ok (CursorDown (set_items items' m))
  else Ok m.

(** [Model.InsertItem] *)
Definition InsertItem (m : Model) (index : Z) (item : Item) : result (Model * Cmd) :=
  items' <- insertItemIntoSlice (items m) item index ;;
  let m := set_items items' m in
  let cmd :=
    if negb (FilterState_eqb (filterState m) Unfiltered) then filterItems m
    else cmd_nil in
  Ok (updateKeybindings m, cmd).

(** [Model.RemoveItem] *)
Definition RemoveItem (m : Model) (index : Z) : result Model :=
  items' <- removeItemFromSlice (items m) index ;;
  let m := set_items items' m in
  if negb (FilterState_eqb (filterState m) Unfiltered) then
    fi <- removeFilterMatchFromSlice (filteredItems m) index ;;
    let m := set_filteredItems fi m in
    if len (filteredItems m) =? 0 then Ok (resetFiltering m) else Ok m
  else Ok m.

(** [Model.hideStatusMessage] *)
Definition hideStatusMessage (m : Model) : Model :=
  let m := set_statusMessage EmptyString m in
  match statusMessageTimer m with
  | Some _ => set_statusMessageTimer (Some timer_stopped) m
  | None => m
  end.

(* ------------------------------------------------------------------ *)
(** ** Viewport *)

(** [Model.updateViewportBounds]: update viewport according to the
    amount of items for the current state. *)
Definition updateViewportBounds (m : Model) : result Model :=
  let index := Index m in
  if index <? 0 then
    Ok (set_lastItemIndexInView 0 (set_firstItemIndexInView 0 m))
  else
    let availHeight := height m in
    let availHeight :=
      if showTitle m || (showFilter m && filteringEnabled m)
      then GoInt.sub availHeight (titleView_Height m) else availHeight in
    let availHeight :=
      if showStatusBar m then GoInt.sub availHeight (statusView_Height m)
      else availHeight in
    let availHeight :=
      if showHelp m then GoInt.sub availHeight (helpView_Height m)
      else availHeight in
    let itemHeight := GoInt.add (Height (delegate m)) (Spacing (delegate m)) in
    q <- go_quot availHeight itemHeight ;;
    let availSpace := max 1 q in
    let availItems := AvailableItems m in
    let requiredSpace := len availItems in
    let currentFirst := firstItemIndexInView m in
    let currentLast := GoInt.sub (min requiredSpace (GoInt.add currentFirst availSpace)) 1 in
    (* If selected item already in viewport, do nothing. *)
    if (currentFirst <=? index) && (index <=? currentLast) then
      Ok (set_lastItemIndexInView currentLast m)
    (* If selected item is below the bottom of view port
       scroll the view port till the bottom reaches selected item. *)
    else if currentLast <? index then
      Ok (set_lastItemIndexInView index
            (set_firstItemIndexInView
               (max 0 (GoInt.add (GoInt.sub index availSpace) 1)) m))
    (* If selected item is above the top of view port
       scroll the view port till the top reaches selected item. *)
    else if currentFirst >? index then
      Ok (set_lastItemIndexInView
            (GoInt.sub (GoInt.add index (min requiredSpace availSpace)) 1)
            (set_firstItemIndexInView index m))
    else Ok m.

(* ------------------------------------------------------------------ *)
(** ** The update loop *)

(** [Model.handleMoving] *)
Definition handleMoving (m : Model) (msg : Msg) : result (Model * Cmd) :=
  m <- match msg with
       | KeyMsg k =>
         if key_Matches k (KeyMap.MoveUp (keyMap m)) then MoveItemUp m (Index m)
         else if key_Matches k (KeyMap.MoveDown (keyMap m)) then MoveItemDown m (Index m)
         else Ok m
       | _ => Ok m
       end ;;
  let '(m, cmd) := delegate_Update (delegate m) msg m in
  Ok (m, tea_Batch [cmd]).

(** [Model.handleBrowsing]: updates for when a user is browsing the list. *)
Definition handleBrowsing (m : Model) (msg : Msg) : Model * Cmd :=
  let continue (m : Model) : Model * Cmd :=
    let '(m, cmd) := delegate_Update (delegate m) msg m in
    (m, tea_Batch [cmd]) in
  match msg with
  | KeyMsg k =>
    let km := keyMap m in
    (* Note: we match clear filter before quit because, by default,
       they're both mapped to escape. *)
    if key_Matches k (KeyMap.ClearFilter km) then continue (resetFiltering m)
    else if key_Matches k (KeyMap.Quit km) then (m, tea_Quit)
    else if key_Matches k (KeyMap.CursorUp km) then continue (CursorUp m)
    else if key_Matches k (KeyMap.CursorDown km) then continue (CursorDown m)
    else if key_Matches k (KeyMap.GoToStart km) then continue (ResetSelected m)
    else if key_Matches k (KeyMap.GoToEnd km) then continue (Select m (len (items m)))
    else if key_Matches k (KeyMap.Filter km) then
      let m := hideStatusMessage m in
      let m :=
        if String.eqb (textinput_Value (FilterInput m)) EmptyString
        then set_filteredItems (itemsAsFilterItems m) m (* populate with all items *)
        else m in
      let m := ResetSelected m in
      let m := set_filterState Filtering m in
      let m := set_FilterInput (textinput_CursorEnd (FilterInput m)) m in
      let m := set_FilterInput (textinput_Focus (FilterInput m)) m in
      let m := updateKeybindings m in
      (m, textinput_Blink)
    else if key_Matches k (KeyMap.ShowFullHelp km)
            || key_Matches k (KeyMap.CloseFullHelp km) then
      continue
        (set_Help {| ShowAll := negb (ShowAll (Help m)); help_Width := help_Width (Help m) |} m)
    else continue m
  | _ => continue m
  end.

(** [Model.handleFiltering]: updates for when a user is in the filter
    editing interface. *)
Definition handleFiltering (m : Model) (msg : Msg) : Model * Cmd :=
  (* Handle keys *)
  let m :=
    match msg with
    | KeyMsg k =>
      if key_Matches k (KeyMap.CancelWhileFiltering (keyMap m)) then
        let m := resetFiltering m in
        let km := keyMap m in
        let km := KeyMap.set_Filter (key_SetEnabled (KeyMap.Filter km) true) km in
        let km := KeyMap.set_ClearFilter (key_SetEnabled (KeyMap.ClearFilter km) false) km in
        set_keyMap km m
      else if key_Matches k (KeyMap.AcceptWhileFiltering (keyMap m)) then
        let m := hideStatusMessage m in
        if len (items m) =? 0 then m
        else
          let h := AvailableItems m in
          (* If we've filtered down to nothing, clear the filter *)
          if len h =? 0 then resetFiltering m
          else
            let m := set_FilterInput (textinput_Blur (FilterInput m)) m in
            let m := set_filterState FilterApplied m in
            let m := updateKeybindings m in
            if String.eqb (textinput_Value (FilterInput m)) EmptyString
            then resetFiltering m
            else m
      else m
    | _ => m
    end in
  (* Update the filter text input component *)
  let '(newFilterInputModel, inputCmd) := textinput_Update (FilterInput m) msg in
  let filterChanged :=
    negb (String.eqb (textinput_Value (FilterInput m))
                     (textinput_Value newFilterInputModel)) in
  let m := set_FilterInput newFilterInputModel m in
  (* If the filtering input has changed, request updated filtering *)
  if filterChanged then
    let cmd := filterItems m in
    let km := keyMap m in
    let m :=
      set_keyMap
        (KeyMap.set_AcceptWhileFiltering
           (key_SetEnabled (KeyMap.AcceptWhileFiltering km)
              (negb (String.eqb (textinput_Value (FilterInput m)) EmptyString))) km) m in
    (m, tea_Batch [inputCmd; cmd])
  else (m, tea_Batch [inputCmd]).

(** The part of [Model.Update] after its type switch: the message goes
    to the filter editor while filtering, else to browsing and moving. *)
Definition Update_handlers (m : Model) (cmds : list Cmd) (msg : Msg)
  : result (Model * Cmd) :=
  if FilterState_eqb (filterState m) Filtering then
    let '(m, cmd) := handleFiltering m msg in
    Ok (m, tea_Batch (cmds ++ [cmd]))
  else
    let '(m, cmd1) := handleBrowsing m msg in
    r <- handleMoving m msg ;;
    let '(m, cmd2) := r in
    Ok (m, tea_Batch (cmds ++ [cmd1; cmd2])).

(** [Model.Update]: the Bubble Tea update loop. *)
Definition Update (m : Model) (msg : Msg) : result (Model * Cmd) :=
  match msg with
  | KeyMsg k =>
    if key_Matches k (KeyMap.ForceQuit (keyMap m)) then Ok (m, tea_Quit)
    else Update_handlers m [] msg
  | FilterMatchesMsg fi =>
    Ok (set_filteredItems fi m, cmd_nil)
  | TickMsg t =>
    let '(newSpinnerModel, cmd) := spinner_Update (spinner m) t in
    let m := set_spinner newSpinnerModel m in
    Update_handlers m (if showSpinner m then [cmd] else []) msg
  | statusMessageTimeoutMsg =>
    Update_handlers (hideStatusMessage m) [] msg
  | OtherMsg _ =>
    Update_handlers m [] msg
  end.

(** [New]: a new model with sensible defaults. *)
Definition New (items : slice Item) (delegate : ItemDelegate) (width height : Z) : Model :=
  let index := if len items >? 0 then 0 else -1 in
  updateKeybindings
    {| showTitle := true; showFilter := true; showStatusBar := true; showHelp := true;
       filteringEnabled := true; keyMap := DefaultKeyMap; Filter := DefaultFilter;
       disableQuitKeybindings := false; AdditionalFullHelpKeys := None;
       spinner := spinner_New; showSpinner := false; width := width; height := height;
       Help := help_New; FilterInput := textinput_New; filterState := Unfiltered;
       statusMessage := EmptyString; statusMessageTimer := None;
       items := items; index := index; firstItemIndexInView := 0;
       lastItemIndexInView := 0; filteredItems := nil_slice; delegate := delegate |}.

(* ------------------------------------------------------------------ *)
(** ** Further methods of [Model] *)

(** [Model.SetFilteringEnabled] *)
Definition SetFilteringEnabled (m : Model) (v : bool) : Model :=
  let m := set_filteringEnabled v m in
  let m := if negb v then resetFiltering m else m in
  updateKeybindings m.

(** [Model.SetItem] *)
Definition SetItem (m : Model) (index : Z) (item : Item) : result (Model * Cmd) :=
  items' <- slice_set (items m) index item ;;
  let m := set_items items' m in
  let cmd :=
    if negb (FilterState_eqb (filterState m) Unfiltered) then filterItems m
    else cmd_nil in
  Ok (m, cmd).

(** [Model.MatchesForItem] *)
Definition MatchesForItem (m : Model) (index : Z) : result (slice Z) :=
  if is_nil (filteredItems m) || (index >=? len (filteredItems m)) then Ok nil_slice
  else
    fi <- slice_get (filteredItems m) index ;;
    Ok (matches fi).

(** [Model.DisableQuitKeybindings] *)
Definition DisableQuitKeybindings (m : Model) : Model :=
  let m := set_disableQuitKeybindings true m in
  let km := keyMap m in
  let km := KeyMap.set_Quit (key_SetEnabled (KeyMap.Quit km) false) km in
  let km := KeyMap.set_ForceQuit (key_SetEnabled (KeyMap.ForceQuit km) false) km in
  set_keyMap km m.

(* ------------------------------------------------------------------ *)
(** ** The default delegate (defaultitem.go) *)

(** [DefaultDelegate], without its styles.  A nil function field is
    [None]; the help functions are kept as the bindings they return. *)
Record DefaultDelegate : Type := {
  UpdateFunc : option (Msg -> Model -> Model * Cmd);
  ShortHelpFunc : option (list key_Binding);
  FullHelpFunc : option (list (list key_Binding));
  delegate_height : Z;
  delegate_spacing : Z
}.

(** [NewDefaultDelegate] *)
Definition NewDefaultDelegate : DefaultDelegate :=
  {| UpdateFunc := None; ShortHelpFunc := None; FullHelpFunc := None;
     delegate_height := 1; delegate_spacing := 1 |}.

(** [DefaultDelegate.Height] *)
Definition DefaultDelegate_Height (d : DefaultDelegate) : Z := delegate_height d.

(** [DefaultDelegate.SetSpacing] *)
Definition DefaultDelegate_SetSpacing (d : DefaultDelegate) (i : Z) : DefaultDelegate :=
  {| UpdateFunc := UpdateFunc d; ShortHelpFunc := ShortHelpFunc d;
     FullHelpFunc := FullHelpFunc d; delegate_height := delegate_height d;
     delegate_spacing := i |}.

(** [DefaultDelegate.Spacing] *)
Definition DefaultDelegate_Spacing (d : DefaultDelegate) : Z := delegate_spacing d.

(** [DefaultDelegate.Update] *)
Definition DefaultDelegate_Update (d : DefaultDelegate) (msg : Msg) (m : Model)
  : Model * Cmd :=
  match UpdateFunc d with
  | None => (m, cmd_nil)
  | Some f => f msg m
  end.

(** [DefaultDelegate.ShortHelp] *)
Definition DefaultDelegate_ShortHelp (d : DefaultDelegate) : list key_Binding :=
  match ShortHelpFunc d with
  | Some f => f
  | None => []
  end.

(** [DefaultDelegate.FullHelp] *)
Definition DefaultDelegate_FullHelp (d : DefaultDelegate) : list (list key_Binding) :=
  match FullHelpFunc d with
  | Some f => f
  | None => []
  end.

(** A [DefaultDelegate] where an [ItemDelegate] is expected: it has the
    four methods of the interface and those of [help.KeyMap]. *)
Definition DefaultDelegate_as_ItemDelegate (d : DefaultDelegate) : ItemDelegate :=
  {| Height := DefaultDelegate_Height d;
     Spacing := DefaultDelegate_Spacing d;
     delegate_help := Some (DefaultDelegate_ShortHelp d, DefaultDelegate_FullHelp d) |}.


(* ------------------------------------------------------------------ *)
(** ** Names for parts of the functions above

    These are not functions of list.go: they name an expression or a
    branch of one, so that the properties below can speak about it. *)

(** The position at which [insertItemIntoSlice] places the item: the
    index clamped into [0 .. len]. *)
Definition insert_position (items : slice Item) (index : Z) : nat :=
  Z.to_nat (Z.min (Z.max 0 index) (len items)).

(** The key handling of [handleFiltering] on an accept key: the body of
    the [AcceptWhileFiltering] case. *)
Definition accept_filter (m : Model) : Model :=
  let m := hideStatusMessage m in
  if len (items m) =? 0 then m
  else if len (AvailableItems m) =? 0 then resetFiltering m
  else
    let m := set_FilterInput (textinput_Blur (FilterInput m)) m in
    let m := set_filterState FilterApplied m in
    let m := updateKeybindings m in
    if String.eqb (textinput_Value (FilterInput m)) EmptyString
    then resetFiltering m
    else m.

(** The number of items that fit the viewport, [availSpace] in
    [updateViewportBounds]. *)
Definition viewport_capacity (m : Model) : result Z :=
  let availHeight := height m in
  let availHeight :=
    if showTitle m || (showFilter m && filteringEnabled m)
    then GoInt.sub availHeight (titleView_Height m) else availHeight in
  let availHeight :=
    if showStatusBar m then GoInt.sub availHeight (statusView_Height m)
    else availHeight in
  let availHeight :=
    if showHelp m then GoInt.sub availHeight (helpView_Height m)
    else availHeight in
  let itemHeight := GoInt.add (Height (delegate m)) (Spacing (delegate m)) in
  q <- go_quot availHeight itemHeight ;;
  Ok (max 1 q).

(** The list [l] with the items at positions [i] and [j] exchanged:
    the result of the tuple assignment in [swapItemsInSlice]. *)
Definition exchanged (l : list Item) (i j : nat) : list Item :=
  list_set (list_set l i (nth j l nil_item)) j (nth i l nil_item).

(** The position [swapItemsInSlice] uses for an index: the index put
    into [0 .. len - 1] by [setInBounds]. *)
Definition swap_position (items : slice Item) (index : Z) : nat :=
  Z.to_nat (Z.min (len items - 1) (Z.max index 0)).

(** The [Filter] case of the key switch of [handleBrowsing] is the one
    taken: the key matches none of the bindings tried before it. *)
Definition reaches_Filter_case (km : KeyMap.t) (k : tea_KeyMsg) : bool :=
  negb (key_Matches k (KeyMap.ClearFilter km))
  && negb (key_Matches k (KeyMap.Quit km))
  && negb (key_Matches k (KeyMap.CursorUp km))
  && negb (key_Matches k (KeyMap.CursorDown km))
  && negb (key_Matches k (KeyMap.GoToStart km))
  && negb (key_Matches k (KeyMap.GoToEnd km))
  && key_Matches k (KeyMap.Filter km).

(** The filtered item the command of [filterItems] builds for a rank. *)
Definition rank_match (items : slice Item) (r : Rank) : filteredItem :=
  {| item := nth (Z.to_nat (Index_ r)) (elems items) nil_item;
     matches := MatchedIndexes r |}.

(** No item of the sequence is the nil interface. *)
Definition no_nil_item (items : slice Item) : bool :=
  forallb (fun t => negb (Item_is_nil t)) (elems items).

(** Every rank points into the sequence. *)
Definition ranks_in_range (items : slice Item) (ranks : list Rank) : bool :=
  forallb (fun r => (0 <=? Index_ r) && (Index_ r <? len items)) ranks.

(** The ranks the model's filter function returns for a query: it is
    called with the filter values of the items. *)
Definition ranks_for (m : Model) (query : string) : list Rank :=
  Filter m query (map Item_FilterValue (elems (items m))).

(** What the filter editor leaves alone: the master sequence, the
    selected index, the viewport bounds and the delegate. *)
Definition same_store (m m' : Model) : Prop :=
  items m' = items m /\
  index m' = index m /\
  firstItemIndexInView m' = firstItemIndexInView m /\
  lastItemIndexInView m' = lastItemIndexInView m /\
  delegate m' = delegate m.

(** A delegate whose [Update] returns nil and leaves the model alone on
    the message, as [DefaultDelegate.Update] does without an
    [UpdateFunc]. *)
Definition delegate_idle (d : ItemDelegate) (msg : Msg) : Prop :=
  forall m : Model, delegate_Update d msg m = (m, cmd_nil).

(** The quit keys are switched off: the flag is set and both bindings
    were last disabled. *)
Definition quit_keys_off (m : Model) : Prop :=
  disableQuitKeybindings m = true /\
  (exists b, KeyMap.Quit (keyMap m) = key_SetEnabled b false) /\
  (exists b, KeyMap.ForceQuit (keyMap m) = key_SetEnabled b false).

End Component.

(* ------------------------------------------------------------------ *)
(** ** A concrete instance

    A small instance of the collaborators, on which the component can
    be run: items are strings (the filter value is the string itself),
    a key message is the key's name, a binding is its keys and its
    disabled flag, and the text input holds its value and focus. *)

Module Demo.
Local Open Scope string_scope.

Record binding : Type := { keys : list string; disabled : bool }.

Definition matches_key (k : string) (b : binding) : bool :=
  negb (disabled b) && existsb (String.eqb k) (keys b).

Record input : Type := { value : string; focus : bool }.

#[export] Instance externals : Externals := {|
  Item := option string;
  nil_item := None;
  Item_FilterValue := fun i => match i with Some s => s | None => EmptyString end;
  Item_is_nil := fun i => match i with Some _ => false | None => true end;
  tea_KeyMsg := string;
  key_Binding := binding;
  key_Matches := matches_key;
  key_SetEnabled := fun b v => {| keys := keys b; disabled := negb v |};
  key_Enabled := fun b => negb (disabled b);
  textinput_Model := input;
  textinput_Value := value;
  textinput_Reset := fun t => {| value := EmptyString; focus := focus t |};
  textinput_Blur := fun t => {| value := value t; focus := false |};
  textinput_Focus := fun t => {| value := value t; focus := true |};
  textinput_CursorEnd := fun t => t;
  textinput_Reset_Value := fun _ => eq_refl;
  textinput_Blur_Value := fun _ => eq_refl;
  spinner_Model := unit;
  spinner_TickMsg := unit;
  other_Msg := unit;
  other_Cmd := unit
|}.

Definition bound (ks : list string) : binding := {| keys := ks; disabled := false |}.

(** The key names of [DefaultKeyMap] (keys.go). *)
Definition keymap : KeyMap.t :=
  KeyMap.mk
    (bound ["up"; "k"]) (bound ["down"; "j"])
    (bound ["shift+up"]) (bound ["shift+down"])
    (bound ["home"; "g"]) (bound ["end"; "G"])
    (bound ["/"]) (bound ["esc"])
    (bound ["esc"]) (bound ["enter"; "tab"])
    (bound ["?"]) (bound ["?"])
    (bound ["q"; "esc"]) (bound ["ctrl+c"]).

(** The text input appends a printable one-character key while it has
    the focus and ignores every other message. *)
Definition input_update (t : input) (msg : Msg) : input * Cmd :=
  match msg with
  | KeyMsg (String c EmptyString as k) =>
    if focus t then ({| value := value t ++ k; focus := true |}, cmd_nil)
    else (t, cmd_nil)
  | _ => (t, cmd_nil)
  end.

#[export] Instance collaborators : Collaborators := {|
  textinput_Update := input_update;
  spinner_Update := fun s _ => (s, cmd_nil);
  delegate_Update := fun _ _ m => (m, cmd_nil);
  titleView_Height := fun _ => 2;
  statusView_Height := fun _ => 2;
  helpView_Height := fun _ => 2;
  textinput_New := {| value := EmptyString; focus := true |};
  spinner_New := tt;
  help_New := {| ShowAll := false; help_Width := 0 |};
  DefaultKeyMap := keymap;
  DefaultFilter := fun _ _ => []
|}.

(** [NewDefaultDelegate()]: height 1, spacing 1, no help of its own. *)
Definition default_delegate : ItemDelegate :=
  {| Height := 1; Spacing := 1; delegate_help := None |}.

Definition A : Item := Some "A".
Definition B : Item := Some "B".
Definition C : Item := Some "C".
Definition D : Item := Some "D".
Definition X : Item := Some "X".

(** A model with no title, status bar or help around the list and a
    delegate of height 1 and spacing 0, so that the viewport holds
    [height] items. *)
Definition bare (its : slice Item) (fi : slice filteredItem) (st : FilterState)
    (query : string) (i first last h : Z) : Model :=
  {| showTitle := false; showFilter := false; showStatusBar := false; showHelp := false;
     filteringEnabled := true; keyMap := keymap; Filter := fun _ _ => [];
     disableQuitKeybindings := false; AdditionalFullHelpKeys := None;
     spinner := tt; showSpinner := false; width := 80; height := h;
     Help := {| ShowAll := false; help_Width := 80 |};
     FilterInput := {| value := query; focus := true |}; filterState := st;
     statusMessage := EmptyString; statusMessageTimer := None;
     items := its; index := i; firstItemIndexInView := first;
     lastItemIndexInView := last; filteredItems := fi;
     delegate := {| Height := 1; Spacing := 0; delegate_help := None |} |}.

(** [New] on the one-item list [A]. *)
Definition single : Model := New (mk_slice [A]) default_delegate 80 24.

(** Three items, browsing. *)
Definition store3 : Model :=
  bare (mk_slice [A; B; C]) nil_slice Unfiltered "" 0 0 0 10.

(** Five items in a viewport of three; the window was last left at
    [4 .. 4] and the selection has moved up to 3. *)
Definition scrolled : Model :=
  bare (mk_slice [A; B; C; D; X]) nil_slice Unfiltered "" 3 4 4 3.

(** Editing the filter: the query is "A" and one item matches. *)
Definition filtering : Model :=
  bare (mk_slice [A; B; C])
       (mk_slice [{| item := A; matches := mk_slice [0] |}]) Filtering "A" 0 0 0 10.

(** The filter "A" applied, with its one match. *)
Definition applied : Model :=
  bare (mk_slice [A; B; C])
       (mk_slice [{| item := A; matches := mk_slice [0] |}]) FilterApplied "A" 0 0 0 10.

(** Three items with the second one, resp. the last one, selected. *)
Definition second_selected : Model :=
  bare (mk_slice [A; B; C]) nil_slice Unfiltered "" 1 0 2 10.

Definition last_selected : Model :=
  bare (mk_slice [A; B; C]) nil_slice Unfiltered "" 2 0 2 10.

(** [single] after its only item was removed: the master sequence is
    empty and not nil. *)
Definition emptied : Model :=
  match RemoveItem single 0 with
  | Ok m => m
  | Panic _ => single
  end.

(** A filter function that ranks, in order, the targets that start
    with the term. *)
Fixpoint prefix_ranks (term : string) (targets : list string) (i : Z) : list Rank :=
  match targets with
  | [] => []
  | t :: rest =>
    if String.prefix term t
    then {| Index_ := i; MatchedIndexes := mk_slice [0] |} :: prefix_ranks term rest (i + 1)
    else prefix_ranks term rest (i + 1)
  end.

(** Editing the filter with that filter function; nothing typed yet. *)
Definition searching : Model :=
  {| showTitle := false; showFilter := false; showStatusBar := false; showHelp := false;
     filteringEnabled := true; keyMap := keymap;
     Filter := fun term targets => prefix_ranks term targets 0;
     disableQuitKeybindings := false; AdditionalFullHelpKeys := None;
     spinner := tt; showSpinner := false; width := 80; height := 10;
     Help := {| ShowAll := false; help_Width := 80 |};
     FilterInput := {| value := ""; focus := true |}; filterState := Filtering;
     statusMessage := EmptyString; statusMessageTimer := None;
     items := mk_slice [A; B; C]; index := 0; firstItemIndexInView := 0;
     lastItemIndexInView := 0;
     filteredItems :=
       mk_slice [{| item := A; matches := nil_slice |};
                 {| item := B; matches := nil_slice |};
                 {| item := C; matches := nil_slice |}];
     delegate := {| Height := 1; Spacing := 0; delegate_help := None |} |}.

(** A one-item list drawn by the default delegate with spacing -1. *)
Definition spaced : Model :=
  New (mk_slice [A])
    (DefaultDelegate_as_ItemDelegate (DefaultDelegate_SetSpacing NewDefaultDelegate (-1)))
    80 24.

End Demo.

(* ------------------------------------------------------------------ *)
(** * Properties *)

(** ** Arithmetic helpers *)

(** Side conditions "this value fits Go's [int]". *)
Ltac go_int :=
  unfold GoInt.in_range, GoInt.min_int, GoInt.max_int in *; lia.

Lemma max_spec a b : max a b = Z.max a b.
Proof. unfold max. destruct (Z.gtb_spec a b); lia. Qed.

Lemma min_spec a b : min a b = Z.min a b.
Proof. unfold min. destruct (Z.ltb_spec a b); lia. Qed.

(** ** Slice operations *)

Section SliceFacts.
Context {A : Type}.
Implicit Types (s : slice A) (l : list A).

Lemma len_nonneg s : 0 <= len s.
Proof. unfold len. lia. Qed.

Lemma len_mk l : len (mk_slice l) = Z.of_nat (List.length l).
Proof. reflexivity. Qed.

Lemma list_set_middle l1 l2 (x v : A) :
  list_set (l1 ++ x :: l2) (List.length l1) v = l1 ++ v :: l2.
Proof. induction l1 as [|h t IH]; cbn; [reflexivity | now rewrite IH]. Qed.

Lemma list_set_length l n (v : A) : List.length (list_set l n v) = List.length l.
Proof.
  revert n; induction l as [|h t IH]; intros [|n]; cbn; auto.
Qed.

Lemma slice_from_ok s lo :
  0 <= lo <= len s -> slice_from s lo = Ok (Z.to_nat lo).
Proof.
  intros H. unfold slice_from.
  destruct (Z.leb_spec 0 lo); [|lia]. destruct (Z.leb_spec lo (len s)); [|lia].
  reflexivity.
Qed.

Lemma slice_from_negative s lo :
  lo < 0 -> slice_from s lo = Panic SliceBoundsOutOfRange.
Proof.
  intros H. unfold slice_from. destruct (Z.leb_spec 0 lo); [lia | reflexivity].
Qed.

Lemma slice_set_ok s i (v : A) :
  0 <= i < len s ->
  slice_set s i v = Ok (mk_slice (list_set (elems s) (Z.to_nat i) v)).
Proof.
  intros H. unfold slice_set.
  destruct (Z.leb_spec 0 i); [|lia]. destruct (Z.ltb_spec i (len s)); [|lia].
  reflexivity.
Qed.

Lemma slice_get_ok s i :
  0 <= i < len s ->
  exists a, nth_error (elems s) (Z.to_nat i) = Some a /\ slice_get s i = Ok a.
Proof.
  intros H. unfold slice_get.
  destruct (Z.leb_spec 0 i); [|lia]. destruct (Z.ltb_spec i (len s)); [|lia].
  cbn. destruct (nth_error (elems s) (Z.to_nat i)) as [a|] eqn:Hn.
  - now exists a.
  - apply nth_error_None in Hn. unfold len in H. lia.
Qed.

Lemma slice_get_nth s i (d : A) :
  0 <= i < len s -> slice_get s i = Ok (nth (Z.to_nat i) (elems s) d).
Proof.
  intros H. destruct (slice_get_ok s i H) as (a & Hn & ->).
  now rewrite (nth_error_nth _ _ d Hn).
Qed.

Lemma slice_get_out s i :
  i < 0 \/ len s <= i -> slice_get s i = Panic IndexOutOfRange.
Proof.
  intros H. unfold slice_get.
  destruct (Z.leb_spec 0 i); destruct (Z.ltb_spec i (len s)); cbn; try reflexivity; lia.
Qed.

(** Moving the tail one cell to the left: [copy(l[k:], l[k+1:])]. *)
Lemma copy_overlap_left l k :
  (k < List.length l)%nat ->
  copy_overlap l k (S k) = firstn k l ++ skipn (S k) l ++ skipn (List.length l - 1) l.
Proof.
  intros H. unfold copy_overlap.
  replace (Nat.min (List.length l - k) (List.length l - S k)) with (List.length l - S k)%nat by lia.
  rewrite (firstn_all2 (skipn (S k) l)) by (rewrite length_skipn; lia).
  replace (k + (List.length l - S k))%nat with (List.length l - 1)%nat by lia.
  reflexivity.
Qed.

(** Moving the tail one cell to the right: [copy(l[k+1:], l[k:])]. *)
Lemma copy_overlap_right l k :
  (k < List.length l)%nat ->
  copy_overlap l (S k) k = firstn (S k) l ++ firstn (List.length l - S k) (skipn k l).
Proof.
  intros H. unfold copy_overlap.
  replace (Nat.min (List.length l - S k) (List.length l - k)) with (List.length l - S k)%nat by lia.
  replace (S k + (List.length l - S k))%nat with (List.length l) by lia.
  now rewrite skipn_all, app_nil_r.
Qed.

(** An index at or past the end is a no-op. *)
Lemma remove_from_slice_noop (zero : A) s index :
  len s <= index -> remove_from_slice zero s index = Ok s.
Proof.
  intros H. unfold remove_from_slice.
  destruct (Z.geb_spec index (len s)); [reflexivity | lia].
Qed.

(** A negative index makes the slicing expression [i[index:]] panic. *)
Lemma remove_from_slice_negative (zero : A) s index :
  index < 0 -> remove_from_slice zero s index = Panic SliceBoundsOutOfRange.
Proof.
  intros H. unfold remove_from_slice.
  pose proof (len_nonneg s).
  destruct (Z.geb_spec index (len s)); [lia|].
  unfold copy_within. now rewrite slice_from_negative.
Qed.

(** A valid index removes that element and shifts the suffix left. *)
Lemma remove_from_slice_valid (zero : A) s index :
  len s <= GoInt.max_int ->
  0 <= index < len s ->
  remove_from_slice zero s index =
  Ok (mk_slice (firstn (Z.to_nat index) (elems s) ++ skipn (S (Z.to_nat index)) (elems s))).
Proof.
  intros Hmax H.
  destruct s as [|l]; [cbn in H; lia|]. rewrite len_mk in *. cbn [elems].
  unfold remove_from_slice. rewrite len_mk.
  destruct (Z.geb_spec index (Z.of_nat (List.length l))); [lia|].
  assert (Hadd : GoInt.add index 1 = index + 1).
  { apply GoInt.add_id. go_int. }
  assert (Hsub : GoInt.sub (Z.of_nat (List.length l)) 1 = Z.of_nat (List.length l) - 1).
  { apply GoInt.sub_id. go_int. }
  rewrite Hadd, Hsub.
  unfold copy_within. rewrite !slice_from_ok by (rewrite len_mk; lia).
  cbn [bind elems].
  replace (Z.to_nat (index + 1)) with (S (Z.to_nat index)) by lia.
  rewrite copy_overlap_left by lia.
  set (k := Z.to_nat index) in *.
  assert (Hlen : List.length (firstn k l ++ skipn (S k) l) = (List.length l - 1)%nat).
  { rewrite length_app, length_firstn, length_skipn. lia. }
  assert (Hlast : exists x, skipn (List.length l - 1) l = [x]).
  { destruct (skipn (List.length l - 1) l) as [|x [|y t]] eqn:Hs;
      pose proof (f_equal (@List.length A) Hs) as Hs'; rewrite length_skipn in Hs'; cbn in Hs';
      [lia | now exists x | lia]. }
  destruct Hlast as [x ->].
  rewrite app_assoc.
  rewrite slice_set_ok.
  2:{ rewrite len_mk, length_app, Hlen. cbn. lia. }
  cbn [bind elems].
  replace (Z.to_nat (Z.of_nat (List.length l) - 1)) with
    (List.length (firstn k l ++ skipn (S k) l)) by lia.
  rewrite list_set_middle.
  unfold slice_to. rewrite len_mk, length_app, Hlen. cbn [List.length].
  destruct (Z.leb_spec 0 (Z.of_nat (List.length l) - 1)); [|lia].
  destruct (Z.leb_spec (Z.of_nat (List.length l) - 1) (Z.of_nat (List.length l - 1 + 1))); [|lia].
  cbn [andb]. f_equal. f_equal.
  replace (Z.to_nat (Z.of_nat (List.length l) - 1)) with
    (List.length (firstn k l ++ skipn (S k) l) + 0)%nat by lia.
  now rewrite firstn_app_2, firstn_O, app_nil_r.
Qed.

End SliceFacts.

(** ** The item store *)

Section StoreFacts.
Context {E : Externals}.

Lemma firstn_succ_snoc {A : Type} (l : list A) k :
  (k < List.length l)%nat -> exists x, firstn (S k) l = firstn k l ++ [x].
Proof.
  revert k; induction l as [|h t IH]; intros k Hk; cbn in Hk; [lia|].
  destruct k as [|k].
  - now exists h.
  - destruct (IH k ltac:(lia)) as [x Hx]. exists x.
    change (firstn (S (S k)) (h :: t)) with (h :: firstn (S k) t). now rewrite Hx.
Qed.

(** [insertItemIntoSlice] never panics and returns the sequence with
    the item placed at the clamped index. *)
Lemma insertItemIntoSlice_spec (items : slice Item) (item : Item) (index : Z) :
  len items <= GoInt.max_int ->
  insertItemIntoSlice items item index =
  Ok (mk_slice (firstn (insert_position items index) (elems items)
                ++ item :: skipn (insert_position items index) (elems items))).
Proof.
  intros Hmax. unfold insertItemIntoSlice, insert_position.
  destruct items as [|l]; cbn [is_nil elems].
  - now rewrite firstn_nil, skipn_nil.
  - rewrite len_mk in *.
    destruct (Z.geb_spec index (Z.of_nat (List.length l))) as [Hge|Hlt].
    + assert (Z.to_nat (Z.min (Z.max 0 index) (Z.of_nat (List.length l))) = List.length l)
        as -> by lia.
      now rewrite firstn_all, skipn_all.
    + rewrite max_spec.
      assert (Hi : 0 <= Z.max 0 index <= Z.of_nat (List.length l)) by lia.
      assert (Hi' : Z.max 0 index + 1 <= GoInt.max_int)
        by (unfold GoInt.max_int in *; lia).
      set (i := Z.max 0 index) in *. clearbody i.
      replace (Z.min i (Z.of_nat (List.length l))) with i by lia.
      assert (Hadd : GoInt.add i 1 = i + 1).
      { apply GoInt.add_id. go_int. }
      rewrite Hadd. unfold append, copy_within. cbn [elems].
      rewrite !slice_from_ok by (rewrite len_mk, length_app; cbn; lia).
      cbn [bind].
      replace (Z.to_nat (i + 1)) with (S (Z.to_nat i)) by lia.
      assert (Hk : (Z.to_nat i <= List.length l)%nat) by lia.
      assert (Hik : i = Z.of_nat (Z.to_nat i)) by lia.
      set (k := Z.to_nat i) in *. clearbody k. subst i.
      rewrite copy_overlap_right by (rewrite length_app; cbn; lia).
      rewrite length_app. cbn [List.length].
      destruct (firstn_succ_snoc (l ++ [nil_item]) k) as [x ->];
        [rewrite length_app; cbn; lia|].
      rewrite firstn_app. replace (k - List.length l)%nat with 0%nat by lia.
      rewrite firstn_O, app_nil_r.
      rewrite skipn_app. replace (k - List.length l)%nat with 0%nat by lia.
      rewrite skipn_O.
      replace (List.length l + 1 - S k)%nat with (List.length (skipn k l) + 0)%nat
        by (rewrite length_skipn; lia).
      rewrite firstn_app_2, firstn_O, app_nil_r.
      rewrite slice_set_ok.
      2:{ rewrite len_mk, !length_app, length_firstn, length_skipn. cbn. lia. }
      cbn [elems]. rewrite Nat2Z.id, <- app_assoc. cbn [app].
      pose proof (list_set_middle (firstn k l) (skipn k l) x item) as Hset.
      rewrite length_firstn, Nat.min_l in Hset by lia.
      now rewrite Hset.
Qed.

(** X1.  Round trip on a valid position: removing the element at
    [index] and inserting it back at [index] restores the sequence. *)
Lemma remove_insert_roundtrip (items : slice Item) (index : Z) (x : Item) :
  len items <= GoInt.max_int ->
  0 <= index < len items ->
  slice_get items index = Ok x ->
  (s <- removeItemFromSlice items index ;; insertItemIntoSlice s x index) = Ok items.
Proof.
  intros Hmax Hi Hx. unfold removeItemFromSlice.
  rewrite remove_from_slice_valid by assumption. cbn [bind].
  destruct items as [|l]; [cbn in Hi; lia|]. cbn [elems] in *. rewrite len_mk in *.
  set (k := Z.to_nat index).
  assert (Hlen : List.length (firstn k l ++ skipn (S k) l) = (List.length l - 1)%nat).
  { rewrite length_app, length_firstn, length_skipn. lia. }
  rewrite insertItemIntoSlice_spec by (rewrite len_mk, Hlen; lia).
  unfold insert_position. rewrite len_mk, Hlen. cbn [elems].
  assert (Z.to_nat (Z.min (Z.max 0 index) (Z.of_nat (List.length l - 1)))
          = (List.length (firstn k l) + 0)%nat) as ->
    by (rewrite length_firstn; lia).
  rewrite firstn_app_2, firstn_O, app_nil_r.
  rewrite skipn_app, skipn_all2 by lia.
  replace (List.length (firstn k l) + 0 - List.length (firstn k l))%nat with 0%nat by lia.
  rewrite skipn_O. cbn [app].
  destruct (slice_get_ok (mk_slice l) index ltac:(rewrite len_mk; lia)) as (a & Hn & Hg).
  rewrite Hg in Hx. injection Hx as ->. cbn [elems] in Hn. fold k in Hn.
  f_equal. f_equal.
  rewrite <- (firstn_skipn k l) at 3. f_equal.
  clear - Hn. revert l Hn. induction k as [|k IH]; intros [|h t] Hn; cbn in *; try discriminate.
  - now injection Hn as ->.
  - now apply IH.
Qed.

(** Past the end there is no round trip: the removal changes nothing
    and the insertion appends, so the sequence grows by one item. *)
Lemma remove_insert_past_end (items : slice Item) (index : Z) (x : Item) :
  len items <= GoInt.max_int ->
  len items <= index ->
  removeItemFromSlice items index = Ok items /\
  (s <- removeItemFromSlice items index ;; insertItemIntoSlice s x index)
    = Ok (mk_slice (elems items ++ [x])) /\
  mk_slice (elems items ++ [x]) <> items.
Proof.
  intros Hmax Hi. unfold removeItemFromSlice.
  rewrite remove_from_slice_noop by assumption. cbn [bind].
  rewrite insertItemIntoSlice_spec by assumption. unfold insert_position.
  assert (Z.to_nat (Z.min (Z.max 0 index) (len items)) = List.length (elems items))
    as -> by (unfold len in *; lia).
  rewrite firstn_all, skipn_all. repeat split.
  intros Heq. apply (f_equal (fun s => List.length (elems s))) in Heq.
  cbn in Heq. rewrite length_app in Heq. cbn in Heq. lia.
Qed.

End StoreFacts.

(** ** What the model operations leave untouched *)

Section Frames.
Context {E : Externals}.
Implicit Types (m : Model).

Lemma updateKeybindings_frame m :
  items (updateKeybindings m) = items m /\
  index (updateKeybindings m) = index m /\
  filterState (updateKeybindings m) = filterState m /\
  filteredItems (updateKeybindings m) = filteredItems m /\
  FilterInput (updateKeybindings m) = FilterInput m /\
  firstItemIndexInView (updateKeybindings m) = firstItemIndexInView m /\
  lastItemIndexInView (updateKeybindings m) = lastItemIndexInView m.
Proof. unfold updateKeybindings. destruct (filterState m) eqn:Hs; cbn; rewrite ?Hs; auto 10. Qed.

Lemma hideStatusMessage_frame m :
  items (hideStatusMessage m) = items m /\
  index (hideStatusMessage m) = index m /\
  filterState (hideStatusMessage m) = filterState m /\
  filteredItems (hideStatusMessage m) = filteredItems m /\
  FilterInput (hideStatusMessage m) = FilterInput m /\
  keyMap (hideStatusMessage m) = keyMap m.
Proof. unfold hideStatusMessage. cbn. destruct (statusMessageTimer m); cbn; auto 10. Qed.

(** [resetFiltering] away from [Unfiltered]: the state becomes
    [Unfiltered], the query is reset and the filtered sequence is nil. *)
Lemma resetFiltering_active m :
  filterState m <> Unfiltered ->
  filterState (resetFiltering m) = Unfiltered /\
  FilterInput (resetFiltering m) = textinput_Reset (FilterInput m) /\
  filteredItems (resetFiltering m) = nil_slice /\
  items (resetFiltering m) = items m /\
  index (resetFiltering m) = index m.
Proof.
  intros Hs. unfold resetFiltering.
  destruct (filterState m) eqn:Hf; [congruence| |]; cbn [FilterState_eqb];
    match goal with |- context [updateKeybindings ?x] =>
      destruct (updateKeybindings_frame x) as (-> & -> & -> & -> & -> & _) end;
    cbn; auto.
Qed.

Lemma resetFiltering_index m : index (resetFiltering m) = index m.
Proof.
  destruct (filterState m) eqn:Hf.
  - unfold resetFiltering. now rewrite Hf.
  - apply resetFiltering_active. congruence.
  - apply resetFiltering_active. congruence.
Qed.

Lemma len_filteredItems_items (f : slice filteredItem) :
  len (filteredItems_items f) = len f.
Proof. unfold filteredItems_items, len. cbn. now rewrite length_map. Qed.

(** Neither mutation touches the selected index. *)
Lemma InsertItem_index m i it m' cmd :
  InsertItem m i it = Ok (m', cmd) -> index m' = index m.
Proof.
  unfold InsertItem. destruct (insertItemIntoSlice (items m) it i); cbn; [|discriminate].
  intros [= <- _]. now destruct (updateKeybindings_frame (set_items a m)) as (_ & -> & _).
Qed.

Lemma RemoveItem_index m i m' :
  RemoveItem m i = Ok m' -> index m' = index m.
Proof.
  unfold RemoveItem. destruct (removeItemFromSlice (items m) i); cbn; [|discriminate].
  destruct (negb _).
  - destruct (removeFilterMatchFromSlice (filteredItems m) i); cbn; [|discriminate].
    destruct (_ =? 0); intros [= <-]; [now rewrite resetFiltering_index | reflexivity].
  - now intros [= <-].
Qed.

End Frames.

(* ------------------------------------------------------------------ *)
(** ** Selection manager *)

Lemma Select_set_index {E : Externals} (m : Model) (i : Z) :
  Select m i = set_index (index (Select m i)) m.
Proof.
  unfold Select.
  destruct (_ =? 0); [reflexivity|].
  destruct (i <? 0); [reflexivity|].
  destruct (i >? _); reflexivity.
Qed.

Lemma Select_index {E : Externals} (m : Model) (i : Z) :
  len (AvailableItems m) <= GoInt.max_int ->
  index (Select m i) =
  if len (AvailableItems m) =? 0 then -1
  else if i <? 0 then 0
  else if i >? len (AvailableItems m) - 1 then len (AvailableItems m) - 1
  else i.
Proof.
  intros Hmax. pose proof (len_nonneg (AvailableItems m)) as Hnn.
  unfold Select.
  destruct (Z.eqb_spec (len (AvailableItems m)) 0) as [Hz|Hnz]; [reflexivity|].
  rewrite GoInt.sub_id by go_int.
  destruct (i <? 0); [reflexivity|].
  destruct (i >? _); reflexivity.
Qed.

(** C6.  [Select] clamps: on an empty available sequence the selected
    index becomes -1; otherwise a negative argument gives 0, an
    argument at or past the size gives size - 1, and any other argument
    is taken as it is.  [Select] changes nothing but the index.
    [CursorUp], [CursorDown] and [ResetSelected] are [Select] at the
    current index minus one, plus one (Go's [int] arithmetic, which is
    plain subtraction and addition away from the ends of the [int]
    range), and at 0. *)
Theorem Select_clamps {E : Externals} (m : Model) (i : Z) :
  len (AvailableItems m) <= GoInt.max_int ->
  (len (AvailableItems m) = 0 -> index (Select m i) = -1) /\
  (len (AvailableItems m) <> 0 -> i < 0 -> index (Select m i) = 0) /\
  (len (AvailableItems m) <> 0 -> len (AvailableItems m) <= i ->
     index (Select m i) = len (AvailableItems m) - 1) /\
  (len (AvailableItems m) <> 0 -> 0 <= i < len (AvailableItems m) ->
     index (Select m i) = i) /\
  Select m i = set_index (index (Select m i)) m /\
  CursorUp m = Select m (GoInt.sub (index m) 1) /\
  CursorDown m = Select m (GoInt.add (index m) 1) /\
  (GoInt.min_int < index m <= GoInt.max_int -> CursorUp m = Select m (index m - 1)) /\
  (GoInt.min_int <= index m < GoInt.max_int -> CursorDown m = Select m (index m + 1)) /\
  ResetSelected m = Select m 0.
Proof.
  intros Hmax. pose proof (len_nonneg (AvailableItems m)) as Hnn.
  rewrite (Select_index m i Hmax).
  split; [|split; [|split; [|split; [|split; [|split; [|split; [|split; [|split]]]]]]]].
  - intros ->. reflexivity.
  - intros Hne Hi. destruct (Z.eqb_spec (len (AvailableItems m)) 0); [lia|].
    destruct (Z.ltb_spec i 0); [reflexivity | lia].
  - intros Hne Hi. destruct (Z.eqb_spec (len (AvailableItems m)) 0); [lia|].
    destruct (Z.ltb_spec i 0); [lia|].
    destruct (Z.gtb_spec i (len (AvailableItems m) - 1)); [reflexivity | lia].
  - intros Hne Hi. destruct (Z.eqb_spec (len (AvailableItems m)) 0); [lia|].
    destruct (Z.ltb_spec i 0); [lia|].
    destruct (Z.gtb_spec i (len (AvailableItems m) - 1)); [lia | reflexivity].
  - rewrite <- (Select_index m i Hmax). apply Select_set_index.
  - reflexivity.
  - reflexivity.
  - intros Hr. unfold CursorUp. rewrite GoInt.sub_id; [reflexivity | go_int].
  - intros Hr. unfold CursorDown. rewrite GoInt.add_id; [reflexivity | go_int].
  - reflexivity.
Qed.

(** C10.  [SelectedItem] never fails: it returns nil when the selected
    index is negative, the available sequence is empty or the index is
    at or past its length, and the available item at the selected index
    otherwise. *)
Theorem SelectedItem_never_fails {E : Externals} (m : Model) :
  (exists it, SelectedItem m = Ok it) /\
  (index m < 0 \/ len (AvailableItems m) = 0 \/ len (AvailableItems m) <= index m ->
     SelectedItem m = Ok nil_item) /\
  (0 <= index m < len (AvailableItems m) ->
     SelectedItem m = slice_get (AvailableItems m) (index m) /\
     SelectedItem m = Ok (nth (Z.to_nat (index m)) (elems (AvailableItems m)) nil_item)).
Proof.
  unfold SelectedItem, Index.
  pose proof (len_nonneg (AvailableItems m)) as Hnn.
  destruct (Z.ltb_spec (index m) 0) as [Hneg|Hpos]; cbn [orb].
  { repeat split; eauto; intros; lia. }
  destruct (Z.eqb_spec (len (AvailableItems m)) 0) as [Hz|Hnz]; cbn [orb].
  { repeat split; eauto; intros; lia. }
  destruct (Z.leb_spec (len (AvailableItems m)) (index m)) as [Hout|Hin].
  { repeat split; eauto; intros; lia. }
  rewrite (slice_get_nth _ _ nil_item) by lia.
  repeat split; eauto. intros [H|[H|H]]; lia.
Qed.

(* ------------------------------------------------------------------ *)
(** ** Filter results *)

(** C5.  In every state, [Update] on a [FilterMatchesMsg] installs the
    delivered list as the filtered sequence, changes nothing else and
    returns no command: the last result delivered wins. *)
Theorem Update_FilterMatchesMsg {E : Externals} {C : Collaborators}
    (m : Model) (fi : slice filteredItem) :
  Update m (FilterMatchesMsg fi) = Ok (set_filteredItems fi m, cmd_nil) /\
  filteredItems (set_filteredItems fi m) = fi /\
  filterState (set_filteredItems fi m) = filterState m /\
  FilterInput (set_filteredItems fi m) = FilterInput m /\
  items (set_filteredItems fi m) = items m /\
  index (set_filteredItems fi m) = index m.
Proof. repeat split. Qed.

(* ------------------------------------------------------------------ *)
(** ** Item store *)

Section InsertFacts.
Context {A : Type}.
Implicit Types (l : list A).

Lemma nth_error_insert_at l k (x : A) :
  (k <= List.length l)%nat ->
  nth_error (firstn k l ++ x :: skipn k l) k = Some x.
Proof.
  intros Hk. rewrite nth_error_app2 by (rewrite length_firstn; lia).
  rewrite length_firstn, Nat.min_l, Nat.sub_diag by lia. reflexivity.
Qed.

Lemma nth_error_insert_before l k (x : A) j :
  (j < k)%nat -> (k <= List.length l)%nat ->
  nth_error (firstn k l ++ x :: skipn k l) j = nth_error l j.
Proof.
  intros Hj Hk. rewrite nth_error_app1 by (rewrite length_firstn; lia).
  now rewrite nth_error_firstn, (proj2 (Nat.ltb_lt j k) Hj).
Qed.

Lemma nth_error_insert_after l k (x : A) j :
  (k <= j)%nat -> (k <= List.length l)%nat ->
  nth_error (firstn k l ++ x :: skipn k l) (S j) = nth_error l j.
Proof.
  intros Hj Hk. rewrite nth_error_app2 by (rewrite length_firstn; lia).
  rewrite length_firstn, Nat.min_l by lia.
  replace (S j - k)%nat with (S (j - k)) by lia. cbn [nth_error].
  rewrite nth_error_skipn. f_equal. lia.
Qed.

Lemma slice_get_nth_error (s s' : slice A) i j :
  0 <= i < len s -> 0 <= j < len s' ->
  nth_error (elems s) (Z.to_nat i) = nth_error (elems s') (Z.to_nat j) ->
  slice_get s i = slice_get s' j.
Proof.
  intros Hi Hj Hn.
  destruct (slice_get_ok s i Hi) as (a & Ha & ->).
  destruct (slice_get_ok s' j Hj) as (b & Hb & ->).
  congruence.
Qed.

End InsertFacts.

(** C8.  [InsertItem] succeeds for every store and every integer
    index: a negative index puts the item first, an index at or past
    the length appends it at position [len], and any other index puts
    the item at that index, keeps the prefix and moves the suffix one
    place to the right. *)
Theorem InsertItem_always_succeeds {E : Externals}
    (m : Model) (index : Z) (item : Item) :
  len (items m) <= GoInt.max_int ->
  exists m' cmd,
    InsertItem m index item = Ok (m', cmd) /\
    len (items m') = len (items m) + 1 /\
    (index < 0 -> items m' = mk_slice (item :: elems (items m))) /\
    (len (items m) <= index ->
       items m' = mk_slice (elems (items m) ++ [item]) /\
       slice_get (items m') (len (items m)) = Ok item) /\
    (0 <= index < len (items m) ->
       items m' =
         mk_slice (firstn (Z.to_nat index) (elems (items m))
                   ++ item :: skipn (Z.to_nat index) (elems (items m))) /\
       slice_get (items m') index = Ok item /\
       (forall j, 0 <= j < index -> slice_get (items m') j = slice_get (items m) j) /\
       (forall j, index <= j < len (items m) ->
          slice_get (items m') (j + 1) = slice_get (items m) j)).
Proof.
  intros Hmax. unfold InsertItem.
  rewrite insertItemIntoSlice_spec by assumption. cbn [bind].
  eexists _, _. split; [reflexivity|].
  match goal with |- context [updateKeybindings ?x] =>
    destruct (updateKeybindings_frame x) as (-> & _) end.
  cbn [items set_items].
  set (l := elems (items m)).
  assert (Hl : len (items m) = Z.of_nat (List.length l)) by reflexivity.
  unfold insert_position. rewrite Hl in *.
  assert (Hlen : forall k, (k <= List.length l)%nat ->
            len (mk_slice (firstn k l ++ item :: skipn k l)) = Z.of_nat (List.length l) + 1).
  { intros k Hk. rewrite len_mk, length_app, length_firstn. cbn [List.length].
    rewrite length_skipn. lia. }
  split; [apply Hlen; lia|].
  split; [|split].
  - intros Hneg. replace (Z.to_nat _) with 0%nat by lia. reflexivity.
  - intros Hge.
    assert (Z.to_nat (Z.min (Z.max 0 index) (Z.of_nat (List.length l))) = List.length l)
      as -> by lia.
    rewrite firstn_all, skipn_all. split; [reflexivity|].
    unfold slice_get. rewrite len_mk, length_app. cbn [List.length elems].
    destruct (Z.leb_spec 0 (Z.of_nat (List.length l))); [|lia].
    destruct (Z.ltb_spec (Z.of_nat (List.length l)) (Z.of_nat (List.length l + 1))); [|lia].
    cbn [andb]. rewrite Nat2Z.id, nth_error_app2, Nat.sub_diag by lia. reflexivity.
  - intros Hin.
    assert (Z.to_nat (Z.min (Z.max 0 index) (Z.of_nat (List.length l))) = Z.to_nat index)
      as -> by lia.
    assert (Hk : (Z.to_nat index <= List.length l)%nat) by lia.
    pose proof (Hlen _ Hk) as Hlen'.
    split; [reflexivity|]. split; [|split].
    + unfold slice_get. rewrite Hlen'.
      destruct (Z.leb_spec 0 index); [|lia].
      destruct (Z.ltb_spec index (Z.of_nat (List.length l) + 1)); [|lia].
      cbn [andb elems]. now rewrite nth_error_insert_at.
    + intros j Hj. apply slice_get_nth_error; [rewrite Hlen'; lia | rewrite Hl; lia |].
      cbn [elems]. fold l. apply nth_error_insert_before; lia.
    + intros j Hj. apply slice_get_nth_error; [rewrite Hlen'; lia | rewrite Hl; lia |].
      cbn [elems]. fold l. replace (Z.to_nat (j + 1)) with (S (Z.to_nat j)) by lia.
      apply nth_error_insert_after; lia.
Qed.

(* ------------------------------------------------------------------ *)
(** ** Accepting a filter *)

Section AcceptFilter.
Context {E : Externals} {C : Collaborators}.

(** After the key handling, [handleFiltering] hands the message to the
    text input and stores the updated input; a changed value in
    addition requests a new filtering and touches one key binding. *)
Lemma handleFiltering_accept_key (m : Model) (k : tea_KeyMsg) :
  key_Matches k (KeyMap.CancelWhileFiltering (keyMap m)) = false ->
  key_Matches k (KeyMap.AcceptWhileFiltering (keyMap m)) = true ->
  filterState (fst (handleFiltering m (KeyMsg k))) = filterState (accept_filter m) /\
  items (fst (handleFiltering m (KeyMsg k))) = items (accept_filter m) /\
  filteredItems (fst (handleFiltering m (KeyMsg k))) = filteredItems (accept_filter m) /\
  index (fst (handleFiltering m (KeyMsg k))) = index (accept_filter m) /\
  FilterInput (fst (handleFiltering m (KeyMsg k))) =
    fst (textinput_Update (FilterInput (accept_filter m)) (KeyMsg k)).
Proof.
  intros Hc Ha. unfold handleFiltering. rewrite Hc, Ha.
  fold (accept_filter m). set (m1 := accept_filter m).
  destruct (textinput_Update (FilterInput m1) (KeyMsg k)) as [t cmd].
  destruct (negb _); cbn; auto.
Qed.

Lemma accept_filter_spec (m : Model) :
  filterState m = Filtering ->
  (len (items m) = 0 ->
     filterState (accept_filter m) = Filtering /\
     items (accept_filter m) = items m /\
     filteredItems (accept_filter m) = filteredItems m /\
     index (accept_filter m) = index m /\
     FilterInput (accept_filter m) = FilterInput m) /\
  (len (items m) <> 0 ->
     len (filteredItems m) = 0 \/ textinput_Value (FilterInput m) = EmptyString ->
     filterState (accept_filter m) = Unfiltered /\
     textinput_Value (FilterInput (accept_filter m)) = EmptyString /\
     filteredItems (accept_filter m) = nil_slice /\
     items (accept_filter m) = items m) /\
  (len (items m) <> 0 -> len (filteredItems m) <> 0 ->
     textinput_Value (FilterInput m) <> EmptyString ->
     filterState (accept_filter m) = FilterApplied /\
     textinput_Value (FilterInput (accept_filter m)) = textinput_Value (FilterInput m) /\
     filteredItems (accept_filter m) = filteredItems m /\
     items (accept_filter m) = items m).
Proof.
  intros Hs. unfold accept_filter.
  destruct (hideStatusMessage_frame m) as (Hi & Hx & Hf & Hfi & Hin & _).
  set (m0 := hideStatusMessage m) in *.
  assert (Hav : len (AvailableItems m0) = len (filteredItems m)).
  { unfold AvailableItems. rewrite Hf, Hs. cbn. now rewrite len_filteredItems_items, Hfi. }
  rewrite Hi, Hav.
  destruct (Z.eqb_spec (len (items m)) 0) as [Hz|Hnz].
  { split; [intros _; rewrite Hf, Hs; auto 10|]. split; intros; lia. }
  split; [intros; lia|].
  destruct (Z.eqb_spec (len (filteredItems m)) 0) as [Hfz|Hfnz].
  { destruct (resetFiltering_active m0) as (R1 & R2 & R3 & R4 & _); [congruence|].
    split; [|intros; lia]. intros _ _.
    rewrite R1, R2, R3, R4, textinput_Reset_Value. auto. }
  set (m1 := set_filterState FilterApplied
               (set_FilterInput (textinput_Blur (FilterInput m0)) m0)).
  destruct (updateKeybindings_frame m1) as (K1 & _ & K3 & K4 & K5 & _).
  set (m2 := updateKeybindings m1) in *.
  assert (Hv : textinput_Value (FilterInput m2) = textinput_Value (FilterInput m)).
  { rewrite K5. cbn. now rewrite textinput_Blur_Value, Hin. }
  rewrite Hv.
  destruct (String.eqb_spec (textinput_Value (FilterInput m)) EmptyString) as [He|Hne].
  - destruct (resetFiltering_active m2) as (R1 & R2 & R3 & R4 & _).
    { rewrite K3. cbn. congruence. }
    split; [|intros; congruence]. intros _ _.
    rewrite R1, R2, R3, R4, textinput_Reset_Value, K1. cbn. auto.
  - split; [intros _ [?|?]; congruence|]. intros _ _ _.
    rewrite K3, K4, K1, Hv. cbn. auto.
Qed.

(** While filtering, [Update] passes a key other than the force-quit
    key to [handleFiltering]. *)
Lemma Update_while_filtering (m : Model) (k : tea_KeyMsg) :
  filterState m = Filtering ->
  key_Matches k (KeyMap.ForceQuit (keyMap m)) = false ->
  Update m (KeyMsg k) =
  Ok (fst (handleFiltering m (KeyMsg k)),
      tea_Batch [snd (handleFiltering m (KeyMsg k))]).
Proof.
  intros Hs Hq. unfold Update, Update_handlers. rewrite Hq, Hs. cbn.
  now destruct (handleFiltering m (KeyMsg k)).
Qed.

End AcceptFilter.

(** C4.  A model that is [Filtering] receives an accept key: one that
    matches [AcceptWhileFiltering] and not [CancelWhileFiltering],
    which is tried first.  With an empty master sequence the filter
    state, the sequences and the selection stay as they are; with an
    empty filtered sequence, or an empty query, the model ends
    [Unfiltered] with the filtered sequence nil and the query cleared;
    otherwise it ends [FilterApplied] with the filtered sequence kept.
    In each case the text input is then handed the key: the query of
    the resulting model is the one described whenever the text input
    leaves its value alone on that key. *)
Theorem handleFiltering_accept {E : Externals} {C : Collaborators}
    (m : Model) (k : tea_KeyMsg) :
  filterState m = Filtering ->
  key_Matches k (KeyMap.CancelWhileFiltering (keyMap m)) = false ->
  key_Matches k (KeyMap.AcceptWhileFiltering (keyMap m)) = true ->
  let m' := fst (handleFiltering m (KeyMsg k)) in
  let passes (before : textinput_Model) :=
    FilterInput m' = fst (textinput_Update before (KeyMsg k)) in
  let quiet :=
    forall t, textinput_Value (fst (textinput_Update t (KeyMsg k))) = textinput_Value t in
  (len (items m) = 0 ->
     filterState m' = Filtering /\
     items m' = items m /\
     filteredItems m' = filteredItems m /\
     index m' = index m /\
     passes (FilterInput m) /\
     (quiet -> textinput_Value (FilterInput m') = textinput_Value (FilterInput m))) /\
  (len (items m) <> 0 ->
     len (filteredItems m) = 0 \/ textinput_Value (FilterInput m) = EmptyString ->
     filterState m' = Unfiltered /\
     filteredItems m' = nil_slice /\
     items m' = items m /\
     (exists cleared, textinput_Value cleared = EmptyString /\ passes cleared) /\
     (quiet -> textinput_Value (FilterInput m') = EmptyString)) /\
  (len (items m) <> 0 -> len (filteredItems m) <> 0 ->
     textinput_Value (FilterInput m) <> EmptyString ->
     filterState m' = FilterApplied /\
     filteredItems m' = filteredItems m /\
     items m' = items m /\
     (exists kept, textinput_Value kept = textinput_Value (FilterInput m) /\ passes kept) /\
     (quiet -> textinput_Value (FilterInput m') = textinput_Value (FilterInput m))).
Proof.
  intros Hs Hc Ha m' passes quiet. subst m' passes quiet. cbv beta.
  destruct (handleFiltering_accept_key m k Hc Ha) as (-> & -> & -> & -> & ->).
  destruct (accept_filter_spec m Hs) as (P1 & P2 & P3).
  split; [|split].
  - intros Hz. destruct (P1 Hz) as (-> & -> & -> & -> & ->).
    repeat split. intros Hq. apply Hq.
  - intros Hnz Hor. destruct (P2 Hnz Hor) as (-> & Hv & -> & ->).
    repeat split.
    + eexists. split; [exact Hv | reflexivity].
    + intros Hq. now rewrite Hq.
  - intros Hnz Hf Hv. destruct (P3 Hnz Hf Hv) as (-> & Hv' & -> & ->).
    repeat split.
    + eexists. split; [exact Hv' | reflexivity].
    + intros Hq. now rewrite Hq.
Qed.

(* ------------------------------------------------------------------ *)
(** ** Viewport *)

Section ViewportFacts.
Context {E : Externals} {C : Collaborators}.
Implicit Types (m : Model).

Lemma viewport_capacity_pos m c : viewport_capacity m = Ok c -> 1 <= c.
Proof.
  unfold viewport_capacity. destruct (go_quot _ _); cbn; [|discriminate].
  intros [= <-]. rewrite max_spec. lia.
Qed.


(** The three branches of the reconciliation, for a capacity [c]. *)
Lemma updateViewportBounds_cases m c :
  0 <= index m ->
  viewport_capacity m = Ok c ->
  updateViewportBounds m =
  Ok (let n := len (AvailableItems m) in
      let f := firstItemIndexInView m in
      let currentLast := GoInt.sub (min n (GoInt.add f c)) 1 in
      if (f <=? index m) && (index m <=? currentLast)
      then set_lastItemIndexInView currentLast m
      else if currentLast <? index m
      then set_lastItemIndexInView (index m)
             (set_firstItemIndexInView
                (max 0 (GoInt.add (GoInt.sub (index m) c) 1)) m)
      else if f >? index m
      then set_lastItemIndexInView (GoInt.sub (GoInt.add (index m) (min n c)) 1)
             (set_firstItemIndexInView (index m) m)
      else m).
Proof.
  intros Hi Hc. unfold updateViewportBounds, viewport_capacity, Index in *.
  destruct (Z.ltb_spec (index m) 0); [lia|].
  destruct (go_quot _ _); cbn in Hc |- *; [|discriminate].
  injection Hc as <-.
  destruct (_ && _); [reflexivity|].
  destruct (_ <? index m); [reflexivity|].
  destruct (_ >? index m); reflexivity.
Qed.

(** X3.  When the previous first index is not below the selection,
    the reconciled window holds the selection, starts at 0 or later,
    ends inside the available sequence and spans at most the capacity. *)
Lemma updateViewportBounds_window m c :
  viewport_capacity m = Ok c ->
  0 <= index m < len (AvailableItems m) ->
  len (AvailableItems m) <= GoInt.max_int ->
  0 <= firstItemIndexInView m <= index m ->
  firstItemIndexInView m + c <= GoInt.max_int ->
  exists m',
    updateViewportBounds m = Ok m' /\
    index m' = index m /\
    AvailableItems m' = AvailableItems m /\
    firstItemIndexInView m' <= index m <= lastItemIndexInView m' /\
    lastItemIndexInView m' - firstItemIndexInView m' + 1 <= c /\
    0 <= firstItemIndexInView m' /\
    lastItemIndexInView m' < len (AvailableItems m).
Proof.
  intros Hc Hi Hmax Hf Hfc.
  pose proof (viewport_capacity_pos m c Hc) as Hpos.
  rewrite (updateViewportBounds_cases m c) by (assumption || lia).
  eexists; split; [reflexivity|]. cbv zeta.
  set (n := len (AvailableItems m)) in *. set (f := firstItemIndexInView m) in *.
  set (i := index m) in *.
  assert (R : forall z, GoInt.min_int <= z <= GoInt.max_int -> GoInt.wrap z = z)
    by (intros; now apply GoInt.wrap_id).
  unfold GoInt.add, GoInt.sub. unfold GoInt.min_int, GoInt.max_int in *.
  rewrite !min_spec, !max_spec.
  rewrite (R (f + c)) by lia.
  rewrite (R (Z.min n (f + c) - 1)) by lia.
  rewrite (R (i - c)) by lia. rewrite (R (i - c + 1)) by lia.
  destruct (Z.leb_spec f i); [|lia]. cbn [andb].
  destruct (Z.leb_spec i (Z.min n (f + c) - 1)).
  - cbn. repeat split; try reflexivity; subst n f i; lia.
  - destruct (Z.ltb_spec (Z.min n (f + c) - 1) i); [|lia].
    cbn. repeat split; try reflexivity; subst n f i; lia.
Qed.

(** When the selection is above the previous first index, the window
    starts at the selection and ends [min(len, capacity)] items from it,
    whatever is left of the sequence below the selection. *)
Lemma updateViewportBounds_scroll_up m c :
  viewport_capacity m = Ok c ->
  0 <= index m < len (AvailableItems m) ->
  len (AvailableItems m) <= GoInt.max_int ->
  index m < firstItemIndexInView m ->
  firstItemIndexInView m + c <= GoInt.max_int ->
  exists m',
    updateViewportBounds m = Ok m' /\
    firstItemIndexInView m' = index m /\
    lastItemIndexInView m' = index m + Z.min (len (AvailableItems m)) c - 1.
Proof.
  intros Hc Hi Hmax Hf Hfc.
  pose proof (viewport_capacity_pos m c Hc) as Hpos.
  rewrite (updateViewportBounds_cases m c) by (assumption || lia).
  eexists; split; [reflexivity|]. cbv zeta.
  set (n := len (AvailableItems m)) in *. set (f := firstItemIndexInView m) in *.
  set (i := index m) in *.
  assert (R : forall z, GoInt.min_int <= z <= GoInt.max_int -> GoInt.wrap z = z)
    by (intros; now apply GoInt.wrap_id).
  unfold GoInt.add, GoInt.sub. unfold GoInt.min_int, GoInt.max_int in *.
  rewrite !min_spec, !max_spec.
  rewrite (R (f + c)) by lia.
  rewrite (R (Z.min n (f + c) - 1)) by lia.
  rewrite (R (i + Z.min n c)) by lia. rewrite (R (i + Z.min n c - 1)) by lia.
  destruct (Z.leb_spec f i); [lia|]. cbn [andb].
  destruct (Z.ltb_spec (Z.min n (f + c) - 1) i); [lia|].
  destruct (Z.gtb_spec f i); [|lia].
  cbn. split; reflexivity.
Qed.

End ViewportFacts.

(* ------------------------------------------------------------------ *)
(** ** Removing an item *)

Section RemoveFacts.
Context {E : Externals}.
Implicit Types (m : Model).

Lemma resetFiltering_items m : items (resetFiltering m) = items m.
Proof.
  destruct (filterState m) eqn:Hf.
  - unfold resetFiltering. now rewrite Hf.
  - apply resetFiltering_active. congruence.
  - apply resetFiltering_active. congruence.
Qed.

(** A negative index makes [RemoveItem] panic, in every state. *)
Lemma RemoveItem_negative m index :
  index < 0 -> RemoveItem m index = Panic SliceBoundsOutOfRange.
Proof.
  intros H. unfold RemoveItem, removeItemFromSlice.
  now rewrite remove_from_slice_negative.
Qed.

(** X2.  [RemoveItem] at an index at or past the end of the master
    sequence does not fail and leaves the master sequence as it is. *)
Lemma RemoveItem_past_end m index :
  len (filteredItems m) <= GoInt.max_int ->
  len (items m) <= index ->
  exists m', RemoveItem m index = Ok m' /\ items m' = items m.
Proof.
  intros Hmax H. pose proof (len_nonneg (items m)) as Hnn.
  unfold RemoveItem, removeItemFromSlice, removeFilterMatchFromSlice.
  rewrite remove_from_slice_noop by assumption. cbn [bind].
  destruct (negb _); [|eexists; split; reflexivity].
  cbn [filteredItems set_items].
  destruct (Z.le_gt_cases (len (filteredItems m)) index) as [Hout|Hin].
  - rewrite remove_from_slice_noop by assumption. cbn [bind].
    destruct (_ =? 0); eexists; (split; [reflexivity|]);
      rewrite ?resetFiltering_items; reflexivity.
  - rewrite remove_from_slice_valid by (assumption || lia). cbn [bind].
    destruct (_ =? 0); eexists; (split; [reflexivity|]);
      rewrite ?resetFiltering_items; reflexivity.
Qed.

(** A valid index removes that item from the master sequence. *)
Lemma RemoveItem_valid_unfiltered m index :
  filterState m = Unfiltered ->
  len (items m) <= GoInt.max_int ->
  0 <= index < len (items m) ->
  RemoveItem m index =
  Ok (set_items (mk_slice (firstn (Z.to_nat index) (elems (items m))
                           ++ skipn (S (Z.to_nat index)) (elems (items m)))) m).
Proof.
  intros Hs Hmax Hi. unfold RemoveItem, removeItemFromSlice.
  rewrite remove_from_slice_valid by assumption. cbn. now rewrite Hs.
Qed.

End RemoveFacts.

(* ------------------------------------------------------------------ *)
(** ** Lists and swapping *)

Section ListFacts.
Context {A : Type}.
Implicit Types (l : list A).

Lemma nth_error_list_set l n (v : A) k :
  nth_error (list_set l n v) k =
  if Nat.eqb k n then (if Nat.ltb n (List.length l) then Some v else None)
  else nth_error l k.
Proof.
  revert n k; induction l as [|h t IH]; intros n k.
  - cbn. destruct k, (Nat.eqb _ n); reflexivity.
  - destruct n as [|n], k as [|k]; cbn; try reflexivity.
    rewrite IH. destruct (Nat.eqb k n); reflexivity.
Qed.

Lemma list_set_nth l n (d : A) : list_set l n (nth n l d) = l.
Proof.
  revert n; induction l as [|h t IH]; intros [|n]; cbn; try reflexivity.
  now rewrite IH.
Qed.

Lemma list_ext_nth_error l l' :
  (forall k, nth_error l k = nth_error l' k) -> l = l'.
Proof.
  revert l'; induction l as [|h t IH]; intros [|h' t'] H.
  - reflexivity.
  - specialize (H 0%nat). discriminate.
  - specialize (H 0%nat). discriminate.
  - pose proof (H 0%nat) as H0. cbn in H0. injection H0 as ->.
    f_equal. apply IH. intros k. apply (H (S k)).
Qed.

Lemma Permutation_list_set_head l j (a b : A) :
  nth_error l j = Some b -> Permutation (a :: l) (b :: list_set l j a).
Proof.
  revert j; induction l as [|h t IH]; intros [|j] H; cbn in *; try discriminate.
  - injection H as ->. apply perm_swap.
  - eapply perm_trans; [apply perm_swap|].
    eapply perm_trans; [apply perm_skip, (IH j H)|]. apply perm_swap.
Qed.

Lemma Permutation_list_set_swap l i j (a b : A) :
  nth_error l i = Some a -> nth_error l j = Some b ->
  Permutation l (list_set (list_set l i b) j a).
Proof.
  revert i j; induction l as [|h t IH]; intros [|i] [|j] Hi Hj; cbn in *; try discriminate.
  - injection Hi as ->. injection Hj as ->. reflexivity.
  - injection Hi as ->. now apply Permutation_list_set_head.
  - injection Hj as ->. now apply Permutation_list_set_head.
  - apply perm_skip. now apply IH.
Qed.

End ListFacts.

Section SwapFacts.
Context {E : Externals}.

Lemma setInBounds_spec x hi :
  setInBounds x 0 hi = Z.min hi (Z.max x 0).
Proof. unfold setInBounds. now rewrite min_spec, max_spec. Qed.

Lemma exchanged_length l i j : List.length (exchanged l i j) = List.length l.
Proof. unfold exchanged. now rewrite !list_set_length. Qed.

Lemma nth_error_exchanged l i j k :
  (i < List.length l)%nat -> (j < List.length l)%nat ->
  nth_error (exchanged l i j) k =
  if Nat.eqb k j then nth_error l i
  else if Nat.eqb k i then nth_error l j
  else nth_error l k.
Proof.
  intros Hi Hj. unfold exchanged. rewrite !nth_error_list_set, list_set_length.
  rewrite (proj2 (Nat.ltb_lt _ _) Hi), (proj2 (Nat.ltb_lt _ _) Hj).
  destruct (Nat.eqb k j); [symmetry; now apply nth_error_nth'|].
  destruct (Nat.eqb k i); [symmetry; now apply nth_error_nth'|]. reflexivity.
Qed.

Lemma exchanged_same l i : exchanged l i i = l.
Proof. unfold exchanged. now rewrite !list_set_nth. Qed.

Lemma exchanged_involutive l i j :
  (i < List.length l)%nat -> (j < List.length l)%nat ->
  exchanged (exchanged l i j) j i = l.
Proof.
  intros Hi Hj. apply list_ext_nth_error. intros k.
  rewrite nth_error_exchanged by (rewrite exchanged_length; assumption).
  rewrite !nth_error_exchanged by assumption.
  repeat match goal with
         | |- context [Nat.eqb ?a ?b] => destruct (Nat.eqb_spec a b); subst
         end; reflexivity || congruence.
Qed.

Lemma Permutation_exchanged l i j :
  (i < List.length l)%nat -> (j < List.length l)%nat ->
  Permutation l (exchanged l i j).
Proof.
  intros Hi Hj. unfold exchanged.
  apply Permutation_list_set_swap; now apply nth_error_nth'.
Qed.

Lemma swap_position_bound (items : slice Item) x :
  0 < len items -> (swap_position items x < List.length (elems items))%nat.
Proof. unfold swap_position, len. lia. Qed.

Lemma swapItemsInSlice_spec (items : slice Item) (f s : Z) :
  0 < len items <= GoInt.max_int ->
  swapItemsInSlice items f s =
  Ok (mk_slice (exchanged (elems items) (swap_position items f) (swap_position items s))).
Proof.
  intros H. destruct items as [|l]; [cbn in H; lia|].
  unfold swapItemsInSlice, swap_position. cbn [is_nil elems].
  rewrite GoInt.sub_id by go_int. rewrite !setInBounds_spec.
  set (n := len (mk_slice l)) in *.
  assert (Hf : 0 <= Z.min (n - 1) (Z.max f 0) < n) by lia.
  assert (Hs : 0 <= Z.min (n - 1) (Z.max s 0) < n) by lia.
  rewrite !(slice_get_nth _ _ nil_item) by assumption. cbn [bind elems].
  rewrite slice_set_ok by assumption. cbn [bind elems].
  rewrite slice_set_ok by (rewrite len_mk, list_set_length; exact Hs).
  reflexivity.
Qed.

Lemma swapItemsInSlice_nil (f s : Z) : swapItemsInSlice nil_slice f s = Ok nil_slice.
Proof. reflexivity. Qed.

Lemma swapItemsInSlice_empty (f s : Z) :
  swapItemsInSlice (mk_slice []) f s = Panic IndexOutOfRange.
Proof.
  unfold swapItemsInSlice. cbn [is_nil]. rewrite !setInBounds_spec.
  rewrite slice_get_out; [reflexivity|].
  left. change (len (mk_slice [])) with 0. unfold GoInt.sub. rewrite GoInt.wrap_id by go_int. lia.
Qed.

End SwapFacts.

(** X4.  On a non-empty sequence [swapItemsInSlice] never fails: both
    indices are first put into [0 .. len - 1], the items at the two
    resulting positions change places, every other position keeps its
    item, and the result is a permutation of the input of the same
    length. *)
Theorem swapItemsInSlice_exchanges {E : Externals}
    (items : slice Item) (firstIndex secondIndex : Z) :
  0 < len items <= GoInt.max_int ->
  let f := Z.min (len items - 1) (Z.max firstIndex 0) in
  let s := Z.min (len items - 1) (Z.max secondIndex 0) in
  exists items',
    swapItemsInSlice items firstIndex secondIndex = Ok items' /\
    len items' = len items /\
    slice_get items' f = slice_get items s /\
    slice_get items' s = slice_get items f /\
    (forall j, j <> f -> j <> s -> slice_get items' j = slice_get items j) /\
    Permutation (elems items) (elems items').
Proof.
  intros H f s. rewrite swapItemsInSlice_spec by assumption.
  eexists. split; [reflexivity|].
  pose proof (swap_position_bound items firstIndex ltac:(lia)) as Hf.
  pose proof (swap_position_bound items secondIndex ltac:(lia)) as Hs.
  assert (Hlen : len (mk_slice (exchanged (elems items) (swap_position items firstIndex)
                                  (swap_position items secondIndex))) = len items).
  { rewrite len_mk, exchanged_length. reflexivity. }
  assert (Hget : forall j k, 0 <= j < len items -> 0 <= k < len items ->
            nth_error (exchanged (elems items) (swap_position items firstIndex)
                         (swap_position items secondIndex)) (Z.to_nat j)
            = nth_error (elems items) (Z.to_nat k) ->
            slice_get (mk_slice (exchanged (elems items) (swap_position items firstIndex)
                                   (swap_position items secondIndex))) j
            = slice_get items k).
  { intros j k Hj Hk Hn. apply slice_get_nth_error; [rewrite Hlen; lia | lia | exact Hn]. }
  assert (Ef : Z.to_nat f = swap_position items firstIndex) by reflexivity.
  assert (Es : Z.to_nat s = swap_position items secondIndex) by reflexivity.
  split; [exact Hlen|].
  split; [|split; [|split]].
  - apply Hget; [subst f; lia | subst s; lia |].
    rewrite nth_error_exchanged by assumption. rewrite Ef, Es.
    destruct (Nat.eqb_spec (swap_position items firstIndex)
                (swap_position items secondIndex)) as [->|];
      [reflexivity|]. now rewrite Nat.eqb_refl.
  - apply Hget; [subst s; lia | subst f; lia |].
    rewrite nth_error_exchanged by assumption. rewrite Ef, Es.
    now rewrite Nat.eqb_refl.
  - intros j Hjf Hjs.
    destruct (Z.lt_ge_cases j 0) as [Hneg|Hnn].
    { rewrite !slice_get_out by lia. reflexivity. }
    destruct (Z.lt_ge_cases j (len items)) as [Hin|Hout].
    2:{ rewrite !slice_get_out by (rewrite ?Hlen; lia). reflexivity. }
    apply Hget; [lia | lia |].
    rewrite nth_error_exchanged by assumption.
    destruct (Nat.eqb_spec (Z.to_nat j) (swap_position items secondIndex)) as [Heq|_].
    { exfalso. apply Hjs. subst s. rewrite <- Es in Heq. lia. }
    destruct (Nat.eqb_spec (Z.to_nat j) (swap_position items firstIndex)) as [Heq|_].
    { exfalso. apply Hjf. subst f. rewrite <- Ef in Heq. lia. }
    reflexivity.
  - cbn [elems]. now apply Permutation_exchanged.
Qed.

Section MoveFacts.
Context {E : Externals}.
Implicit Types (m : Model).

Lemma AvailableItems_unfiltered m :
  filterState m = Unfiltered -> AvailableItems m = items m.
Proof. unfold AvailableItems. now intros ->. Qed.

Lemma set_items_same m s : items m = s -> set_items s m = m.
Proof. intros <-. now destruct m. Qed.

Lemma set_index_same m i : index m = i -> set_index i m = m.
Proof. intros <-. now destruct m. Qed.

Lemma Select_in_range m i :
  len (AvailableItems m) <= GoInt.max_int ->
  0 <= i < len (AvailableItems m) -> Select m i = set_index i m.
Proof.
  intros Hmax Hi. rewrite Select_set_index, Select_index by assumption.
  destruct (Z.eqb_spec (len (AvailableItems m)) 0); [lia|].
  destruct (Z.ltb_spec i 0); [lia|].
  destruct (Z.gtb_spec i (len (AvailableItems m) - 1)); [lia | reflexivity].
Qed.

Lemma Select_negative m i :
  len (AvailableItems m) <> 0 -> i < 0 -> Select m i = set_index 0 m.
Proof.
  intros Hn Hi. unfold Select.
  destruct (Z.eqb_spec (len (AvailableItems m)) 0); [lia|].
  destruct (Z.ltb_spec i 0); [reflexivity | lia].
Qed.

Lemma Select_past_end m i :
  0 < len (AvailableItems m) <= GoInt.max_int -> len (AvailableItems m) <= i ->
  Select m i = set_index (len (AvailableItems m) - 1) m.
Proof.
  intros Hmax Hi. rewrite Select_set_index, Select_index by lia.
  destruct (Z.eqb_spec (len (AvailableItems m)) 0); [lia|].
  destruct (Z.ltb_spec i 0); [lia|].
  destruct (Z.gtb_spec i (len (AvailableItems m) - 1)); [reflexivity | lia].
Qed.

Lemma SelectedItem_in_range m :
  0 <= index m < len (AvailableItems m) ->
  SelectedItem m = slice_get (AvailableItems m) (index m).
Proof.
  intros H. unfold SelectedItem, Index.
  destruct (Z.ltb_spec (index m) 0); [lia|].
  destruct (Z.eqb_spec (len (AvailableItems m)) 0); [lia|].
  destruct (Z.leb_spec (len (AvailableItems m)) (index m)); [lia | reflexivity].
Qed.

Lemma MoveItemUp_run m i :
  filterState m = Unfiltered -> 0 < len (items m) <= GoInt.max_int ->
  MoveItemUp m i =
  Ok (CursorUp
        (set_items
           (mk_slice (exchanged (elems (items m)) (swap_position (items m) i)
                        (swap_position (items m) (GoInt.sub i 1)))) m)).
Proof.
  intros Hs H. unfold MoveItemUp. rewrite Hs. cbn [FilterState_eqb].
  now rewrite swapItemsInSlice_spec by assumption.
Qed.

Lemma MoveItemDown_run m i :
  filterState m = Unfiltered -> 0 < len (items m) <= GoInt.max_int ->
  MoveItemDown m i =
  Ok (CursorDown
        (set_items
           (mk_slice (exchanged (elems (items m)) (swap_position (items m) i)
                        (swap_position (items m) (GoInt.add i 1)))) m)).
Proof.
  intros Hs H. unfold MoveItemDown. rewrite Hs. cbn [FilterState_eqb].
  now rewrite swapItemsInSlice_spec by assumption.
Qed.

Lemma slice_nonempty_mk (s : slice Item) :
  0 < len s -> s = mk_slice (elems s).
Proof. destruct s; [cbn; lia | reflexivity]. Qed.

End MoveFacts.

(** X5.  [MoveItemUp] and [MoveItemDown] panic with an index out of
    range when the filter state is [Unfiltered] and the master sequence
    is an empty slice that is not nil (what removing the only item
    leaves behind): the position computed for the swap is then -1.
    [handleMoving] panics in that state on a key bound to either move.
    In the other filter states both moves return the model as it is,
    and on a nil or non-empty sequence they succeed and keep its
    length. *)
Theorem MoveItem_empty_slice_panics {E : Externals} {C : Collaborators}
    (m : Model) (i : Z) :
  len (items m) <= GoInt.max_int ->
  (filterState m = Unfiltered -> items m = mk_slice [] ->
     MoveItemUp m i = Panic IndexOutOfRange /\
     MoveItemDown m i = Panic IndexOutOfRange /\
     (forall k,
        key_Matches k (KeyMap.MoveUp (keyMap m)) = true \/
        key_Matches k (KeyMap.MoveDown (keyMap m)) = true ->
        handleMoving m (KeyMsg k) = Panic IndexOutOfRange)) /\
  (filterState m <> Unfiltered -> MoveItemUp m i = Ok m /\ MoveItemDown m i = Ok m) /\
  (filterState m = Unfiltered -> items m <> mk_slice [] ->
     (exists m', MoveItemUp m i = Ok m' /\ len (items m') = len (items m)) /\
     (exists m', MoveItemDown m i = Ok m' /\ len (items m') = len (items m))).
Proof.
  intros Hmax. split; [|split].
  - intros Hs Hi.
    assert (Hup : forall j, MoveItemUp m j = Panic IndexOutOfRange).
    { intros j. unfold MoveItemUp. rewrite Hs, Hi. cbn [FilterState_eqb].
      now rewrite swapItemsInSlice_empty. }
    assert (Hdown : forall j, MoveItemDown m j = Panic IndexOutOfRange).
    { intros j. unfold MoveItemDown. rewrite Hs, Hi. cbn [FilterState_eqb].
      now rewrite swapItemsInSlice_empty. }
    split; [apply Hup|]. split; [apply Hdown|].
    intros k Hk. unfold handleMoving.
    destruct (key_Matches k (KeyMap.MoveUp (keyMap m))); [now rewrite Hup|].
    destruct Hk as [Hk|Hk]; [discriminate|]. rewrite Hk. now rewrite Hdown.
  - intros Hs. unfold MoveItemUp, MoveItemDown.
    destruct (filterState m); [congruence| |]; split; reflexivity.
  - intros Hs Hi.
    destruct (items m) as [|l] eqn:Hit.
    + unfold MoveItemUp, MoveItemDown. rewrite Hs, Hit. cbn [FilterState_eqb].
      rewrite !swapItemsInSlice_nil. cbn [bind].
      split; eexists; (split; [reflexivity|]);
        unfold CursorUp, CursorDown; rewrite Select_set_index; reflexivity.
    + assert (Hpos : 0 < len (items m) <= GoInt.max_int).
      { rewrite Hit in *. destruct l; [congruence|]. rewrite len_mk. cbn [List.length]. 
        rewrite len_mk in Hmax. cbn [List.length] in Hmax. lia. }
      rewrite MoveItemUp_run, MoveItemDown_run by assumption.
      split; eexists; (split; [reflexivity|]);
        unfold CursorUp, CursorDown; rewrite Select_set_index; cbn [items set_index set_items];
        rewrite len_mk, exchanged_length, Hit; reflexivity.
Qed.

(** X6.  Moving the selected item.  In state [Unfiltered] with the
    selection in range, [MoveItemUp] at the selected index (the call
    [handleMoving] makes) exchanges the item with the one above it and
    moves the selection up by one, so the same item stays selected;
    [MoveItemDown] does the same downwards.  Moving the first item up,
    or the last one down, returns the model unchanged. *)
Theorem MoveItem_selection_follows {E : Externals} (m : Model) :
  filterState m = Unfiltered ->
  len (items m) <= GoInt.max_int ->
  0 <= index m < len (items m) ->
  (0 < index m ->
     exists m', MoveItemUp m (index m) = Ok m' /\
       index m' = index m - 1 /\
       SelectedItem m' = SelectedItem m /\
       slice_get (items m') (index m) = slice_get (items m) (index m - 1)) /\
  (index m < len (items m) - 1 ->
     exists m', MoveItemDown m (index m) = Ok m' /\
       index m' = index m + 1 /\
       SelectedItem m' = SelectedItem m /\
       slice_get (items m') (index m) = slice_get (items m) (index m + 1)) /\
  (index m = 0 -> MoveItemUp m (index m) = Ok m) /\
  (index m = len (items m) - 1 -> MoveItemDown m (index m) = Ok m).
Proof.
  intros Hs Hmax Hi.
  assert (Hpos : 0 < len (items m) <= GoInt.max_int) by lia.
  rewrite MoveItemUp_run, MoveItemDown_run by assumption.
  rewrite GoInt.sub_id, GoInt.add_id by go_int.
  set (l := elems (items m)).
  assert (Hl : len (items m) = Z.of_nat (List.length l)) by reflexivity.
  assert (P0 : swap_position (items m) (index m) = Z.to_nat (index m))
    by (unfold swap_position; lia).
  rewrite P0.
  assert (Hsel : SelectedItem m = slice_get (items m) (index m)).
  { rewrite SelectedItem_in_range; rewrite AvailableItems_unfiltered by assumption;
      [reflexivity | lia]. }
  assert (Hrun : forall j p,
            0 <= j < len (items m) -> p = Z.to_nat j ->
            let m1 := set_items (mk_slice (exchanged l (Z.to_nat (index m)) p)) m in
            Select m1 j = set_index j m1 /\
            SelectedItem (set_index j m1) = SelectedItem m /\
            slice_get (items (set_index j m1)) (index m) = slice_get (items m) j).
  { intros j p Hj -> m1.
    assert (Hav : AvailableItems m1 = mk_slice (exchanged l (Z.to_nat (index m)) (Z.to_nat j)))
      by (apply AvailableItems_unfiltered; exact Hs).
    assert (Hlen1 : len (AvailableItems m1) = len (items m))
      by (rewrite Hav, len_mk, exchanged_length; reflexivity).
    split; [apply Select_in_range; rewrite Hlen1; lia|].
    split.
    - rewrite SelectedItem_in_range.
      2:{ change (AvailableItems (set_index j m1)) with (AvailableItems m1).
          cbn [index set_index]. rewrite Hlen1. lia. }
      change (AvailableItems (set_index j m1)) with (AvailableItems m1).
      cbn [index set_index]. rewrite Hsel, Hav.
      apply slice_get_nth_error; [rewrite len_mk, exchanged_length; fold l; lia | lia |].
      cbn [elems]. rewrite nth_error_exchanged by (fold l; lia).
      now rewrite Nat.eqb_refl.
    - cbn [items set_index set_items m1].
      apply slice_get_nth_error; [rewrite len_mk, exchanged_length; fold l; lia | lia |].
      cbn [elems]. rewrite nth_error_exchanged by (fold l; lia).
      destruct (Nat.eqb_spec (Z.to_nat (index m)) (Z.to_nat j)) as [->|]; [reflexivity|].
      now rewrite Nat.eqb_refl. }
  split; [|split; [|split]].
  - intros Hup.
    assert (P1 : swap_position (items m) (index m - 1) = Z.to_nat (index m - 1))
      by (unfold swap_position; lia).
    rewrite P1.
    destruct (Hrun (index m - 1) (Z.to_nat (index m - 1)) ltac:(lia) eq_refl) as (R1 & R2 & R3).
    eexists. split; [reflexivity|].
    unfold CursorUp. cbn [index set_items]. rewrite GoInt.sub_id by go_int.
    rewrite R1. auto.
  - intros Hdown.
    assert (P1 : swap_position (items m) (index m + 1) = Z.to_nat (index m + 1))
      by (unfold swap_position; lia).
    rewrite P1.
    destruct (Hrun (index m + 1) (Z.to_nat (index m + 1)) ltac:(lia) eq_refl) as (R1 & R2 & R3).
    eexists. split; [reflexivity|].
    unfold CursorDown. cbn [index set_items]. rewrite GoInt.add_id by go_int.
    rewrite R1. auto.
  - intros H0.
    assert (P1 : swap_position (items m) (index m - 1) = Z.to_nat (index m))
      by (unfold swap_position; lia).
    rewrite P1, exchanged_same. subst l.
    rewrite <- slice_nonempty_mk by lia. rewrite set_items_same by reflexivity.
    unfold CursorUp. rewrite GoInt.sub_id by go_int.
    rewrite Select_negative by (rewrite ?AvailableItems_unfiltered by assumption; lia).
    now rewrite set_index_same.
  - intros Hlast.
    assert (P1 : swap_position (items m) (index m + 1) = Z.to_nat (index m))
      by (unfold swap_position; lia).
    rewrite P1, exchanged_same. subst l.
    rewrite <- slice_nonempty_mk by lia. rewrite set_items_same by reflexivity.
    unfold CursorDown. rewrite GoInt.add_id by go_int.
    rewrite Select_past_end by (rewrite ?AvailableItems_unfiltered by assumption; lia).
    rewrite AvailableItems_unfiltered by assumption.
    now rewrite set_index_same by lia.
Qed.

(** X7.  Round trip: moving the selected item up and then down again,
    each time at the selected index, gives back the model it started
    from. *)
Theorem MoveItemUp_MoveItemDown_roundtrip {E : Externals} (m : Model) :
  filterState m = Unfiltered ->
  len (items m) <= GoInt.max_int ->
  0 < index m < len (items m) ->
  (m1 <- MoveItemUp m (index m) ;; MoveItemDown m1 (index m1)) = Ok m.
Proof.
  intros Hs Hmax Hi.
  rewrite MoveItemUp_run by (assumption || lia). cbn [bind].
  rewrite GoInt.sub_id by go_int.
  set (l := elems (items m)).
  assert (Hl : len (items m) = Z.of_nat (List.length l)) by reflexivity.
  assert (P0 : swap_position (items m) (index m) = Z.to_nat (index m))
    by (unfold swap_position; lia).
  assert (P1 : swap_position (items m) (index m - 1) = Z.to_nat (index m - 1))
    by (unfold swap_position; lia).
  rewrite P0, P1.
  set (l1 := exchanged l (Z.to_nat (index m)) (Z.to_nat (index m - 1))).
  set (m0 := set_items (mk_slice l1) m).
  assert (Hlen1 : List.length l1 = List.length l) by apply exchanged_length.
  assert (Hav0 : len (AvailableItems m0) = len (items m)).
  { unfold m0. rewrite AvailableItems_unfiltered by exact Hs. cbn [items set_items].
    rewrite len_mk, Hlen1. reflexivity. }
  unfold CursorUp. change (index m0) with (index m). rewrite GoInt.sub_id by go_int.
  rewrite Select_in_range by (rewrite Hav0; lia).
  set (m1 := set_index (index m - 1) m0).
  rewrite MoveItemDown_run.
  2:{ exact Hs. }
  2:{ cbn [items set_index set_items m1 m0]. rewrite len_mk, Hlen1. lia. }
  change (index m1) with (index m - 1). change (items m1) with (mk_slice l1).
  rewrite GoInt.add_id by go_int. cbn [elems].
  assert (Q0 : swap_position (mk_slice l1) (index m - 1) = Z.to_nat (index m - 1))
    by (unfold swap_position; rewrite len_mk, Hlen1; lia).
  assert (Q1 : swap_position (mk_slice l1) (index m - 1 + 1) = Z.to_nat (index m))
    by (unfold swap_position; rewrite len_mk, Hlen1; lia).
  rewrite Q0, Q1. unfold l1. rewrite exchanged_involutive by lia.
  unfold CursorDown. f_equal.
  set (m2 := set_items (mk_slice l) m1).
  assert (Hav2 : len (AvailableItems m2) = len (items m)).
  { unfold m2. rewrite AvailableItems_unfiltered by exact Hs. reflexivity. }
  change (index m2) with (index m - 1). rewrite GoInt.add_id by go_int.
  rewrite Select_in_range by (rewrite Hav2; lia).
  replace (index m - 1 + 1) with (index m) by lia.
  assert (Hit : items m = mk_slice l) by (apply slice_nonempty_mk; lia).
  unfold m2, m1, m0. clearbody l. clear - Hit.
  destruct m; cbn in *. now subst.
Qed.

(* ------------------------------------------------------------------ *)
(** ** Removing, replacing and looking up *)

Section RemovalFacts.
Context {A : Type}.
Implicit Types (l : list A).

Lemma remove_past_end l k :
  (List.length l <= k)%nat -> firstn k l ++ skipn (S k) l = l.
Proof.
  intros H. rewrite firstn_all2, skipn_all2 by lia. apply app_nil_r.
Qed.

Lemma nth_error_remove_before l k j :
  (j < k)%nat -> nth_error (firstn k l ++ skipn (S k) l) j = nth_error l j.
Proof.
  intros Hj. destruct (Nat.le_gt_cases (List.length l) j) as [Hout|Hin].
  - rewrite (proj2 (nth_error_None l j) Hout). apply nth_error_None.
    rewrite length_app, length_firstn, length_skipn. lia.
  - rewrite nth_error_app1 by (rewrite length_firstn; lia).
    now rewrite nth_error_firstn, (proj2 (Nat.ltb_lt j k) Hj).
Qed.

Lemma nth_error_remove_after l k j :
  (k <= j)%nat -> (k < List.length l)%nat ->
  nth_error (firstn k l ++ skipn (S k) l) j = nth_error l (S j).
Proof.
  intros Hj Hk. rewrite nth_error_app2 by (rewrite length_firstn; lia).
  rewrite length_firstn, Nat.min_l by lia.
  rewrite nth_error_skipn. f_equal. lia.
Qed.

Lemma remove_inserted l k (x : A) :
  (k <= List.length l)%nat ->
  firstn k (firstn k l ++ x :: skipn k l) ++ skipn (S k) (firstn k l ++ x :: skipn k l) = l.
Proof.
  intros Hk.
  assert (Hlen : List.length (firstn k l) = k) by (rewrite length_firstn; lia).
  rewrite firstn_app, Hlen, Nat.sub_diag, firstn_O, app_nil_r.
  rewrite firstn_all2 by lia.
  rewrite skipn_app, Hlen. rewrite skipn_all2 by lia.
  replace (S k - k)%nat with 1%nat by lia. cbn [skipn app].
  apply firstn_skipn.
Qed.

End RemovalFacts.

(** X8.  Round trip: inserting an item and then removing the item at
    the position where it landed (the index put into [0 .. len]) gives
    back the elements of the sequence.  The result is never nil: a nil
    sequence comes back as an empty one. *)
Theorem insert_remove_roundtrip {E : Externals} (items : slice Item) (x : Item) (i : Z) :
  len items < GoInt.max_int ->
  (s <- insertItemIntoSlice items x i ;;
   removeItemFromSlice s (Z.of_nat (insert_position items i)))
    = Ok (mk_slice (elems items)) /\
  (0 <= i <= len items ->
   (s <- insertItemIntoSlice items x i ;; removeItemFromSlice s i)
     = Ok (mk_slice (elems items))).
Proof.
  intros Hmax.
  assert (Hp : (insert_position items i <= List.length (elems items))%nat)
    by (unfold insert_position, len; lia).
  assert (Hfirst :
    (s <- insertItemIntoSlice items x i ;;
     removeItemFromSlice s (Z.of_nat (insert_position items i)))
      = Ok (mk_slice (elems items))).
  { rewrite insertItemIntoSlice_spec by lia. cbn [bind]. unfold removeItemFromSlice.
    rewrite remove_from_slice_valid.
    - cbn [elems]. rewrite Nat2Z.id. now rewrite remove_inserted.
    - rewrite len_mk, length_app, length_firstn. cbn [List.length]. rewrite length_skipn.
      unfold len in Hmax. lia.
    - rewrite len_mk, length_app, length_firstn. cbn [List.length]. rewrite length_skipn.
      lia. }
  split; [exact Hfirst|].
  intros Hi.
  assert (Heq : Z.of_nat (insert_position items i) = i) by (unfold insert_position; lia).
  now rewrite Heq in Hfirst.
Qed.

Section RemoveMore.
Context {E : Externals}.
Implicit Types (m : Model).

Lemma remove_from_slice_nonneg {A : Type} (zero : A) (s : slice A) i :
  len s <= GoInt.max_int -> 0 <= i ->
  exists s', remove_from_slice zero s i = Ok s' /\
    elems s' = firstn (Z.to_nat i) (elems s) ++ skipn (S (Z.to_nat i)) (elems s).
Proof.
  intros Hmax Hi. destruct (Z.lt_ge_cases i (len s)) as [Hin|Hout].
  - rewrite remove_from_slice_valid by lia. eexists. split; reflexivity.
  - rewrite remove_from_slice_noop by lia. eexists. split; [reflexivity|].
    symmetry. apply remove_past_end. unfold len in Hout. lia.
Qed.

Lemma resetFiltering_frame m :
  items (resetFiltering m) = items m /\
  index (resetFiltering m) = index m /\
  firstItemIndexInView (resetFiltering m) = firstItemIndexInView m /\
  lastItemIndexInView (resetFiltering m) = lastItemIndexInView m /\
  delegate (resetFiltering m) = delegate m.
Proof.
  unfold resetFiltering. destruct (FilterState_eqb _ _); [auto|].
  unfold updateKeybindings. cbn. auto.
Qed.

End RemoveMore.

(** X9.  [RemoveItem] at a valid index of the master sequence succeeds
    in every filter state: the item at the index is dropped, the items
    before it stay in place, those after it move down by one, and the
    selected index is not touched. *)
Theorem RemoveItem_removes {E : Externals} (m : Model) (i : Z) :
  len (items m) <= GoInt.max_int ->
  len (filteredItems m) <= GoInt.max_int ->
  0 <= i < len (items m) ->
  exists m',
    RemoveItem m i = Ok m' /\
    items m' = mk_slice (firstn (Z.to_nat i) (elems (items m))
                         ++ skipn (S (Z.to_nat i)) (elems (items m))) /\
    len (items m') = len (items m) - 1 /\
    index m' = index m /\
    (forall j, 0 <= j < i -> slice_get (items m') j = slice_get (items m) j) /\
    (forall j, i <= j < len (items m) - 1 ->
       slice_get (items m') j = slice_get (items m) (j + 1)).
Proof.
  intros Hmax Hfmax Hi.
  set (l := elems (items m)).
  assert (Hl : len (items m) = Z.of_nat (List.length l)) by reflexivity.
  set (l' := firstn (Z.to_nat i) l ++ skipn (S (Z.to_nat i)) l).
  assert (Hlen' : len (mk_slice l') = len (items m) - 1).
  { unfold l'. rewrite len_mk, length_app, length_firstn, length_skipn. lia. }
  assert (Hrun : exists m', RemoveItem m i = Ok m' /\ items m' = mk_slice l' /\
                            index m' = index m).
  { unfold RemoveItem, removeItemFromSlice, removeFilterMatchFromSlice.
    rewrite remove_from_slice_valid by assumption. cbn [bind]. fold l. fold l'.
    destruct (negb _); [|eexists; repeat split; reflexivity].
    cbn [filteredItems set_items].
    destruct (remove_from_slice_nonneg zero_filteredItem (filteredItems m) i Hfmax
                ltac:(lia)) as (fi' & -> & _).
    cbn [bind].
    destruct (_ =? 0); eexists; (split; [reflexivity|]).
    - destruct (resetFiltering_frame (set_filteredItems fi' (set_items (mk_slice l') m)))
        as (-> & -> & _). split; reflexivity.
    - split; reflexivity. }
  destruct Hrun as (m' & Hrun & Hitems & Hidx).
  exists m'. rewrite Hitems.
  split; [exact Hrun|]. split; [reflexivity|]. split; [exact Hlen'|]. split; [exact Hidx|].
  split.
  - intros j Hj. apply slice_get_nth_error; [rewrite Hlen'; lia | lia |].
    cbn [elems]. apply nth_error_remove_before. lia.
  - intros j Hj. apply slice_get_nth_error; [rewrite Hlen'; lia | lia |].
    cbn [elems]. fold l. replace (Z.to_nat (j + 1)) with (S (Z.to_nat j)) by lia.
    apply nth_error_remove_after; lia.
Qed.

(** X10.  On a filtered list [RemoveItem] applies the same index to
    the filtered sequence: for an index from 0 on, the entry at that
    position of the filtered sequence (if there is one) is dropped as
    well.  When no entry is left the filter is reset: the state becomes
    [Unfiltered], the filtered sequence nil, the query is reset and the
    master sequence is what is available.  Otherwise the filter state
    and the query stay as they are. *)
Theorem RemoveItem_filtered {E : Externals} (m : Model) (i : Z) :
  filterState m <> Unfiltered ->
  len (items m) <= GoInt.max_int ->
  len (filteredItems m) <= GoInt.max_int ->
  0 <= i ->
  let rest := firstn (Z.to_nat i) (elems (filteredItems m))
              ++ skipn (S (Z.to_nat i)) (elems (filteredItems m)) in
  exists m',
    RemoveItem m i = Ok m' /\
    (rest = [] ->
       filterState m' = Unfiltered /\
       filteredItems m' = nil_slice /\
       FilterInput m' = textinput_Reset (FilterInput m) /\
       AvailableItems m' = items m') /\
    (rest <> [] ->
       filterState m' = filterState m /\
       elems (filteredItems m') = rest /\
       FilterInput m' = FilterInput m).
Proof.
  intros Hs Hmax Hfmax Hi rest.
  unfold RemoveItem, removeItemFromSlice, removeFilterMatchFromSlice.
  destruct (remove_from_slice_nonneg nil_item (items m) i Hmax Hi) as (it' & -> & _).
  cbn [bind].
  replace (negb (FilterState_eqb (filterState (set_items it' m)) Unfiltered)) with true
    by (cbn; destruct (filterState m); [congruence | reflexivity | reflexivity]).
  cbn [filteredItems set_items].
  destruct (remove_from_slice_nonneg zero_filteredItem (filteredItems m) i Hfmax Hi)
    as (fi' & -> & Hfi).
  cbn [bind]. fold rest in Hfi.
  cbn [filteredItems set_filteredItems].
  destruct (Z.eqb_spec (len fi') 0) as [Hz|Hnz]; eexists; (split; [reflexivity|]).
  - assert (Hrest : rest = []).
    { rewrite <- Hfi. unfold len in Hz. destruct (elems fi'); [reflexivity | cbn in Hz; lia]. }
    split; [|intros; congruence]. intros _.
    destruct (resetFiltering_active (set_filteredItems fi' (set_items it' m)))
      as (R1 & R2 & R3 & R4 & _); [cbn; exact Hs|].
    rewrite R1, R2, R3. repeat split.
    unfold AvailableItems. now rewrite R1.
  - assert (Hrest : rest <> []).
    { rewrite <- Hfi. intros Hnil. rewrite Hnil in *. unfold len in Hnz.
      destruct fi'; cbn in *; try subst; try congruence; cbn in Hnz; lia. }
    split; [intros; congruence|]. intros _. repeat split. exact Hfi.
Qed.

(** X13.  [SetItem] at a valid index replaces that item and nothing
    else: the length, the other positions, the selection, the filter
    state and the filtered sequence stay; the command is nil in state
    [Unfiltered] and the filtering of the updated model otherwise.  At a
    negative index, or one at or past the length, [SetItem] panics. *)
Theorem SetItem_spec {E : Externals} (m : Model) (i : Z) (it : Item) :
  (0 <= i < len (items m) ->
     exists m' cmd,
       SetItem m i it = Ok (m', cmd) /\
       len (items m') = len (items m) /\
       slice_get (items m') i = Ok it /\
       (forall j, j <> i -> slice_get (items m') j = slice_get (items m) j) /\
       index m' = index m /\
       filterState m' = filterState m /\
       filteredItems m' = filteredItems m /\
       (filterState m = Unfiltered -> cmd = cmd_nil) /\
       (filterState m <> Unfiltered -> cmd = cmd_filterItems m')) /\
  (i < 0 \/ len (items m) <= i -> SetItem m i it = Panic IndexOutOfRange).
Proof.
  split.
  - intros Hi. unfold SetItem. rewrite slice_set_ok by assumption. cbn [bind].
    eexists _, _. split; [reflexivity|].
    set (l := elems (items m)).
    assert (Hl : len (items m) = Z.of_nat (List.length l)) by reflexivity.
    assert (Hlen : len (mk_slice (list_set l (Z.to_nat i) it)) = len (items m))
      by (rewrite len_mk, list_set_length; reflexivity).
    cbn [items set_items index filterState filteredItems].
    split; [exact Hlen|]. split; [|split].
    + unfold slice_get. rewrite Hlen.
      destruct (Z.leb_spec 0 i); [|lia]. destruct (Z.ltb_spec i (len (items m))); [|lia].
      cbn [andb elems]. rewrite nth_error_list_set, Nat.eqb_refl.
      destruct (Nat.ltb_spec (Z.to_nat i) (List.length l)); [reflexivity | lia].
    + intros j Hj.
      destruct (Z.lt_ge_cases j 0) as [Hneg|Hnn].
      { rewrite !slice_get_out by lia. reflexivity. }
      destruct (Z.lt_ge_cases j (len (items m))) as [Hin|Hout].
      2:{ rewrite !slice_get_out by (rewrite ?Hlen; lia). reflexivity. }
      apply slice_get_nth_error; [rewrite Hlen; lia | lia |].
      cbn [elems]. rewrite nth_error_list_set.
      destruct (Nat.eqb_spec (Z.to_nat j) (Z.to_nat i)); [lia | reflexivity].
    + repeat split.
      * intros ->. reflexivity.
      * intros Hs. destruct (filterState m); [congruence | reflexivity | reflexivity].
  - intros Hi. unfold SetItem, slice_set.
    destruct (Z.leb_spec 0 i); destruct (Z.ltb_spec i (len (items m))); cbn; try reflexivity; lia.
Qed.

(** X14.  [SetItems] installs the given sequence and leaves the
    selected index and the filter state alone.  In state [Unfiltered]
    it returns no command and the new sequence is what is available.
    In the other states the filtered sequence becomes nil, so no item
    is available or selected until results arrive, and the command
    filters a snapshot that holds the new items and the current query,
    state and filter function. *)
Theorem SetItems_spec {E : Externals} (m : Model) (i : slice Item) :
  let m' := fst (SetItems m i) in
  items m' = i /\
  index m' = index m /\
  filterState m' = filterState m /\
  (filterState m = Unfiltered ->
     snd (SetItems m i) = cmd_nil /\
     filteredItems m' = filteredItems m /\
     AvailableItems m' = i) /\
  (filterState m <> Unfiltered ->
     filteredItems m' = nil_slice /\
     len (AvailableItems m') = 0 /\
     SelectedItem m' = Ok nil_item /\
     exists snapshot,
       snd (SetItems m i) = cmd_filterItems snapshot /\
       items snapshot = i /\
       FilterInput snapshot = FilterInput m /\
       filterState snapshot = filterState m /\
       Filter snapshot = Filter m).
Proof.
  unfold SetItems. cbn [filterState set_items].
  destruct (filterState m) eqn:Hs; cbn [FilterState_eqb negb fst snd];
    match goal with |- context [updateKeybindings ?x] =>
      destruct (updateKeybindings_frame x) as (K1 & K2 & K3 & K4 & K5 & _) end;
    cbv zeta; rewrite K1, K2, K3; cbn [items index filterState set_items set_filteredItems];
    (split; [reflexivity|]); (split; [reflexivity|]); (split; [auto|]); split;
    try (intros; congruence); intros _.
  - rewrite K4. repeat split. unfold AvailableItems. rewrite K3, K1. cbn. now rewrite Hs.
  - assert (Hav : len (AvailableItems (updateKeybindings
                         (set_filteredItems nil_slice (set_items i m)))) = 0).
    { unfold AvailableItems. rewrite K3, K4. cbn. now rewrite Hs. }
    rewrite K4. split; [reflexivity|]. split; [exact Hav|]. split.
    + unfold SelectedItem. rewrite Hav. cbn. now rewrite orb_true_r.
    + eexists. repeat split. exact Hs.
  - assert (Hav : len (AvailableItems (updateKeybindings
                         (set_filteredItems nil_slice (set_items i m)))) = 0).
    { unfold AvailableItems. rewrite K3, K4. cbn. now rewrite Hs. }
    rewrite K4. split; [reflexivity|]. split; [exact Hav|]. split.
    + unfold SelectedItem. rewrite Hav. cbn. now rewrite orb_true_r.
    + eexists. repeat split. exact Hs.
Qed.

(** X15.  [MatchesForItem] returns nil when the filtered sequence is
    nil or the index is at or past its length, returns the matches of
    the entry at a valid index, and panics on a negative index when the
    filtered sequence is not nil. *)
Theorem MatchesForItem_spec {E : Externals} (m : Model) (i : Z) :
  (filteredItems m = nil_slice \/ len (filteredItems m) <= i ->
     MatchesForItem m i = Ok nil_slice) /\
  (0 <= i < len (filteredItems m) ->
     exists fi, nth_error (elems (filteredItems m)) (Z.to_nat i) = Some fi /\
                MatchesForItem m i = Ok (matches fi)) /\
  (filteredItems m <> nil_slice -> i < 0 ->
     MatchesForItem m i = Panic IndexOutOfRange).
Proof.
  unfold MatchesForItem. pose proof (len_nonneg (filteredItems m)) as Hnn.
  split; [|split].
  - intros [->|Hi]; [reflexivity|].
    destruct (Z.geb_spec i (len (filteredItems m))); [|lia]. now rewrite orb_true_r.
  - intros Hi. destruct (filteredItems m) as [|l] eqn:Hf; [cbn in Hi; lia|].
    cbn [is_nil orb]. destruct (Z.geb_spec i (len (mk_slice l))); [lia|].
    destruct (slice_get_ok (mk_slice l) i Hi) as (fi & Hn & ->).
    exists fi. split; [exact Hn | reflexivity].
  - intros Hn Hi. destruct (filteredItems m) as [|l]; [congruence|].
    cbn [is_nil orb]. destruct (Z.geb_spec i (len (mk_slice l))); [lia|].
    rewrite slice_get_out by lia. reflexivity.
Qed.

(* ------------------------------------------------------------------ *)
(** ** Mutations and the selected item *)

(** X11.  [InsertItem] leaves the selected index where it is, so the
    selected item can change: inserting after the selection keeps the
    selected item, inserting at the selection makes the new item the
    selected one, and inserting before it selects the item that was one
    position above. *)
Theorem InsertItem_shifts_selection {E : Externals} (m : Model) (i : Z) (it : Item) :
  filterState m = Unfiltered ->
  len (items m) < GoInt.max_int ->
  0 <= index m < len (items m) ->
  exists m' cmd,
    InsertItem m i it = Ok (m', cmd) /\
    index m' = index m /\
    (index m < i -> SelectedItem m' = SelectedItem m) /\
    (i = index m \/ (i < 0 /\ index m = 0) -> SelectedItem m' = Ok it) /\
    (i < index m -> 0 < index m ->
       SelectedItem m' = slice_get (items m) (index m - 1)).
Proof.
  intros Hs Hmax Hi. unfold InsertItem.
  rewrite insertItemIntoSlice_spec by lia. cbn [bind].
  eexists _, _. split; [reflexivity|].
  match goal with |- context [updateKeybindings ?x] =>
    destruct (updateKeybindings_frame x) as (K1 & K2 & K3 & _); set (m1 := x) in * end.
  set (l := elems (items m)) in *.
  assert (Hl : len (items m) = Z.of_nat (List.length l)) by reflexivity.
  set (p := insert_position (items m) i) in *.
  assert (Hp : (p <= List.length l)%nat) by (unfold p, insert_position; lia).
  assert (Hav : AvailableItems (updateKeybindings m1) = mk_slice (firstn p l ++ it :: skipn p l)).
  { unfold AvailableItems. rewrite K3, K1. cbn. now rewrite Hs. }
  assert (Hlen : len (mk_slice (firstn p l ++ it :: skipn p l)) = len (items m) + 1).
  { rewrite len_mk, length_app, length_firstn. cbn [List.length]. rewrite length_skipn. lia. }
  assert (Hsel' : SelectedItem (updateKeybindings m1)
                  = slice_get (mk_slice (firstn p l ++ it :: skipn p l)) (index m)).
  { rewrite SelectedItem_in_range; rewrite Hav, K2; [reflexivity|].
    cbn [index set_items m1]. rewrite Hlen. lia. }
  assert (Hsel : SelectedItem m = slice_get (items m) (index m)).
  { rewrite SelectedItem_in_range; rewrite AvailableItems_unfiltered by assumption;
      [reflexivity | lia]. }
  rewrite K2, Hsel', Hsel. cbn [index set_items m1].
  split; [reflexivity|]. split; [|split].
  - intros Hlt. apply slice_get_nth_error; [rewrite Hlen; lia | lia |].
    cbn [elems]. apply nth_error_insert_before; [|exact Hp].
    unfold p, insert_position. lia.
  - intros Hat.
    assert (Hpi : Z.to_nat (index m) = p) by (unfold p, insert_position; lia).
    unfold slice_get. rewrite Hlen.
    destruct (Z.leb_spec 0 (index m)); [|lia].
    destruct (Z.ltb_spec (index m) (len (items m) + 1)); [|lia].
    cbn [andb elems]. rewrite Hpi. now rewrite nth_error_insert_at.
  - intros Hlt Hpos. apply slice_get_nth_error; [rewrite Hlen; lia | lia |].
    cbn [elems]. fold l.
    replace (Z.to_nat (index m)) with (S (Z.to_nat (index m - 1))) by lia.
    apply nth_error_insert_after; [|exact Hp].
    unfold p, insert_position. lia.
Qed.

(** X12.  [RemoveItem] leaves the selected index where it is: removing
    after the selection keeps the selected item; removing at or before
    it selects the item that followed the selected one; and when the
    last position was selected, no item is selected afterwards
    ([SelectedItem] returns nil). *)
Theorem RemoveItem_shifts_selection {E : Externals} (m : Model) (i : Z) :
  filterState m = Unfiltered ->
  len (items m) <= GoInt.max_int ->
  0 <= index m < len (items m) ->
  0 <= i < len (items m) ->
  exists m',
    RemoveItem m i = Ok m' /\
    index m' = index m /\
    (index m < i -> SelectedItem m' = SelectedItem m) /\
    (i <= index m -> index m < len (items m) - 1 ->
       SelectedItem m' = slice_get (items m) (index m + 1)) /\
    (index m = len (items m) - 1 -> SelectedItem m' = Ok nil_item).
Proof.
  intros Hs Hmax Hx Hi.
  rewrite RemoveItem_valid_unfiltered by assumption.
  eexists. split; [reflexivity|]. split; [reflexivity|].
  set (l := elems (items m)) in *. set (k := Z.to_nat i) in *.
  assert (Hl : len (items m) = Z.of_nat (List.length l)) by reflexivity.
  set (m1 := set_items (mk_slice (firstn k l ++ skipn (S k) l)) m).
  assert (Hav : AvailableItems m1 = mk_slice (firstn k l ++ skipn (S k) l))
    by (apply AvailableItems_unfiltered; exact Hs).
  assert (Hlen : len (mk_slice (firstn k l ++ skipn (S k) l)) = len (items m) - 1).
  { rewrite len_mk, length_app, length_firstn, length_skipn. lia. }
  assert (Hsel : SelectedItem m = slice_get (items m) (index m)).
  { rewrite SelectedItem_in_range; rewrite AvailableItems_unfiltered by assumption;
      [reflexivity | lia]. }
  assert (Hsel' : index m < len (items m) - 1 ->
                  SelectedItem m1 = slice_get (mk_slice (firstn k l ++ skipn (S k) l)) (index m)).
  { intros Hin. rewrite SelectedItem_in_range; rewrite Hav; [reflexivity|].
    cbn [index set_items m1]. rewrite Hlen. lia. }
  split; [|split].
  - intros Hlt. rewrite Hsel' by lia. rewrite Hsel.
    apply slice_get_nth_error; [rewrite Hlen; lia | lia |].
    cbn [elems]. apply nth_error_remove_before. lia.
  - intros Hle Hin. rewrite Hsel' by lia.
    apply slice_get_nth_error; [rewrite Hlen; lia | lia |].
    cbn [elems]. fold l. replace (Z.to_nat (index m + 1)) with (S (Z.to_nat (index m))) by lia.
    apply nth_error_remove_after; lia.
  - intros Hlast. unfold SelectedItem, Index. rewrite Hav, Hlen.
    cbn [index set_items m1].
    destruct (Z.leb_spec (len (items m) - 1) (index m)); [|lia].
    now rewrite !orb_true_r.
Qed.

(* ------------------------------------------------------------------ *)
(** ** The filtering command *)

Section FilterRun.
Context {E : Externals}.
Implicit Types (m : Model).

Lemma fold_left_Panic {A B : Type} (f : A -> B -> result A) (l : list B) p :
  fold_left (fun acc b => a <- acc ;; f a b) l (Panic p) = Panic p.
Proof. induction l as [|h t IH]; cbn; [reflexivity | exact IH]. Qed.

Lemma collect_targets (l : list Item) (acc : list string) :
  fold_left
    (fun acc t =>
       targets <- acc ;;
       if Item_is_nil t then Panic NilDereference
       else Ok (targets ++ [Item_FilterValue t]))
    l (Ok acc)
  = if forallb (fun t => negb (Item_is_nil t)) l
    then Ok (acc ++ map Item_FilterValue l)
    else Panic NilDereference.
Proof.
  revert acc; induction l as [|h t IH]; intros acc; cbn [fold_left forallb map bind].
  - now rewrite app_nil_r.
  - destruct (Item_is_nil h); cbn [negb andb].
    + apply (fold_left_Panic
               (fun targets t => if Item_is_nil t then Panic NilDereference
                                 else Ok (targets ++ [Item_FilterValue t]))).
    + rewrite IH, <- app_assoc. reflexivity.
Qed.

Lemma collect_matches (items : slice Item) (ranks : list Rank) (acc : list filteredItem) :
  fold_left
    (fun acc r =>
       filterMatches <- acc ;;
       it <- slice_get items (Index_ r) ;;
       Ok (filterMatches ++ [{| item := it; matches := MatchedIndexes r |}]))
    ranks (Ok acc)
  = if ranks_in_range items ranks
    then Ok (acc ++ map (rank_match items) ranks)
    else Panic IndexOutOfRange.
Proof.
  unfold ranks_in_range.
  revert acc; induction ranks as [|r t IH]; intros acc; cbn [fold_left forallb map bind].
  - now rewrite app_nil_r.
  - destruct (Z.leb_spec 0 (Index_ r)) as [Hlo|Hlo];
      [destruct (Z.ltb_spec (Index_ r) (len items)) as [Hhi|Hhi]|]; cbn [andb].
    + rewrite (slice_get_nth _ _ nil_item) by lia. cbn [bind].
      rewrite IH, <- app_assoc. reflexivity.
    + rewrite slice_get_out by lia. cbn [bind].
      apply (fold_left_Panic
               (fun filterMatches r =>
                  it <- slice_get items (Index_ r) ;;
                  Ok (filterMatches ++ [{| item := it; matches := MatchedIndexes r |}]))).
    + rewrite slice_get_out by lia. cbn [bind].
      apply (fold_left_Panic
               (fun filterMatches r =>
                  it <- slice_get items (Index_ r) ;;
                  Ok (filterMatches ++ [{| item := it; matches := MatchedIndexes r |}]))).
Qed.

Lemma filterItems_run_all m :
  textinput_Value (FilterInput m) = EmptyString \/ filterState m = Unfiltered ->
  filterItems_run m = Ok (FilterMatchesMsg (itemsAsFilterItems m)).
Proof.
  intros H. unfold filterItems_run.
  destruct H as [->| ->]; [reflexivity|]. cbn. now rewrite orb_true_r.
Qed.

Lemma filterItems_run_query m :
  textinput_Value (FilterInput m) <> EmptyString -> filterState m <> Unfiltered ->
  filterItems_run m =
  if no_nil_item (items m) then
    if ranks_in_range (items m) (ranks_for m (textinput_Value (FilterInput m)))
    then Ok (FilterMatchesMsg
               (mk_slice (map (rank_match (items m))
                            (ranks_for m (textinput_Value (FilterInput m))))))
    else Panic IndexOutOfRange
  else Panic NilDereference.
Proof.
  intros Hq Hs. unfold filterItems_run.
  destruct (String.eqb_spec (textinput_Value (FilterInput m)) EmptyString); [congruence|].
  replace (FilterState_eqb (filterState m) Unfiltered) with false
    by (destruct (filterState m); [congruence | reflexivity | reflexivity]).
  cbn [orb]. rewrite collect_targets. fold (no_nil_item (items m)).
  destruct (no_nil_item (items m)); [|reflexivity]. cbn [bind app].
  rewrite collect_matches. fold (ranks_for m (textinput_Value (FilterInput m))).
  destruct (ranks_in_range _ _); reflexivity.
Qed.

Lemma itemsAsFilterItems_items m :
  map item (elems (itemsAsFilterItems m)) = elems (items m).
Proof.
  unfold itemsAsFilterItems. cbn [elems]. rewrite map_map. cbn. apply map_id.
Qed.

End FilterRun.

(** X16.  The command built by [filterItems].  With an empty query, or
    in state [Unfiltered], its message holds every item in order with no
    matches.  Otherwise the filter function is called with the query
    and the filter values of the items: a nil item makes the command
    panic, and so does a rank whose index is outside the items; when
    every rank is in range the message holds, for each rank in order,
    the item at the rank's index with the rank's matched indexes. *)
Theorem filterItems_run_spec {E : Externals} (m : Model) :
  let query := textinput_Value (FilterInput m) in
  (query = EmptyString \/ filterState m = Unfiltered ->
     filterItems_run m = Ok (FilterMatchesMsg (itemsAsFilterItems m)) /\
     map item (elems (itemsAsFilterItems m)) = elems (items m) /\
     Forall (fun fi => matches fi = nil_slice) (elems (itemsAsFilterItems m))) /\
  (query <> EmptyString -> filterState m <> Unfiltered ->
     (no_nil_item (items m) = false -> filterItems_run m = Panic NilDereference) /\
     (no_nil_item (items m) = true ->
      ranks_in_range (items m) (ranks_for m query) = false ->
        filterItems_run m = Panic IndexOutOfRange) /\
     (no_nil_item (items m) = true ->
      ranks_in_range (items m) (ranks_for m query) = true ->
        filterItems_run m =
        Ok (FilterMatchesMsg (mk_slice (map (rank_match (items m)) (ranks_for m query)))))).
Proof.
  cbv zeta. split.
  - intros H. split; [now apply filterItems_run_all|].
    split; [apply itemsAsFilterItems_items|].
    unfold itemsAsFilterItems. cbn [elems]. apply Forall_forall.
    intros fi Hin. apply in_map_iff in Hin. destruct Hin as (x & <- & _). reflexivity.
  - intros Hq Hs. rewrite filterItems_run_query by assumption.
    split; [|split].
    + now intros ->.
    + now intros -> ->.
    + now intros -> ->.
Qed.

(* ------------------------------------------------------------------ *)
(** ** The filter editor *)

Section StoreFrames.
Context {E : Externals} {C : Collaborators}.
Implicit Types (m : Model).

Lemma same_store_refl m : same_store m m.
Proof. repeat split. Qed.

Lemma same_store_trans m1 m2 m3 :
  same_store m1 m2 -> same_store m2 m3 -> same_store m1 m3.
Proof.
  unfold same_store. intros (A1 & A2 & A3 & A4 & A5) (B1 & B2 & B3 & B4 & B5).
  repeat split; congruence.
Qed.

Lemma same_store_updateKeybindings m : same_store m (updateKeybindings m).
Proof.
  destruct (updateKeybindings_frame m) as (K1 & K2 & _ & _ & _ & K6 & K7).
  repeat split; try assumption.
  unfold updateKeybindings. destruct (filterState m); reflexivity.
Qed.

Lemma same_store_resetFiltering m : same_store m (resetFiltering m).
Proof. exact (resetFiltering_frame m). Qed.

Lemma same_store_hideStatusMessage m : same_store m (hideStatusMessage m).
Proof. unfold hideStatusMessage. cbn. destruct (statusMessageTimer m); repeat split. Qed.

Lemma same_store_accept_filter m : same_store m (accept_filter m).
Proof.
  unfold accept_filter.
  pose proof (same_store_hideStatusMessage m) as H0.
  set (m0 := hideStatusMessage m) in *.
  destruct (_ =? 0); [exact H0|].
  destruct (_ =? 0); [exact (same_store_trans _ _ _ H0 (same_store_resetFiltering m0))|].
  set (m1 := set_filterState FilterApplied _).
  assert (H1 : same_store m m1) by exact H0.
  pose proof (same_store_trans _ _ _ H1 (same_store_updateKeybindings m1)) as H2.
  destruct (String.eqb _ _); [|exact H2].
  exact (same_store_trans _ _ _ H2 (same_store_resetFiltering _)).
Qed.

(** The key handling at the head of [handleFiltering]. *)
Lemma handleFiltering_unfold m msg :
  exists m1,
    same_store m m1 /\
    (match msg with
     | KeyMsg k =>
       if key_Matches k (KeyMap.CancelWhileFiltering (keyMap m)) then
         m1 = set_keyMap
                (KeyMap.set_ClearFilter
                   (key_SetEnabled
                      (KeyMap.ClearFilter
                         (KeyMap.set_Filter
                            (key_SetEnabled (KeyMap.Filter (keyMap (resetFiltering m))) true)
                            (keyMap (resetFiltering m)))) false)
                   (KeyMap.set_Filter
                      (key_SetEnabled (KeyMap.Filter (keyMap (resetFiltering m))) true)
                      (keyMap (resetFiltering m))))
                (resetFiltering m)
       else if key_Matches k (KeyMap.AcceptWhileFiltering (keyMap m)) then
         m1 = accept_filter m
       else m1 = m
     | _ => m1 = m
     end) /\
    handleFiltering m msg =
    (let '(t, c) := textinput_Update (FilterInput m1) msg in
     if negb (String.eqb (textinput_Value (FilterInput m1)) (textinput_Value t))
     then (set_keyMap
             (KeyMap.set_AcceptWhileFiltering
                (key_SetEnabled (KeyMap.AcceptWhileFiltering (keyMap m1))
                   (negb (String.eqb (textinput_Value t) EmptyString))) (keyMap m1))
             (set_FilterInput t m1),
           tea_Batch [c; cmd_filterItems (set_FilterInput t m1)])
     else (set_FilterInput t m1, tea_Batch [c])).
Proof.
  unfold handleFiltering.
  destruct msg as [k| | | |]; try (exists m; split; [apply same_store_refl|]; split; reflexivity).
  destruct (key_Matches k (KeyMap.CancelWhileFiltering (keyMap m))).
  { eexists. split; [|split; reflexivity]. exact (same_store_resetFiltering m). }
  destruct (key_Matches k (KeyMap.AcceptWhileFiltering (keyMap m))).
  { exists (accept_filter m). split; [apply same_store_accept_filter|]. split; reflexivity. }
  exists m. split; [apply same_store_refl|]. split; reflexivity.
Qed.

Lemma same_store_handleFiltering m msg : same_store m (fst (handleFiltering m msg)).
Proof.
  destruct (handleFiltering_unfold m msg) as (m1 & H1 & _ & ->).
  destruct (textinput_Update (FilterInput m1) msg) as [t c].
  destruct (negb _); exact H1.
Qed.

End StoreFrames.

Section FilterEditor.
Context {E : Externals} {C : Collaborators}.
Implicit Types (m : Model).

Lemma Update_handlers_filtering m cmds msg :
  filterState m = Filtering ->
  Update_handlers m cmds msg =
  Ok (fst (handleFiltering m msg), tea_Batch (cmds ++ [snd (handleFiltering m msg)])).
Proof.
  intros Hs. unfold Update_handlers. rewrite Hs. cbn [FilterState_eqb].
  now destruct (handleFiltering m msg).
Qed.

(** A message that is neither a cancel nor an accept key goes straight
    to the text input. *)
Lemma handleFiltering_plain m msg :
  match msg with
  | KeyMsg k =>
    key_Matches k (KeyMap.CancelWhileFiltering (keyMap m)) = false /\
    key_Matches k (KeyMap.AcceptWhileFiltering (keyMap m)) = false
  | _ => True
  end ->
  handleFiltering m msg =
  (let '(t, c) := textinput_Update (FilterInput m) msg in
   if negb (String.eqb (textinput_Value (FilterInput m)) (textinput_Value t))
   then (set_keyMap
           (KeyMap.set_AcceptWhileFiltering
              (key_SetEnabled (KeyMap.AcceptWhileFiltering (keyMap m))
                 (negb (String.eqb (textinput_Value t) EmptyString))) (keyMap m))
           (set_FilterInput t m),
         tea_Batch [c; cmd_filterItems (set_FilterInput t m)])
   else (set_FilterInput t m, tea_Batch [c])).
Proof.
  intros H. destruct (handleFiltering_unfold m msg) as (m1 & _ & Hm1 & ->).
  destruct msg as [k| | | |]; try (now subst m1).
  destruct H as [Hc Ha]. rewrite Hc, Ha in Hm1. now subst m1.
Qed.

End FilterEditor.

(** X17.  A cancel key while filtering (it is tried before the accept
    key, so it wins when a key matches both): the state becomes
    [Unfiltered], the filtered sequence nil, the master sequence is
    what is available, the selected index stays, the [Filter] binding
    is enabled and the [ClearFilter] binding disabled.  The query is
    reset and the text input is then handed the key; when the text
    input leaves its value alone on that key, the query ends empty and
    no filtering is requested. *)
Theorem handleFiltering_cancel {E : Externals} {C : Collaborators}
    (m : Model) (k : tea_KeyMsg) :
  filterState m = Filtering ->
  key_Matches k (KeyMap.CancelWhileFiltering (keyMap m)) = true ->
  let m' := fst (handleFiltering m (KeyMsg k)) in
  let quiet :=
    forall t, textinput_Value (fst (textinput_Update t (KeyMsg k))) = textinput_Value t in
  filterState m' = Unfiltered /\
  filteredItems m' = nil_slice /\
  AvailableItems m' = items m /\
  index m' = index m /\
  FilterInput m' = fst (textinput_Update (textinput_Reset (FilterInput m)) (KeyMsg k)) /\
  (exists b, KeyMap.Filter (keyMap m') = key_SetEnabled b true) /\
  (exists b, KeyMap.ClearFilter (keyMap m') = key_SetEnabled b false) /\
  (quiet ->
     textinput_Value (FilterInput m') = EmptyString /\
     snd (handleFiltering m (KeyMsg k)) =
       tea_Batch [snd (textinput_Update (textinput_Reset (FilterInput m)) (KeyMsg k))]).
Proof.
  intros Hs Hc m' quiet. subst m' quiet.
  destruct (handleFiltering_unfold m (KeyMsg k)) as (m1 & (H1 & H2 & _) & Hm1 & ->).
  rewrite Hc in Hm1.
  destruct (resetFiltering_active m) as (R1 & R2 & R3 & _); [congruence|].
  assert (S1 : filterState m1 = Unfiltered) by (subst m1; exact R1).
  assert (S2 : FilterInput m1 = textinput_Reset (FilterInput m)) by (subst m1; exact R2).
  assert (S3 : filteredItems m1 = nil_slice) by (subst m1; exact R3).
  assert (S4 : exists b, KeyMap.Filter (keyMap m1) = key_SetEnabled b true)
    by (subst m1; eexists; reflexivity).
  assert (S5 : exists b, KeyMap.ClearFilter (keyMap m1) = key_SetEnabled b false)
    by (subst m1; eexists; reflexivity).
  clear Hm1. rewrite S2.
  destruct (textinput_Update (textinput_Reset (FilterInput m)) (KeyMsg k)) as [t c] eqn:Hu.
  assert (Hq : (forall t0, textinput_Value (fst (textinput_Update t0 (KeyMsg k)))
                           = textinput_Value t0) ->
               textinput_Value t = EmptyString).
  { intros Hq. specialize (Hq (textinput_Reset (FilterInput m))).
    rewrite Hu, textinput_Reset_Value in Hq. exact Hq. }
  rewrite textinput_Reset_Value.
  destruct (String.eqb_spec EmptyString (textinput_Value t)) as [He|Hne];
    cbn [negb fst snd filterState filteredItems index FilterInput keyMap
         set_keyMap set_FilterInput KeyMap.Filter KeyMap.ClearFilter
         KeyMap.set_AcceptWhileFiltering].
  - repeat split; try assumption.
    + unfold AvailableItems. cbn. now rewrite S1.
    + now symmetry.
  - repeat split; try assumption.
    + unfold AvailableItems. cbn. now rewrite S1.
    + now apply Hq.
    + exfalso. apply Hne. symmetry. now apply Hq.
Qed.

(** X20.  While the filter is being edited [Update] never fails and,
    whatever the message, the text input and the delegate are, leaves
    the master sequence, the selected index, the viewport bounds and
    the delegate as they are.  The state stays [Filtering] unless the
    message is a cancel or an accept key. *)
Theorem Update_filtering_keeps_store {E : Externals} {C : Collaborators}
    (m : Model) (msg : Msg) :
  filterState m = Filtering ->
  exists m' cmd,
    Update m msg = Ok (m', cmd) /\
    same_store m m' /\
    match msg with
    | KeyMsg k =>
      key_Matches k (KeyMap.CancelWhileFiltering (keyMap m)) = false ->
      key_Matches k (KeyMap.AcceptWhileFiltering (keyMap m)) = false ->
      filterState m' = Filtering
    | _ => filterState m' = Filtering
    end.
Proof.
  intros Hs.
  assert (Hplain : forall m0 msg0,
            filterState m0 = Filtering ->
            match msg0 with
            | KeyMsg k =>
              key_Matches k (KeyMap.CancelWhileFiltering (keyMap m0)) = false /\
              key_Matches k (KeyMap.AcceptWhileFiltering (keyMap m0)) = false
            | _ => True
            end ->
            filterState (fst (handleFiltering m0 msg0)) = Filtering).
  { intros m0 msg0 Hs0 H. rewrite (handleFiltering_plain m0 msg0 H).
    destruct (textinput_Update (FilterInput m0) msg0) as [t c].
    destruct (negb _); exact Hs0. }
  destruct msg as [k|fi|t| |o]; cbn [Update].
  - destruct (key_Matches k (KeyMap.ForceQuit (keyMap m))).
    + eexists _, _. split; [reflexivity|]. split; [apply same_store_refl|]. auto.
    + rewrite Update_handlers_filtering by assumption.
      eexists _, _. split; [reflexivity|]. split; [apply same_store_handleFiltering|].
      intros Hc Ha. apply Hplain; [assumption | now split].
  - eexists _, _. split; [reflexivity|]. split; [repeat split | exact Hs].
  - destruct (spinner_Update (spinner m) t) as [sp cmd].
    rewrite Update_handlers_filtering by exact Hs.
    eexists _, _. split; [reflexivity|].
    split; [|apply Hplain; [exact Hs | exact I]].
    exact (same_store_handleFiltering (set_spinner sp m) (TickMsg t)).
  - assert (Hs' : filterState (hideStatusMessage m) = Filtering).
    { destruct (hideStatusMessage_frame m) as (_ & _ & -> & _). exact Hs. }
    rewrite Update_handlers_filtering by exact Hs'.
    eexists _, _. split; [reflexivity|].
    split; [|apply Hplain; [exact Hs' | exact I]].
    eapply same_store_trans; [apply same_store_hideStatusMessage|].
    apply same_store_handleFiltering.
  - rewrite Update_handlers_filtering by exact Hs.
    eexists _, _. split; [reflexivity|].
    split; [apply same_store_handleFiltering | apply Hplain; [exact Hs | exact I]].
Qed.

(** X19.  A key typed while filtering (not the force-quit, cancel or
    accept key) goes to the text input.  If the value of the input is
    unchanged, [Update] only stores the input.  If it changed, [Update]
    also returns the filtering command over a snapshot with the new
    query, and enables the accept binding exactly when the new query is
    not empty.  For an empty new query the command yields all items;
    otherwise, with no nil item and all ranks in range, it yields the
    items the filter function ranks for the new query.  Delivering a
    result to [Update] makes it the filtered sequence, whose items are
    then the available ones. *)
Theorem typing_refilters {E : Externals} {C : Collaborators}
    (m : Model) (k : tea_KeyMsg) (t' : textinput_Model) (c : Cmd) :
  filterState m = Filtering ->
  key_Matches k (KeyMap.ForceQuit (keyMap m)) = false ->
  key_Matches k (KeyMap.CancelWhileFiltering (keyMap m)) = false ->
  key_Matches k (KeyMap.AcceptWhileFiltering (keyMap m)) = false ->
  textinput_Update (FilterInput m) (KeyMsg k) = (t', c) ->
  (textinput_Value t' = textinput_Value (FilterInput m) ->
     Update m (KeyMsg k) = Ok (set_FilterInput t' m, tea_Batch [tea_Batch [c]])) /\
  (textinput_Value t' <> textinput_Value (FilterInput m) ->
     exists m1 snapshot,
       Update m (KeyMsg k) = Ok (m1, tea_Batch [tea_Batch [c; cmd_filterItems snapshot]]) /\
       snapshot = set_FilterInput t' m /\
       FilterInput m1 = t' /\
       filterState m1 = Filtering /\
       filteredItems m1 = filteredItems m /\
       (exists b, KeyMap.AcceptWhileFiltering (keyMap m1) =
                  key_SetEnabled b (negb (String.eqb (textinput_Value t') EmptyString))) /\
       (textinput_Value t' = EmptyString ->
          filterItems_run snapshot = Ok (FilterMatchesMsg (itemsAsFilterItems m))) /\
       (textinput_Value t' <> EmptyString ->
        no_nil_item (items m) = true ->
        ranks_in_range (items m) (ranks_for m (textinput_Value t')) = true ->
          filterItems_run snapshot =
          Ok (FilterMatchesMsg
                (mk_slice (map (rank_match (items m)) (ranks_for m (textinput_Value t')))))) /\
       (forall fi,
          exists m2,
            Update m1 (FilterMatchesMsg fi) = Ok (m2, cmd_nil) /\
            filterState m2 = Filtering /\
            filteredItems m2 = fi /\
            elems (AvailableItems m2) = map item (elems fi))).
Proof.
  intros Hs Hq Hc Ha Hu.
  assert (Hrun : Update m (KeyMsg k) =
                 Ok (fst (handleFiltering m (KeyMsg k)),
                     tea_Batch [snd (handleFiltering m (KeyMsg k))])).
  { cbn [Update]. rewrite Hq. now rewrite Update_handlers_filtering by exact Hs. }
  rewrite Hrun. rewrite (handleFiltering_plain m (KeyMsg k)) by (now split).
  rewrite Hu. split.
  - intros ->. now rewrite String.eqb_refl.
  - intros Hne.
    destruct (String.eqb_spec (textinput_Value (FilterInput m)) (textinput_Value t'));
      [congruence|]. cbn [negb fst snd].
    eexists _, _. split; [reflexivity|]. split; [reflexivity|].
    split; [reflexivity|]. split; [exact Hs|]. split; [reflexivity|].
    split; [eexists; reflexivity|].
    split; [|split].
    + intros He. rewrite filterItems_run_all by (left; exact He). reflexivity.
    + intros Hv Hnil Hrange.
      rewrite filterItems_run_query; cbn [FilterInput set_FilterInput filterState];
        [|exact Hv|congruence].
      change (items (set_FilterInput t' m)) with (items m).
      change (ranks_for (set_FilterInput t' m) (textinput_Value t'))
        with (ranks_for m (textinput_Value t')).
      now rewrite Hnil, Hrange.
    + intros fi. eexists. split; [reflexivity|].
      split; [exact Hs|]. split; [reflexivity|].
      unfold AvailableItems. cbn. rewrite Hs. reflexivity.
Qed.

(* ------------------------------------------------------------------ *)
(** ** Starting to filter *)

Section BrowsingFacts.
Context {E : Externals} {C : Collaborators}.
Implicit Types (m : Model).

Lemma Select_zero m :
  len (AvailableItems m) <= GoInt.max_int ->
  Select m 0 = set_index (if len (AvailableItems m) =? 0 then -1 else 0) m.
Proof.
  intros Hmax. pose proof (len_nonneg (AvailableItems m)).
  rewrite Select_set_index, Select_index by assumption.
  destruct (Z.eqb_spec (len (AvailableItems m)) 0); [reflexivity|].
  cbn [Z.ltb Z.compare].
  destruct (Z.gtb_spec 0 (len (AvailableItems m) - 1)); [lia | reflexivity].
Qed.

Lemma reaches_Filter_case_spec (km : KeyMap.t) k :
  reaches_Filter_case km k = true ->
  key_Matches k (KeyMap.ClearFilter km) = false /\
  key_Matches k (KeyMap.Quit km) = false /\
  key_Matches k (KeyMap.CursorUp km) = false /\
  key_Matches k (KeyMap.CursorDown km) = false /\
  key_Matches k (KeyMap.GoToStart km) = false /\
  key_Matches k (KeyMap.GoToEnd km) = false /\
  key_Matches k (KeyMap.Filter km) = true.
Proof.
  unfold reaches_Filter_case. intros H.
  repeat (apply andb_prop in H; destruct H as [H ?]).
  repeat match goal with H : negb _ = true |- _ => apply negb_true_iff in H end.
  auto 10.
Qed.

End BrowsingFacts.

(** X18.  The filter key while browsing (a key that matches [Filter]
    and none of the bindings tried before it): [handleBrowsing] returns
    the blink command without calling the delegate, the state becomes
    [Filtering], the status message is cleared, and the text input gets
    its cursor moved to the end and the focus.  With an empty query the
    filtered sequence is filled with every item, so the elements of the
    master sequence are what is available, and the first of them is
    selected (the index is -1 when there is none).  With a query left
    in the input the filtered sequence is kept and the selection goes
    to the first item that was available. *)
Theorem handleBrowsing_starts_filtering {E : Externals} {C : Collaborators}
    (m : Model) (k : tea_KeyMsg) :
  reaches_Filter_case (keyMap m) k = true ->
  len (items m) <= GoInt.max_int ->
  len (filteredItems m) <= GoInt.max_int ->
  exists m',
    handleBrowsing m (KeyMsg k) = (m', textinput_Blink) /\
    filterState m' = Filtering /\
    items m' = items m /\
    statusMessage m' = EmptyString /\
    FilterInput m' = textinput_Focus (textinput_CursorEnd (FilterInput m)) /\
    (textinput_Value (FilterInput m) = EmptyString ->
       filteredItems m' = itemsAsFilterItems m /\
       elems (AvailableItems m') = elems (items m) /\
       index m' = (if len (items m) =? 0 then -1 else 0)) /\
    (textinput_Value (FilterInput m) <> EmptyString ->
       filteredItems m' = filteredItems m /\
       index m' = (if len (AvailableItems m) =? 0 then -1 else 0)).
Proof.
  intros Hk Hmax Hfmax.
  destruct (reaches_Filter_case_spec _ _ Hk) as (K1 & K2 & K3 & K4 & K5 & K6 & K7).
  unfold handleBrowsing. rewrite K1, K2, K3, K4, K5, K6, K7.
  eexists. split; [reflexivity|].
  destruct (hideStatusMessage_frame m) as (Hi & Hx & Hf & Hfi & Hin & _).
  assert (Hmsg : statusMessage (hideStatusMessage m) = EmptyString).
  { unfold hideStatusMessage. cbn. now destruct (statusMessageTimer m). }
  set (m0 := hideStatusMessage m) in *.
  assert (Hav0 : AvailableItems m0 = AvailableItems m).
  { unfold AvailableItems. now rewrite Hf, Hfi, Hi. }
  assert (Hitems0 : itemsAsFilterItems m0 = itemsAsFilterItems m).
  { unfold itemsAsFilterItems. now rewrite Hi. }
  unfold ResetSelected. rewrite Hin.
  destruct (String.eqb_spec (textinput_Value (FilterInput m)) EmptyString) as [He|Hne].
  - set (m1 := set_filteredItems (itemsAsFilterItems m0) m0).
    assert (Hlen1 : len (AvailableItems m1) = len (items m)).
    { unfold AvailableItems, m1. cbn [filterState filteredItems items set_filteredItems].
      destruct (negb _).
      - rewrite len_filteredItems_items, Hitems0. unfold itemsAsFilterItems, len. cbn.
        now rewrite length_map.
      - now rewrite Hi. }
    rewrite Select_zero by (rewrite Hlen1; exact Hmax). rewrite Hlen1.
    unfold updateKeybindings.
    cbn [filterState set_FilterInput set_filterState set_index set_keyMap items
         statusMessage FilterInput filteredItems index].
    unfold m1. cbn [items statusMessage FilterInput filteredItems index set_filteredItems].
    rewrite Hi, Hmsg, Hin, Hitems0.
    repeat split; try congruence.
    unfold AvailableItems. cbn. apply itemsAsFilterItems_items.
  - assert (Hlen0 : len (AvailableItems m0) <= GoInt.max_int).
    { rewrite Hav0. unfold AvailableItems. destruct (negb _);
        [now rewrite len_filteredItems_items | assumption]. }
    rewrite Select_zero by exact Hlen0. rewrite Hav0.
    unfold updateKeybindings.
    cbn [filterState set_FilterInput set_filterState set_index set_keyMap items
         statusMessage FilterInput filteredItems index].
    rewrite Hi, Hmsg, Hin, Hfi.
    repeat split; try congruence.
Qed.

(* ------------------------------------------------------------------ *)
(** ** The update loop and the items *)

Section UpdateKeepsItems.
Context {E : Externals} {C : Collaborators}.
Implicit Types (m : Model).

Lemma Select_frame m i :
  items (Select m i) = items m /\
  delegate (Select m i) = delegate m /\
  filterState (Select m i) = filterState m.
Proof. rewrite Select_set_index. repeat split. Qed.

Lemma MoveItemUp_perm m i :
  items m = nil_slice \/ 0 < len (items m) <= GoInt.max_int ->
  exists m',
    MoveItemUp m i = Ok m' /\
    Permutation (elems (items m)) (elems (items m')) /\
    delegate m' = delegate m.
Proof.
  intros H. destruct (filterState m) eqn:Hs.
  2,3: exists m; unfold MoveItemUp; rewrite Hs; repeat split; reflexivity.
  destruct H as [Hnil|Hpos].
  - unfold MoveItemUp. rewrite Hs, Hnil. cbn [FilterState_eqb bind swapItemsInSlice is_nil].
    eexists. split; [reflexivity|].
    unfold CursorUp. destruct (Select_frame (set_items nil_slice m)
                                 (GoInt.sub (index (set_items nil_slice m)) 1)) as (-> & -> & _).
    split; reflexivity.
  - rewrite MoveItemUp_run by assumption. eexists. split; [reflexivity|].
    unfold CursorUp.
    match goal with |- context [Select ?x ?j] =>
      destruct (Select_frame x j) as (-> & -> & _) end.
    split; [|reflexivity]. cbn [items set_items elems].
    apply Permutation_exchanged; apply swap_position_bound; lia.
Qed.

Lemma MoveItemDown_perm m i :
  items m = nil_slice \/ 0 < len (items m) <= GoInt.max_int ->
  exists m',
    MoveItemDown m i = Ok m' /\
    Permutation (elems (items m)) (elems (items m')) /\
    delegate m' = delegate m.
Proof.
  intros H. destruct (filterState m) eqn:Hs.
  2,3: exists m; unfold MoveItemDown; rewrite Hs; repeat split; reflexivity.
  destruct H as [Hnil|Hpos].
  - unfold MoveItemDown. rewrite Hs, Hnil. cbn [FilterState_eqb bind swapItemsInSlice is_nil].
    eexists. split; [reflexivity|].
    unfold CursorDown. destruct (Select_frame (set_items nil_slice m)
                                   (GoInt.add (index (set_items nil_slice m)) 1)) as (-> & -> & _).
    split; reflexivity.
  - rewrite MoveItemDown_run by assumption. eexists. split; [reflexivity|].
    unfold CursorDown.
    match goal with |- context [Select ?x ?j] =>
      destruct (Select_frame x j) as (-> & -> & _) end.
    split; [|reflexivity]. cbn [items set_items elems].
    apply Permutation_exchanged; apply swap_position_bound; lia.
Qed.

Lemma handleMoving_perm m msg :
  delegate_idle (delegate m) msg ->
  items m = nil_slice \/ 0 < len (items m) <= GoInt.max_int ->
  exists m' cmd,
    handleMoving m msg = Ok (m', cmd) /\
    Permutation (elems (items m)) (elems (items m')) /\
    delegate m' = delegate m.
Proof.
  intros Hidle H. unfold handleMoving.
  assert (Hstep : exists m1,
            match msg with
            | KeyMsg k =>
              if key_Matches k (KeyMap.MoveUp (keyMap m)) then MoveItemUp m (Index m)
              else if key_Matches k (KeyMap.MoveDown (keyMap m)) then MoveItemDown m (Index m)
              else Ok m
            | _ => Ok m
            end = Ok m1 /\
            Permutation (elems (items m)) (elems (items m1)) /\ delegate m1 = delegate m).
  { destruct msg as [k| | | |]; try (exists m; repeat split; reflexivity).
    destruct (key_Matches k (KeyMap.MoveUp (keyMap m))); [now apply MoveItemUp_perm|].
    destruct (key_Matches k (KeyMap.MoveDown (keyMap m))); [now apply MoveItemDown_perm|].
    exists m; repeat split; reflexivity. }
  destruct Hstep as (m1 & -> & Hp & Hd). cbn [bind].
  rewrite Hd, Hidle. eexists _, _. split; [reflexivity|]. split; assumption.
Qed.

Lemma handleBrowsing_items m msg :
  delegate_idle (delegate m) msg ->
  items (fst (handleBrowsing m msg)) = items m /\
  delegate (fst (handleBrowsing m msg)) = delegate m.
Proof.
  intros Hidle. unfold handleBrowsing.
  assert (Hcont : forall m1, items m1 = items m -> delegate m1 = delegate m ->
            items (fst (let '(m2, cmd) := delegate_Update (delegate m1) msg m1 in
                        (m2, tea_Batch [cmd]))) = items m /\
            delegate (fst (let '(m2, cmd) := delegate_Update (delegate m1) msg m1 in
                           (m2, tea_Batch [cmd]))) = delegate m).
  { intros m1 Hi Hd. rewrite Hd, Hidle. split; assumption. }
  destruct msg as [k| | | |]; try (apply Hcont; reflexivity).
  destruct (key_Matches k (KeyMap.ClearFilter (keyMap m))).
  { destruct (same_store_resetFiltering m) as (? & _ & _ & _ & ?). now apply Hcont. }
  destruct (key_Matches k (KeyMap.Quit (keyMap m))); [split; reflexivity|].
  destruct (key_Matches k (KeyMap.CursorUp (keyMap m))).
  { unfold CursorUp. apply Hcont; apply Select_frame. }
  destruct (key_Matches k (KeyMap.CursorDown (keyMap m))).
  { unfold CursorDown. apply Hcont; apply Select_frame. }
  destruct (key_Matches k (KeyMap.GoToStart (keyMap m))).
  { unfold ResetSelected. apply Hcont; apply Select_frame. }
  destruct (key_Matches k (KeyMap.GoToEnd (keyMap m))).
  { apply Hcont; apply Select_frame. }
  destruct (key_Matches k (KeyMap.Filter (keyMap m))).
  { cbn [fst].
    match goal with |- context [updateKeybindings ?x] =>
      destruct (same_store_updateKeybindings x) as (-> & _ & _ & _ & ->) end.
    cbn [items delegate set_FilterInput set_filterState].
    unfold ResetSelected.
    match goal with |- context [Select ?x ?j] =>
      destruct (Select_frame x j) as (-> & -> & _) end.
    destruct (same_store_hideStatusMessage m) as (Hi & _ & _ & _ & Hd).
    destruct (String.eqb _ _); cbn [items delegate set_filteredItems]; split; assumption. }
  destruct (_ || _); apply Hcont; reflexivity.
Qed.

Lemma Update_handlers_perm m cmds msg :
  delegate_idle (delegate m) msg ->
  items m = nil_slice \/ 0 < len (items m) <= GoInt.max_int ->
  exists m' cmd,
    Update_handlers m cmds msg = Ok (m', cmd) /\
    Permutation (elems (items m)) (elems (items m')) /\
    delegate m' = delegate m.
Proof.
  intros Hidle H. unfold Update_handlers.
  destruct (FilterState_eqb (filterState m) Filtering).
  - destruct (same_store_handleFiltering m msg) as (Hi & _ & _ & _ & Hd).
    destruct (handleFiltering m msg) as [m1 c1]. cbn [fst] in *.
    eexists _, _. split; [reflexivity|]. rewrite Hi. split; [reflexivity | exact Hd].
  - destruct (handleBrowsing_items m msg Hidle) as (Hi & Hd).
    destruct (handleBrowsing m msg) as [m1 c1]. cbn [fst] in *.
    destruct (handleMoving_perm m1 msg) as (m2 & c2 & -> & Hp & Hd2).
    + now rewrite Hd.
    + now rewrite Hi.
    + cbn [bind]. eexists _, _. split; [reflexivity|].
      rewrite <- Hi. split; [exact Hp | congruence].
Qed.

End UpdateKeepsItems.

(** X21.  With a delegate that leaves the model alone, [Update] on a
    model whose master sequence is nil or non-empty returns, and the
    master sequence of the result is a permutation of the one before:
    no message adds, drops or duplicates an item. *)
Theorem Update_keeps_the_items {E : Externals} {C : Collaborators}
    (m : Model) (msg : Msg) :
  delegate_idle (delegate m) msg ->
  items m = nil_slice \/ 0 < len (items m) <= GoInt.max_int ->
  exists m' cmd,
    Update m msg = Ok (m', cmd) /\
    Permutation (elems (items m)) (elems (items m')) /\
    len (items m') = len (items m).
Proof.
  intros Hidle H.
  assert (Hgoal : exists m' cmd,
            Update m msg = Ok (m', cmd) /\
            Permutation (elems (items m)) (elems (items m'))).
  { destruct msg as [k|fi|t| |o]; cbn [Update].
    - destruct (key_Matches k (KeyMap.ForceQuit (keyMap m))).
      + eexists _, _. split; reflexivity.
      + destruct (Update_handlers_perm m [] (KeyMsg k) Hidle H) as (m' & c & -> & Hp & _).
        eexists _, _. split; [reflexivity | exact Hp].
    - eexists _, _. split; reflexivity.
    - destruct (spinner_Update (spinner m) t) as [sp c0].
      destruct (Update_handlers_perm (set_spinner sp m)
                  (if showSpinner (set_spinner sp m) then [c0] else []) (TickMsg t) Hidle H)
        as (m' & c & -> & Hp & _).
      eexists _, _. split; [reflexivity | exact Hp].
    - destruct (same_store_hideStatusMessage m) as (Hi & _ & _ & _ & Hd).
      destruct (Update_handlers_perm (hideStatusMessage m) [] statusMessageTimeoutMsg)
        as (m' & c & -> & Hp & _).
      + now rewrite Hd.
      + now rewrite Hi.
      + eexists _, _. split; [reflexivity|]. now rewrite <- Hi.
    - destruct (Update_handlers_perm m [] (OtherMsg o) Hidle H) as (m' & c & -> & Hp & _).
      eexists _, _. split; [reflexivity | exact Hp]. }
  destruct Hgoal as (m' & cmd & Hrun & Hp). exists m', cmd.
  split; [exact Hrun|]. split; [exact Hp|].
  unfold len. now rewrite (Permutation_length Hp).
Qed.

(* ------------------------------------------------------------------ *)
(** ** Escape: clearing before quitting *)

Section EscapeKey.
Context {E : Externals} {C : Collaborators}.
Implicit Types (m : Model).

(** [handleMoving] on a key bound to neither move, with a delegate that
    leaves the model alone. *)
Lemma handleMoving_other_key m k :
  delegate_idle (delegate m) (KeyMsg k) ->
  key_Matches k (KeyMap.MoveUp (keyMap m)) = false ->
  key_Matches k (KeyMap.MoveDown (keyMap m)) = false ->
  handleMoving m (KeyMsg k) = Ok (m, tea_Batch [cmd_nil]).
Proof.
  intros Hidle Hu Hd. unfold handleMoving. rewrite Hu, Hd. cbn [bind].
  now rewrite Hidle.
Qed.

End EscapeKey.

(** X29.  Clearing comes before quitting.  While browsing, a key that
    matches [ClearFilter] resets an applied filter and does not quit,
    also when it matches [Quit] as well (both are bound to escape by
    default): the state becomes [Unfiltered], the filtered sequence
    nil, the query empty, the master sequence is what is available and
    the selected index stays.  A key that matches [Quit] and not
    [ClearFilter] leaves the model as it is and returns the quit
    command.  In both cases the key is bound to neither move and the
    delegate leaves the model alone. *)
Theorem clear_filter_comes_before_quit {E : Externals} {C : Collaborators}
    (m : Model) (k : tea_KeyMsg) :
  filterState m <> Filtering ->
  key_Matches k (KeyMap.ForceQuit (keyMap m)) = false ->
  delegate_idle (delegate m) (KeyMsg k) ->
  (key_Matches k (KeyMap.ClearFilter (keyMap m)) = true ->
   key_Matches k (KeyMap.MoveUp (keyMap (resetFiltering m))) = false ->
   key_Matches k (KeyMap.MoveDown (keyMap (resetFiltering m))) = false ->
     Update m (KeyMsg k)
       = Ok (resetFiltering m, tea_Batch [tea_Batch [cmd_nil]; tea_Batch [cmd_nil]]) /\
     index (resetFiltering m) = index m /\
     AvailableItems (resetFiltering m) = items m /\
     (filterState m = FilterApplied ->
        filterState (resetFiltering m) = Unfiltered /\
        filteredItems (resetFiltering m) = nil_slice /\
        textinput_Value (FilterInput (resetFiltering m)) = EmptyString)) /\
  (key_Matches k (KeyMap.ClearFilter (keyMap m)) = false ->
   key_Matches k (KeyMap.Quit (keyMap m)) = true ->
   key_Matches k (KeyMap.MoveUp (keyMap m)) = false ->
   key_Matches k (KeyMap.MoveDown (keyMap m)) = false ->
     Update m (KeyMsg k) = Ok (m, tea_Batch [tea_Quit; tea_Batch [cmd_nil]])).
Proof.
  intros Hs Hq Hidle.
  assert (Hnf : FilterState_eqb (filterState m) Filtering = false)
    by (destruct (filterState m); [reflexivity | congruence | reflexivity]).
  split.
  - intros Hc Hu Hd.
    destruct (same_store_resetFiltering m) as (Hi & Hx & _ & _ & Hdel).
    assert (Hidle' : delegate_idle (delegate (resetFiltering m)) (KeyMsg k))
      by now rewrite Hdel.
    split; [|split; [exact Hx|split]].
    + cbn [Update]. rewrite Hq. unfold Update_handlers. rewrite Hnf.
      unfold handleBrowsing. rewrite Hc. rewrite Hidle'.
      rewrite handleMoving_other_key by assumption. reflexivity.
    + unfold AvailableItems, resetFiltering.
      destruct (filterState m) eqn:Hf; [cbn; now rewrite Hf | congruence |].
      cbn [FilterState_eqb].
      match goal with |- context [updateKeybindings ?x] =>
        destruct (updateKeybindings_frame x) as (-> & _ & -> & _) end.
      reflexivity.
    + intros Hf.
      destruct (resetFiltering_active m) as (R1 & R2 & R3 & _); [congruence|].
      rewrite R1, R2, R3, textinput_Reset_Value. auto.
  - intros Hc Hquit Hu Hd.
    cbn [Update]. rewrite Hq. unfold Update_handlers. rewrite Hnf.
    unfold handleBrowsing. rewrite Hc, Hquit.
    rewrite handleMoving_other_key by assumption. reflexivity.
Qed.

(* ------------------------------------------------------------------ *)
(** ** Viewport: failure and settling *)

Section ViewportMore.
Context {E : Externals} {C : Collaborators}.
Implicit Types (m : Model).

Lemma set_bounds_same m :
  set_lastItemIndexInView (lastItemIndexInView m)
    (set_firstItemIndexInView (firstItemIndexInView m) m) = m.
Proof. now destruct m. Qed.


Lemma viewport_capacity_run m :
  viewport_capacity m =
  (q <- go_quot
          (let availHeight := height m in
           let availHeight :=
             if showTitle m || (showFilter m && filteringEnabled m)
             then GoInt.sub availHeight (titleView_Height m) else availHeight in
           let availHeight :=
             if showStatusBar m then GoInt.sub availHeight (statusView_Height m)
             else availHeight in
           if showHelp m then GoInt.sub availHeight (helpView_Height m) else availHeight)
          (GoInt.add (Height (delegate m)) (Spacing (delegate m))) ;;
   Ok (max 1 q)).
Proof. reflexivity. Qed.

(** The division is the only step of [updateViewportBounds] that can
    fail. *)
Lemma updateViewportBounds_run m :
  0 <= index m ->
  updateViewportBounds m =
  (c <- viewport_capacity m ;;
   Ok (let n := len (AvailableItems m) in
       let f := firstItemIndexInView m in
       let currentLast := GoInt.sub (min n (GoInt.add f c)) 1 in
       if (f <=? index m) && (index m <=? currentLast)
       then set_lastItemIndexInView currentLast m
       else if currentLast <? index m
       then set_lastItemIndexInView (index m)
              (set_firstItemIndexInView
                 (max 0 (GoInt.add (GoInt.sub (index m) c) 1)) m)
       else if f >? index m
       then set_lastItemIndexInView (GoInt.sub (GoInt.add (index m) (min n c)) 1)
              (set_firstItemIndexInView (index m) m)
       else m)).
Proof.
  intros Hi. destruct (viewport_capacity m) as [c|p] eqn:Hc.
  - now rewrite (updateViewportBounds_cases m c).
  - unfold updateViewportBounds, viewport_capacity, Index in *.
    destruct (Z.ltb_spec (index m) 0); [lia|].
    destruct (go_quot _ _); cbn in Hc |- *; [discriminate | congruence].
Qed.

End ViewportMore.


(** X23.  From any window start that is not negative, two
    reconciliations reach a window that is right and stable: it holds
    the selection, starts at 0 or later, ends inside the available
    sequence, spans at most the capacity, and a further reconciliation
    returns the same model.  The capacity is taken not to depend on the
    bounds: the title, status and help views do not read them. *)
Theorem updateViewportBounds_settles {E : Externals} {C : Collaborators}
    (m : Model) (c : Z) :
  (forall f l,
     viewport_capacity (set_lastItemIndexInView l (set_firstItemIndexInView f m)) = Ok c) ->
  0 <= index m < len (AvailableItems m) ->
  len (AvailableItems m) <= GoInt.max_int ->
  0 <= firstItemIndexInView m ->
  firstItemIndexInView m + c <= GoInt.max_int ->
  exists m1 m2,
    updateViewportBounds m = Ok m1 /\
    updateViewportBounds m1 = Ok m2 /\
    updateViewportBounds m2 = Ok m2 /\
    firstItemIndexInView m2 = firstItemIndexInView m1 /\
    firstItemIndexInView m2 <= index m <= lastItemIndexInView m2 /\
    lastItemIndexInView m2 - firstItemIndexInView m2 + 1 <= c /\
    0 <= firstItemIndexInView m2 /\
    lastItemIndexInView m2 < len (AvailableItems m).
Proof.
  intros Hcap Hi Hmax Hf Hfc.
  assert (Hc : viewport_capacity m = Ok c).
  { rewrite <- (set_bounds_same m). apply Hcap. }
  pose proof (viewport_capacity_pos m c Hc) as Hpos.
  assert (R : forall z, GoInt.min_int <= z <= GoInt.max_int -> GoInt.wrap z = z)
    by (intros; now apply GoInt.wrap_id).
  set (n := len (AvailableItems m)) in *. set (i := index m) in *.
  (* One reconciliation from a window start [f0] in range. *)
  assert (Hstep : forall f0 l0,
            0 <= f0 -> f0 + c <= GoInt.max_int ->
            f0 <= i ->
            updateViewportBounds (set_lastItemIndexInView l0 (set_firstItemIndexInView f0 m))
            = Ok (if i <=? Z.min n (f0 + c) - 1
                  then set_lastItemIndexInView (Z.min n (f0 + c) - 1)
                         (set_firstItemIndexInView f0 m)
                  else set_lastItemIndexInView i
                         (set_firstItemIndexInView (Z.max 0 (i - c + 1)) m))).
  { intros f0 l0 Hf0 Hf0c Hle.
    rewrite (updateViewportBounds_cases _ c) by (apply Hcap || (cbn; lia)).
    cbv zeta. cbn [index firstItemIndexInView set_lastItemIndexInView set_firstItemIndexInView].
    change (AvailableItems (set_lastItemIndexInView l0 (set_firstItemIndexInView f0 m)))
      with (AvailableItems m). fold n. fold i.
    unfold GoInt.add, GoInt.sub. unfold GoInt.min_int, GoInt.max_int in *.
    rewrite !min_spec, !max_spec.
    rewrite (R (f0 + c)) by lia. rewrite (R (Z.min n (f0 + c) - 1)) by lia.
    rewrite (R (i - c)) by lia. rewrite (R (i - c + 1)) by lia.
    destruct (Z.leb_spec f0 i); [|lia]. cbn [andb].
    destruct (Z.leb_spec i (Z.min n (f0 + c) - 1)).
    - reflexivity.
    - destruct (Z.ltb_spec (Z.min n (f0 + c) - 1) i); [|lia]. reflexivity. }
  destruct (Z.le_gt_cases (firstItemIndexInView m) i) as [Hle|Hgt].
  - (* the window starts at or above the selection *)
    pose proof (Hstep (firstItemIndexInView m) (lastItemIndexInView m) Hf Hfc Hle) as H1.
    rewrite set_bounds_same in H1. rewrite H1.
    destruct (Z.leb_spec i (Z.min n (firstItemIndexInView m + c) - 1)) as [Hin|Hout].
    + pose proof (Hstep (firstItemIndexInView m)
                    (Z.min n (firstItemIndexInView m + c) - 1) Hf Hfc Hle) as H2.
      destruct (Z.leb_spec i (Z.min n (firstItemIndexInView m + c) - 1)); [|lia].
      eexists _, _. split; [reflexivity|]. split; [exact H2|]. split; [exact H2|].
      cbn. repeat split; unfold GoInt.max_int in *; lia.
    + assert (Hf1 : 0 <= Z.max 0 (i - c + 1)) by lia.
      assert (Hf1c : Z.max 0 (i - c + 1) + c <= GoInt.max_int)
        by (unfold GoInt.max_int in *; lia).
      assert (Hle1 : Z.max 0 (i - c + 1) <= i) by lia.
      pose proof (Hstep (Z.max 0 (i - c + 1)) i Hf1 Hf1c Hle1) as H2.
      destruct (Z.leb_spec i (Z.min n (Z.max 0 (i - c + 1) + c) - 1)); [|lia].
      assert (Heq : Z.min n (Z.max 0 (i - c + 1) + c) - 1 = i) by lia.
      rewrite Heq in H2.
      eexists _, _. split; [reflexivity|]. split; [exact H2|]. split; [exact H2|].
      cbn. repeat split; unfold GoInt.max_int in *; lia.
  - (* the window starts below the selection: the first pass starts it at
       the selection, the second one cuts it at the end of the sequence *)
    destruct (updateViewportBounds_scroll_up m c Hc ltac:(lia) Hmax ltac:(lia) Hfc)
      as (m1 & H1 & Hf1 & Hl1).
    assert (Hm1 : m1 = set_lastItemIndexInView (i + Z.min n c - 1)
                         (set_firstItemIndexInView i m)).
    { rewrite (updateViewportBounds_cases m c) in H1 by (assumption || lia).
      cbv zeta in H1. fold n in H1. fold i in H1.
      unfold GoInt.add, GoInt.sub in H1. unfold GoInt.min_int, GoInt.max_int in *.
      rewrite !min_spec, !max_spec in H1.
      rewrite (R (firstItemIndexInView m + c)) in H1 by lia.
      rewrite (R (Z.min n (firstItemIndexInView m + c) - 1)) in H1 by lia.
      rewrite (R (i + Z.min n c)) in H1 by lia.
      rewrite (R (i + Z.min n c - 1)) in H1 by lia.
      destruct (Z.leb_spec (firstItemIndexInView m) i); [lia|]. cbn [andb] in H1.
      destruct (Z.ltb_spec (Z.min n (firstItemIndexInView m + c) - 1) i); [lia|].
      destruct (Z.gtb_spec (firstItemIndexInView m) i); [|lia].
      now injection H1 as <-. }
    assert (Hic : i + c <= GoInt.max_int) by lia.
    pose proof (Hstep i (i + Z.min n c - 1) ltac:(lia) Hic ltac:(lia)) as H2.
    rewrite <- Hm1 in H2.
    destruct (Z.leb_spec i (Z.min n (i + c) - 1)); [|lia].
    pose proof (Hstep i (Z.min n (i + c) - 1) ltac:(lia) Hic ltac:(lia)) as H3.
    destruct (Z.leb_spec i (Z.min n (i + c) - 1)); [|lia].
    eexists _, _. split; [exact H1|]. split; [exact H2|]. split; [exact H3|].
    rewrite Hf1. cbn. repeat split; unfold GoInt.max_int in *; lia.
Qed.

(* ------------------------------------------------------------------ *)
(** ** Construction, switches and quit keys *)

(** X24.  [New] returns a model in state [Unfiltered] over the given
    items, delegate and size, with every part of the view shown,
    filtering enabled, both viewport bounds 0 and the first item
    selected: the index is 0, or -1 for an empty or nil sequence, and
    [SelectedItem] returns the first item, or nil. *)
Theorem New_spec {E : Externals} {C : Collaborators}
    (its : slice Item) (d : ItemDelegate) (w h : Z) :
  let m := New its d w h in
  items m = its /\
  filterState m = Unfiltered /\
  filteredItems m = nil_slice /\
  AvailableItems m = its /\
  index m = (if len its =? 0 then -1 else 0) /\
  SelectedItem m = Ok (nth 0 (elems its) nil_item) /\
  firstItemIndexInView m = 0 /\
  lastItemIndexInView m = 0 /\
  width m = w /\ height m = h /\ delegate m = d /\
  filteringEnabled m = true /\
  showTitle m = true /\ showFilter m = true /\ showStatusBar m = true /\ showHelp m = true.
Proof.
  cbv zeta. unfold New.
  match goal with |- context [updateKeybindings ?x] => set (m0 := x) end.
  destruct (updateKeybindings_frame m0) as (K1 & K2 & K3 & K4 & K5 & K6 & K7).
  assert (Hidx : index m0 = if len its =? 0 then -1 else 0).
  { cbn. pose proof (len_nonneg its).
    destruct (Z.gtb_spec (len its) 0); destruct (Z.eqb_spec (len its) 0); lia || reflexivity. }
  assert (Hav : AvailableItems (updateKeybindings m0) = its).
  { unfold AvailableItems. now rewrite K3, K1. }
  rewrite K1, K2, K3, K4, K6, K7, Hav, Hidx.
  repeat split; try reflexivity.
  unfold SelectedItem, Index. rewrite Hav, K2, Hidx.
  pose proof (len_nonneg its).
  destruct (Z.eqb_spec (len its) 0) as [Hz|Hnz].
  - cbn [Z.ltb Z.compare orb]. destruct its as [|[|x l]]; cbn in Hz |- *; reflexivity || lia.
  - cbn [Z.ltb Z.compare orb]. destruct (Z.leb_spec (len its) 0); [lia|].
    now rewrite (slice_get_nth _ _ nil_item) by lia.
Qed.

(** X25.  [SetFilteringEnabled(false)] leaves the list unfiltered: the
    state is [Unfiltered], the master sequence is what is available,
    the [Filter] binding is disabled, and a filter that was set is
    cleared (filtered sequence nil, query reset).
    [SetFilteringEnabled(true)] changes neither the filter state, the
    query nor the sequences; away from [Filtering] it enables the
    [Filter] binding exactly when there are items. *)
Theorem SetFilteringEnabled_spec {E : Externals} (m : Model) :
  (let m' := SetFilteringEnabled m false in
   filteringEnabled m' = false /\
   filterState m' = Unfiltered /\
   AvailableItems m' = items m /\
   items m' = items m /\
   index m' = index m /\
   (filterState m <> Unfiltered ->
      filteredItems m' = nil_slice /\
      FilterInput m' = textinput_Reset (FilterInput m)) /\
   (exists b, KeyMap.Filter (keyMap m') = key_SetEnabled b false)) /\
  (let m' := SetFilteringEnabled m true in
   filteringEnabled m' = true /\
   filterState m' = filterState m /\
   filteredItems m' = filteredItems m /\
   FilterInput m' = FilterInput m /\
   items m' = items m /\
   index m' = index m /\
   (filterState m <> Filtering ->
      exists b, KeyMap.Filter (keyMap m') =
                key_SetEnabled b (negb (len (items m) =? 0)))).
Proof.
  cbv zeta. unfold SetFilteringEnabled. cbn [negb]. split.
  - set (m0 := set_filteringEnabled false m).
    assert (Hst : filterState (resetFiltering m0) = Unfiltered).
    { destruct (filterState m) eqn:Hs.
      - unfold resetFiltering. cbn. rewrite Hs. cbn. exact Hs.
      - apply resetFiltering_active. cbn. congruence.
      - apply resetFiltering_active. cbn. congruence. }
    destruct (resetFiltering_frame m0) as (R1 & R2 & _).
    assert (Hfe : filteringEnabled (resetFiltering m0) = false).
    { unfold resetFiltering. destruct (FilterState_eqb _ _); [reflexivity|].
      unfold updateKeybindings. cbn. reflexivity. }
    destruct (updateKeybindings_frame (resetFiltering m0)) as (K1 & K2 & K3 & K4 & K5 & _).
    assert (Hfe' : filteringEnabled (updateKeybindings (resetFiltering m0)) = false).
    { unfold updateKeybindings. destruct (filterState (resetFiltering m0)); exact Hfe. }
    rewrite Hfe', K1, K2, K3, K4, K5, Hst, R1, R2.
    split; [reflexivity|]. split; [reflexivity|].
    split; [unfold AvailableItems; now rewrite K3, Hst, K1, R1|].
    split; [reflexivity|]. split; [reflexivity|]. split.
    + intros Hs. destruct (resetFiltering_active m0) as (_ & Q2 & Q3 & _); [exact Hs|].
      now rewrite Q2, Q3.
    + unfold updateKeybindings. rewrite Hst. cbn [keyMap set_keyMap KeyMap.Filter
        KeyMap.set_CloseFullHelp KeyMap.set_ShowFullHelp].
      rewrite Hfe. cbn [andb]. eexists. reflexivity.
  - set (m0 := set_filteringEnabled true m).
    destruct (updateKeybindings_frame m0) as (K1 & K2 & K3 & K4 & K5 & _).
    rewrite K1, K2, K3, K4, K5.
    split; [unfold updateKeybindings; destruct (filterState m0); reflexivity|].
    repeat split.
    intros Hs. unfold updateKeybindings.
    change (filterState m0) with (filterState m).
    destruct (filterState m); [|congruence|]; cbn; eexists; reflexivity.
Qed.

Section QuitKeys.
Context {E : Externals} {C : Collaborators}.
Implicit Types (m : Model).

(** What matters of a model for [quit_keys_off]. *)
Lemma quit_keys_off_ext m m' :
  disableQuitKeybindings m' = disableQuitKeybindings m ->
  KeyMap.Quit (keyMap m') = KeyMap.Quit (keyMap m) ->
  KeyMap.ForceQuit (keyMap m') = KeyMap.ForceQuit (keyMap m) ->
  quit_keys_off m -> quit_keys_off m'.
Proof. unfold quit_keys_off. intros -> -> ->. auto. Qed.

Lemma quit_keys_off_updateKeybindings m :
  quit_keys_off m -> quit_keys_off (updateKeybindings m).
Proof.
  intros (Hflag & _ & Hf). unfold quit_keys_off, updateKeybindings.
  destruct (filterState m); cbn; rewrite ?Hflag; cbn;
    (split; [reflexivity || exact Hflag|]); (split; [eexists; reflexivity | exact Hf]).
Qed.

Lemma quit_keys_off_resetFiltering m :
  quit_keys_off m -> quit_keys_off (resetFiltering m).
Proof.
  intros H. unfold resetFiltering. destruct (FilterState_eqb _ _); [exact H|].
  apply quit_keys_off_updateKeybindings. revert H. now apply quit_keys_off_ext.
Qed.

Lemma quit_keys_off_hideStatusMessage m :
  quit_keys_off m -> quit_keys_off (hideStatusMessage m).
Proof.
  apply quit_keys_off_ext; unfold hideStatusMessage; cbn;
    destruct (statusMessageTimer m); reflexivity.
Qed.

Lemma quit_keys_off_Select m i : quit_keys_off m -> quit_keys_off (Select m i).
Proof. rewrite Select_set_index. now apply quit_keys_off_ext. Qed.

Lemma quit_keys_off_accept_filter m :
  quit_keys_off m -> quit_keys_off (accept_filter m).
Proof.
  intros H. unfold accept_filter.
  apply quit_keys_off_hideStatusMessage in H.
  set (m0 := hideStatusMessage m) in *.
  destruct (_ =? 0); [exact H|].
  destruct (_ =? 0); [now apply quit_keys_off_resetFiltering|].
  set (m1 := set_filterState FilterApplied _).
  assert (H1 : quit_keys_off (updateKeybindings m1)).
  { apply quit_keys_off_updateKeybindings. revert H. now apply quit_keys_off_ext. }
  destruct (String.eqb _ _); [now apply quit_keys_off_resetFiltering | exact H1].
Qed.

Lemma quit_keys_off_handleFiltering m msg :
  quit_keys_off m -> quit_keys_off (fst (handleFiltering m msg)).
Proof.
  intros H. destruct (handleFiltering_unfold m msg) as (m1 & _ & Hm1 & ->).
  assert (H1 : quit_keys_off m1).
  { destruct msg as [k| | | |]; try (now subst m1).
    destruct (key_Matches k (KeyMap.CancelWhileFiltering (keyMap m))).
    - subst m1. apply (quit_keys_off_ext (resetFiltering m)); try reflexivity.
      now apply quit_keys_off_resetFiltering.
    - destruct (key_Matches k (KeyMap.AcceptWhileFiltering (keyMap m))); subst m1;
        [now apply quit_keys_off_accept_filter | exact H]. }
  destruct (textinput_Update (FilterInput m1) msg) as [t c].
  destruct (negb _); cbn [fst]; revert H1; now apply quit_keys_off_ext.
Qed.

Lemma quit_keys_off_handleBrowsing m msg :
  delegate_idle (delegate m) msg ->
  quit_keys_off m -> quit_keys_off (fst (handleBrowsing m msg)).
Proof.
  intros Hidle H. unfold handleBrowsing.
  assert (Hcont : forall m1, delegate m1 = delegate m -> quit_keys_off m1 ->
            quit_keys_off (fst (let '(m2, cmd) := delegate_Update (delegate m1) msg m1 in
                                (m2, tea_Batch [cmd])))).
  { intros m1 Hd H1. now rewrite Hd, Hidle. }
  destruct msg as [k| | | |]; try (now apply Hcont).
  destruct (key_Matches k (KeyMap.ClearFilter (keyMap m))).
  { apply Hcont; [apply same_store_resetFiltering | now apply quit_keys_off_resetFiltering]. }
  destruct (key_Matches k (KeyMap.Quit (keyMap m))); [exact H|].
  destruct (key_Matches k (KeyMap.CursorUp (keyMap m))).
  { apply Hcont; [apply Select_frame | now apply quit_keys_off_Select]. }
  destruct (key_Matches k (KeyMap.CursorDown (keyMap m))).
  { apply Hcont; [apply Select_frame | now apply quit_keys_off_Select]. }
  destruct (key_Matches k (KeyMap.GoToStart (keyMap m))).
  { apply Hcont; [apply Select_frame | now apply quit_keys_off_Select]. }
  destruct (key_Matches k (KeyMap.GoToEnd (keyMap m))).
  { apply Hcont; [apply Select_frame | now apply quit_keys_off_Select]. }
  destruct (key_Matches k (KeyMap.Filter (keyMap m))).
  { cbn [fst]. apply quit_keys_off_updateKeybindings.
    apply quit_keys_off_hideStatusMessage in H.
    set (m0 := hideStatusMessage m) in *.
    match goal with |- quit_keys_off (set_FilterInput _ (set_FilterInput _
                         (set_filterState _ (ResetSelected ?x)))) =>
      apply (quit_keys_off_ext (Select x 0)); try reflexivity;
      apply quit_keys_off_Select end.
    destruct (String.eqb _ _); [revert H; now apply quit_keys_off_ext | exact H]. }
  destruct (_ || _); apply Hcont; try reflexivity; [|exact H].
  revert H. now apply quit_keys_off_ext.
Qed.

Lemma quit_keys_off_handleMoving m msg m' cmd :
  delegate_idle (delegate m) msg ->
  quit_keys_off m -> handleMoving m msg = Ok (m', cmd) -> quit_keys_off m'.
Proof.
  intros Hidle H. unfold handleMoving.
  assert (Hmove : forall r,
            (r = MoveItemUp m (Index m) \/ r = MoveItemDown m (Index m) \/ r = Ok m) ->
            forall m1, r = Ok m1 -> quit_keys_off m1 /\ delegate m1 = delegate m).
  { intros r Hr m1 Hm1. destruct Hr as [->|[->| ->]].
    - unfold MoveItemUp in Hm1. destruct (FilterState_eqb _ _).
      + destruct (swapItemsInSlice _ _ _) as [s|]; [|discriminate]. cbn [bind] in Hm1.
        injection Hm1 as <-. unfold CursorUp.
        split; [|now rewrite (proj1 (proj2 (Select_frame _ _)))].
        apply quit_keys_off_Select. revert H. now apply quit_keys_off_ext.
      + injection Hm1 as <-. now split.
    - unfold MoveItemDown in Hm1. destruct (FilterState_eqb _ _).
      + destruct (swapItemsInSlice _ _ _) as [s|]; [|discriminate]. cbn [bind] in Hm1.
        injection Hm1 as <-. unfold CursorDown.
        split; [|now rewrite (proj1 (proj2 (Select_frame _ _)))].
        apply quit_keys_off_Select. revert H. now apply quit_keys_off_ext.
      + injection Hm1 as <-. now split.
    - injection Hm1 as <-. now split. }
  assert (Hstep : forall m1,
            match msg with
            | KeyMsg k =>
              if key_Matches k (KeyMap.MoveUp (keyMap m)) then MoveItemUp m (Index m)
              else if key_Matches k (KeyMap.MoveDown (keyMap m)) then MoveItemDown m (Index m)
              else Ok m
            | _ => Ok m
            end = Ok m1 -> quit_keys_off m1 /\ delegate m1 = delegate m).
  { intros m1. destruct msg as [k| | | |]; try (intros [= <-]; now split).
    destruct (key_Matches k (KeyMap.MoveUp (keyMap m)));
      [apply (Hmove _ (or_introl eq_refl))|].
    destruct (key_Matches k (KeyMap.MoveDown (keyMap m)));
      [apply (Hmove _ (or_intror (or_introl eq_refl)))|].
    intros [= <-]. now split. }
  match goal with |- bind ?r _ = _ -> _ => destruct r as [m1|] eqn:Hr end;
    [|discriminate].
  cbn [bind]. destruct (Hstep m1 eq_refl) as (H1 & Hd).
  rewrite Hd, Hidle. now intros [= <- _].
Qed.

End QuitKeys.

(** X26.  [DisableQuitKeybindings] sets the flag and disables the
    [Quit] and [ForceQuit] bindings, and this state is kept by
    [updateKeybindings], [resetFiltering], [SetFilteringEnabled],
    [SetItems], [InsertItem], [RemoveItem] and, with a delegate that
    leaves the model alone, by [Update]. *)
Theorem quit_keys_stay_off {E : Externals} {C : Collaborators} (m : Model) :
  quit_keys_off (DisableQuitKeybindings m) /\
  (quit_keys_off m ->
     quit_keys_off (updateKeybindings m) /\
     quit_keys_off (resetFiltering m) /\
     (forall v, quit_keys_off (SetFilteringEnabled m v)) /\
     (forall i, quit_keys_off (fst (SetItems m i))) /\
     (forall i it m' cmd, InsertItem m i it = Ok (m', cmd) -> quit_keys_off m') /\
     (forall i m', RemoveItem m i = Ok m' -> quit_keys_off m') /\
     (forall msg m' cmd,
        delegate_idle (delegate m) msg -> Update m msg = Ok (m', cmd) ->
        quit_keys_off m')).
Proof.
  split.
  { unfold quit_keys_off, DisableQuitKeybindings. cbn.
    split; [reflexivity|]. split; eexists; reflexivity. }
  intros H. split; [now apply quit_keys_off_updateKeybindings|].
  split; [now apply quit_keys_off_resetFiltering|].
  split; [|split; [|split; [|split]]].
  - intros v. unfold SetFilteringEnabled. apply quit_keys_off_updateKeybindings.
    assert (H0 : quit_keys_off (set_filteringEnabled v m))
      by (revert H; now apply quit_keys_off_ext).
    destruct (negb v); [now apply quit_keys_off_resetFiltering | exact H0].
  - intros i. unfold SetItems. cbn [filterState set_items].
    destruct (negb _); cbn [fst]; apply quit_keys_off_updateKeybindings;
      revert H; now apply quit_keys_off_ext.
  - intros i it m' cmd. unfold InsertItem.
    destruct (insertItemIntoSlice _ _ _); [|discriminate]. cbn [bind].
    intros [= <- _]. apply quit_keys_off_updateKeybindings.
    revert H. now apply quit_keys_off_ext.
  - intros i m'. unfold RemoveItem.
    destruct (removeItemFromSlice _ _); [|discriminate]. cbn [bind].
    destruct (negb _).
    + destruct (removeFilterMatchFromSlice _ _); [|discriminate]. cbn [bind].
      destruct (_ =? 0); intros [= <-].
      * apply quit_keys_off_resetFiltering. revert H. now apply quit_keys_off_ext.
      * revert H. now apply quit_keys_off_ext.
    + intros [= <-]. revert H. now apply quit_keys_off_ext.
  - intros msg m' cmd Hidle.
    assert (Hh : forall m0 cmds,
              delegate m0 = delegate m -> quit_keys_off m0 ->
              Update_handlers m0 cmds msg = Ok (m', cmd) -> quit_keys_off m').
    { intros m0 cmds Hd H0. unfold Update_handlers.
      destruct (FilterState_eqb _ _).
      - pose proof (quit_keys_off_handleFiltering m0 msg H0) as Hf.
        destruct (handleFiltering m0 msg) as [m1 c1]. now intros [= <- _].
      - assert (Hidle0 : delegate_idle (delegate m0) msg) by now rewrite Hd.
        pose proof (quit_keys_off_handleBrowsing m0 msg Hidle0 H0) as Hb.
        destruct (handleBrowsing_items m0 msg Hidle0) as (_ & Hd1).
        destruct (handleBrowsing m0 msg) as [m1 c1]. cbn [fst] in *.
        destruct (handleMoving m1 msg) as [[m2 c2]|] eqn:Hm; [|discriminate].
        cbn [bind]. intros [= <- _].
        apply (quit_keys_off_handleMoving m1 msg m2 c2); try assumption.
        now rewrite Hd1. }
    destruct msg as [k|fi|t| |o]; cbn [Update].
    + destruct (key_Matches k (KeyMap.ForceQuit (keyMap m))).
      * now intros [= <- _].
      * now apply Hh.
    + intros [= <- _]. revert H. now apply quit_keys_off_ext.
    + destruct (spinner_Update (spinner m) t) as [sp c0].
      apply Hh; [reflexivity|]. revert H. now apply quit_keys_off_ext.
    + apply Hh; [apply same_store_hideStatusMessage|].
      now apply quit_keys_off_hideStatusMessage.
    + now apply Hh.
Qed.

(* ------------------------------------------------------------------ *)
(** ** Key counting and the default delegate *)

Section CountFacts.
Context {E : Externals}.

Lemma count_group (group : list key_Binding) (agg : Z) :
  0 <= agg -> agg + Z.of_nat (List.length group) <= GoInt.max_int ->
  fold_left (fun agg kb => if key_Enabled kb then GoInt.add agg 1 else agg) group agg
  = agg + Z.of_nat (List.length (filter key_Enabled group)).
Proof.
  revert agg; induction group as [|kb t IH]; intros agg H0 Hmax; cbn [fold_left filter].
  - cbn. lia.
  - cbn [List.length] in Hmax.
    pose proof (filter_length_le key_Enabled t) as Hle.
    destruct (key_Enabled kb).
    + rewrite GoInt.add_id by go_int. rewrite IH by lia. cbn [List.length]. lia.
    + rewrite IH by lia. lia.
Qed.

Lemma count_groups (groups : list (list key_Binding)) (agg : Z) :
  0 <= agg -> agg + Z.of_nat (List.length (List.concat groups)) <= GoInt.max_int ->
  fold_left
    (fun agg group =>
       fold_left (fun agg kb => if key_Enabled kb then GoInt.add agg 1 else agg) group agg)
    groups agg
  = agg + Z.of_nat (List.length (filter key_Enabled (List.concat groups))).
Proof.
  revert agg; induction groups as [|g t IH]; intros agg H0 Hmax; cbn [fold_left List.concat].
  - cbn. lia.
  - cbn [List.concat] in Hmax. rewrite length_app in Hmax.
    pose proof (filter_length_le key_Enabled g) as Hle.
    rewrite count_group by lia. rewrite IH by lia.
    rewrite filter_app, length_app. lia.
Qed.

End CountFacts.

(** X27.  [countEnabledBindings] returns the number of enabled
    bindings of all groups taken together, for a total number of
    bindings that fits [int]. *)
Theorem countEnabledBindings_counts {E : Externals} (groups : list (list key_Binding)) :
  Z.of_nat (List.length (List.concat groups)) <= GoInt.max_int ->
  countEnabledBindings groups
  = Z.of_nat (List.length (filter key_Enabled (List.concat groups))).
Proof.
  intros Hmax. unfold countEnabledBindings. rewrite count_groups by lia. lia.
Qed.

Section DefaultDelegateFacts.
Context {E : Externals} {C : Collaborators}.

Lemma wrap_succ_zero s : GoInt.in_range s -> GoInt.add 1 s = 0 <-> s = -1.
Proof.
  unfold GoInt.in_range, GoInt.min_int, GoInt.max_int. intros Hs. split.
  - intros H. destruct (Z.eq_dec s (2 ^ 63 - 1)) as [->|Hne].
    + vm_compute in H. discriminate.
    + rewrite GoInt.add_id in H by go_int. lia.
  - intros ->. reflexivity.
Qed.

End DefaultDelegateFacts.

(** X28.  The default delegate has height 1, so the height of an item
    is 1 plus the spacing: for a model with a selection whose delegate
    is [NewDefaultDelegate()] after [SetSpacing(s)], the reconciliation
    of the viewport panics on its division exactly when [s] is -1.
    Without an [UpdateFunc] the delegate's [Update] returns nil and the
    model as it is, and [SetSpacing(1)] gives the delegate
    [NewDefaultDelegate()] returns. *)
Theorem DefaultDelegate_SetSpacing_item_height {E : Externals} {C : Collaborators}
    (m : Model) (s : Z) :
  delegate m =
    DefaultDelegate_as_ItemDelegate (DefaultDelegate_SetSpacing NewDefaultDelegate s) ->
  GoInt.in_range s ->
  0 <= index m ->
  (s = -1 -> updateViewportBounds m = Panic IntegerDivideByZero) /\
  (s <> -1 -> exists m', updateViewportBounds m = Ok m') /\
  (forall msg m0,
     DefaultDelegate_Update (DefaultDelegate_SetSpacing NewDefaultDelegate s) msg m0
     = (m0, cmd_nil)) /\
  (s = 1 -> DefaultDelegate_SetSpacing NewDefaultDelegate s = NewDefaultDelegate).
Proof.
  intros Hd Hs Hi.
  assert (Hh : GoInt.add (Height (delegate m)) (Spacing (delegate m)) = GoInt.add 1 s)
    by (rewrite Hd; reflexivity).
  split; [|split; [|split]].
  - intros ->. rewrite updateViewportBounds_run by assumption.
    rewrite viewport_capacity_run, Hh. reflexivity.
  - intros Hne. rewrite updateViewportBounds_run by assumption.
    rewrite viewport_capacity_run, Hh. unfold go_quot.
    destruct (Z.eqb_spec (GoInt.add 1 s) 0) as [Hz|Hnz].
    + apply wrap_succ_zero in Hz; [congruence | assumption].
    + cbn [bind]. eexists. reflexivity.
  - reflexivity.
  - intros ->. reflexivity.
Qed.

(* ------------------------------------------------------------------ *)
(** * Concrete runs *)

Section Runs.
Import Demo.
Local Open Scope string_scope.

(** Selecting past the end of the three-item store clamps to its last
    index. *)
Lemma Select_clamps_witness : index (Select store3 7) = 2.
Proof.
  assert (Hmax : len (AvailableItems store3) <= GoInt.max_int)
    by (vm_compute; discriminate).
  destruct (Select_clamps store3 7 Hmax) as (_ & _ & Hpast & _).
  apply Hpast; vm_compute; discriminate.
Defined.

(** Scenario of the specification: inserting at index 10 into a
    three-item store appends the item at index 3. *)
Lemma InsertItem_always_succeeds_witness :
  exists m' cmd,
    InsertItem store3 10 X = Ok (m', cmd) /\
    items m' = mk_slice [A; B; C; X] /\
    slice_get (items m') 3 = Ok X.
Proof.
  assert (Hmax : len (items store3) <= GoInt.max_int) by (vm_compute; discriminate).
  destruct (InsertItem_always_succeeds store3 10 X Hmax)
    as (m' & cmd & Hrun & _ & _ & Hpast & _).
  exists m', cmd. split; [exact Hrun|].
  apply Hpast. vm_compute; discriminate.
Defined.

(** Accepting the filter "A" with one match applies the filter. *)
Lemma handleFiltering_accept_witness :
  filterState (fst (handleFiltering filtering (KeyMsg "enter"))) = FilterApplied.
Proof.
  assert (Hstate : filterState filtering = Filtering) by reflexivity.
  assert (Hcancel : key_Matches "enter" (KeyMap.CancelWhileFiltering (keyMap filtering))
                    = false) by reflexivity.
  assert (Haccept : key_Matches "enter" (KeyMap.AcceptWhileFiltering (keyMap filtering))
                    = true) by reflexivity.
  destruct (handleFiltering_accept filtering "enter" Hstate Hcancel Haccept)
    as (_ & _ & Happlied).
  apply Happlied; vm_compute; discriminate.
Defined.

(** C1 on the code: after [New] on a one-item list, removing that item
    leaves the available sequence empty and the selected index at 0,
    not at -1; and inserting into a new empty list leaves the selected
    index at -1 with a non-empty available sequence. *)
Lemma RemoveItem_leaves_index_behind :
  (exists m',
     RemoveItem single 0 = Ok m' /\
     len (AvailableItems m') = 0 /\ index m' = 0) /\
  (exists m' cmd,
     InsertItem (New nil_slice default_delegate 80 24) 0 A = Ok (m', cmd) /\
     len (AvailableItems m') = 1 /\ index m' = -1).
Proof.
  split.
  - eexists. split; [vm_compute; reflexivity|]. split; reflexivity.
  - eexists _, _. split; [vm_compute; reflexivity|]. split; reflexivity.
Qed.



(** C7 on the code: [RemoveItem] at index -1 panics. *)
Lemma RemoveItem_minus_one_panics :
  RemoveItem single (-1) = Panic SliceBoundsOutOfRange.
Proof. vm_compute. reflexivity. Qed.

(** C9 on the code: removal at the out-of-range index -1 is a panic,
    not a no-op. *)
Lemma removeItemFromSlice_minus_one_panics :
  removeItemFromSlice (mk_slice [A; B]) (-1) = Panic SliceBoundsOutOfRange.
Proof. vm_compute. reflexivity. Qed.

(** Scenario of the specification: five items, capacity 2, window
    [0 .. 1]; moving the selection to index 4 gives the window
    [3 .. 4]. *)
Example viewport_scrolls_down :
  exists m',
    updateViewportBounds
      (bare (mk_slice [A; B; C; D; X]) nil_slice Unfiltered "" 4 0 1 2) = Ok m' /\
    firstItemIndexInView m' = 3 /\ lastItemIndexInView m' = 4.
Proof. eexists. split; [vm_compute; reflexivity|]. split; reflexivity. Qed.

(** Removing B from [A; B; C] and inserting it back at index 1 gives
    [A; B; C] again. *)
Lemma remove_insert_roundtrip_witness :
  (s <- removeItemFromSlice (mk_slice [A; B; C]) 1 ;; insertItemIntoSlice s B 1)
  = Ok (mk_slice [A; B; C]).
Proof.
  apply (remove_insert_roundtrip (mk_slice [A; B; C]) 1 B).
  - vm_compute; discriminate.
  - split; vm_compute; [discriminate | reflexivity].
  - reflexivity.
Defined.

(** Removing at index 5 from the three-item store leaves the store. *)
Lemma RemoveItem_past_end_witness :
  exists m', RemoveItem store3 5 = Ok m' /\ items m' = items store3.
Proof.
  apply (RemoveItem_past_end store3 5); vm_compute; discriminate.
Defined.

(** Five items, capacity 2, previous window starting at 0, selection 4:
    the reconciled window holds the selection and fits. *)
Lemma updateViewportBounds_window_witness :
  exists m',
    updateViewportBounds
      (bare (mk_slice [A; B; C; D; X]) nil_slice Unfiltered "" 4 0 1 2) = Ok m' /\
    firstItemIndexInView m' <= 4 <= lastItemIndexInView m' /\
    lastItemIndexInView m' - firstItemIndexInView m' + 1 <= 2 /\
    0 <= firstItemIndexInView m' /\
    lastItemIndexInView m' < 5.
Proof.
  destruct (updateViewportBounds_window
              (bare (mk_slice [A; B; C; D; X]) nil_slice Unfiltered "" 4 0 1 2) 2)
    as (m' & Hrun & _ & _ & Hin & Hfit & Hfirst & Hlast).
  - reflexivity.
  - split; vm_compute; [discriminate | reflexivity].
  - vm_compute; discriminate.
  - split; vm_compute; discriminate.
  - vm_compute; discriminate.
  - exists m'. repeat split; try assumption; apply Hin.
Defined.

(** ** Runs of the further properties *)

(** Swapping the ends of [A; B; C]. *)
Lemma swapItemsInSlice_exchanges_witness :
  exists items',
    swapItemsInSlice (mk_slice [A; B; C]) 0 2 = Ok items' /\
    slice_get items' 0 = Ok C /\ slice_get items' 2 = Ok A.
Proof.
  destruct (swapItemsInSlice_exchanges (mk_slice [A; B; C]) 0 2)
    as (items' & Hrun & _ & Hfirst & Hsecond & _).
  - split; vm_compute; [reflexivity | discriminate].
  - exists items'. split; [exact Hrun|]. split; [exact Hfirst | exact Hsecond].
Defined.

(** After the only item was removed, moving the selected item panics. *)
Lemma MoveItem_empty_slice_panics_witness :
  MoveItemUp emptied 0 = Panic IndexOutOfRange /\
  handleMoving emptied (KeyMsg "shift+up") = Panic IndexOutOfRange.
Proof.
  assert (Hmax : len (items emptied) <= GoInt.max_int) by (vm_compute; discriminate).
  destruct (MoveItem_empty_slice_panics emptied 0 Hmax) as (Hpanic & _).
  destruct (Hpanic eq_refl eq_refl) as (Hup & _ & Hkey).
  split; [exact Hup|]. apply Hkey. left. reflexivity.
Defined.

(** The same run through the update loop. *)
Example Update_panics_after_last_removal :
  Update emptied (KeyMsg "shift+up") = Panic IndexOutOfRange.
Proof. vm_compute. reflexivity. Qed.

(** Moving B up in [A; B; C] keeps B selected, now at index 0. *)
Lemma MoveItem_selection_follows_witness :
  exists m',
    MoveItemUp second_selected 1 = Ok m' /\ index m' = 0 /\ SelectedItem m' = Ok B.
Proof.
  assert (Hmax : len (items second_selected) <= GoInt.max_int) by (vm_compute; discriminate).
  assert (Hin : 0 <= index second_selected < len (items second_selected))
    by (split; vm_compute; [discriminate | reflexivity]).
  destruct (MoveItem_selection_follows second_selected eq_refl Hmax Hin) as (Hup & _).
  destruct (Hup eq_refl) as (m' & Hrun & Hidx & Hsel & _).
  exists m'. split; [exact Hrun|]. split; [exact Hidx | exact Hsel].
Defined.

(** Up and down again. *)
Lemma MoveItemUp_MoveItemDown_roundtrip_witness :
  (m1 <- MoveItemUp second_selected 1 ;; MoveItemDown m1 (index m1)) = Ok second_selected.
Proof.
  apply (MoveItemUp_MoveItemDown_roundtrip second_selected).
  - reflexivity.
  - vm_compute; discriminate.
  - split; reflexivity.
Defined.

(** Inserting X at index 1 of [A; B; C] and removing at index 1. *)
Lemma insert_remove_roundtrip_witness :
  (s <- insertItemIntoSlice (mk_slice [A; B; C]) X 1 ;; removeItemFromSlice s 1)
  = Ok (mk_slice [A; B; C]).
Proof.
  assert (Hmax : len (mk_slice [A; B; C]) < GoInt.max_int) by reflexivity.
  destruct (insert_remove_roundtrip (mk_slice [A; B; C]) X 1 Hmax) as (_ & Hsame).
  apply Hsame. split; vm_compute; discriminate.
Defined.

(** Removing B from the three-item store. *)
Lemma RemoveItem_removes_witness :
  exists m', RemoveItem store3 1 = Ok m' /\ items m' = mk_slice [A; C].
Proof.
  destruct (RemoveItem_removes store3 1) as (m' & Hrun & Hitems & _).
  - vm_compute; discriminate.
  - vm_compute; discriminate.
  - split; vm_compute; [discriminate | reflexivity].
  - exists m'. split; [exact Hrun | exact Hitems].
Defined.

(** Removing the only match while the filter is edited drops the filter. *)
Lemma RemoveItem_filtered_witness :
  exists m',
    RemoveItem filtering 0 = Ok m' /\
    filterState m' = Unfiltered /\ filteredItems m' = nil_slice.
Proof.
  destruct (RemoveItem_filtered filtering 0) as (m' & Hrun & Hempty & _).
  - discriminate.
  - vm_compute; discriminate.
  - vm_compute; discriminate.
  - vm_compute; discriminate.
  - destruct (Hempty eq_refl) as (Hs & Hf & _).
    exists m'. split; [exact Hrun|]. split; [exact Hs | exact Hf].
Defined.

(** Inserting X at the selected index 0 makes X the selected item. *)
Lemma InsertItem_shifts_selection_witness :
  exists m' cmd, InsertItem store3 0 X = Ok (m', cmd) /\ SelectedItem m' = Ok X.
Proof.
  destruct (InsertItem_shifts_selection store3 0 X) as (m' & cmd & Hrun & _ & _ & Hat & _).
  - reflexivity.
  - reflexivity.
  - split; vm_compute; [discriminate | reflexivity].
  - exists m', cmd. split; [exact Hrun|]. apply Hat. left. reflexivity.
Defined.

(** Removing A while the last item C is selected leaves nothing selected. *)
Lemma RemoveItem_shifts_selection_witness :
  exists m', RemoveItem last_selected 0 = Ok m' /\ SelectedItem m' = Ok None.
Proof.
  destruct (RemoveItem_shifts_selection last_selected 0) as (m' & Hrun & _ & _ & _ & Hlast).
  - reflexivity.
  - vm_compute; discriminate.
  - split; vm_compute; [discriminate | reflexivity].
  - split; vm_compute; [discriminate | reflexivity].
  - exists m'. split; [exact Hrun|]. apply Hlast. reflexivity.
Defined.

(** Escape while the filter is edited. *)
Lemma handleFiltering_cancel_witness :
  filterState (fst (handleFiltering filtering (KeyMsg "esc"))) = Unfiltered /\
  AvailableItems (fst (handleFiltering filtering (KeyMsg "esc"))) = mk_slice [A; B; C].
Proof.
  destruct (handleFiltering_cancel filtering "esc" eq_refl eq_refl) as (Hs & _ & Hav & _).
  split; [exact Hs | exact Hav].
Defined.

(** The slash key on the three-item store. *)
Lemma handleBrowsing_starts_filtering_witness :
  exists m',
    handleBrowsing store3 (KeyMsg "/") = (m', textinput_Blink) /\
    filterState m' = Filtering /\
    elems (AvailableItems m') = [A; B; C] /\ index m' = 0.
Proof.
  destruct (handleBrowsing_starts_filtering store3 "/") as (m' & Hrun & Hs & _ & _ & _ & He & _).
  - reflexivity.
  - vm_compute; discriminate.
  - vm_compute; discriminate.
  - destruct (He eq_refl) as (_ & Hav & Hidx).
    exists m'. split; [exact Hrun|]. split; [exact Hs|]. split; [exact Hav | exact Hidx].
Defined.

(** Typing B into the empty query: the filtering that is requested
    yields the one item that starts with B. *)
Lemma typing_refilters_witness :
  exists m1 snapshot,
    Update searching (KeyMsg "B")
      = Ok (m1, tea_Batch [tea_Batch [cmd_nil; cmd_filterItems snapshot]]) /\
    filterItems_run snapshot
      = Ok (FilterMatchesMsg (mk_slice [{| item := B; matches := mk_slice [0] |}])).
Proof.
  assert (Htyped : textinput_Update (FilterInput searching) (KeyMsg "B")
                   = ({| value := "B"; focus := true |}, cmd_nil)) by reflexivity.
  destruct (typing_refilters searching "B" _ _ eq_refl eq_refl eq_refl eq_refl Htyped)
    as (_ & Hchanged).
  destruct Hchanged as (m1 & snapshot & Hrun & _ & _ & _ & _ & _ & _ & Hranks & _).
  - discriminate.
  - exists m1, snapshot. split; [exact Hrun|].
    apply Hranks; [discriminate | reflexivity | reflexivity].
Defined.

(** A key while the filter is edited leaves the store alone. *)
Lemma Update_filtering_keeps_store_witness :
  exists m' cmd,
    Update filtering (KeyMsg "x") = Ok (m', cmd) /\ items m' = mk_slice [A; B; C].
Proof.
  destruct (Update_filtering_keeps_store filtering (@KeyMsg externals "x") eq_refl)
    as (m' & cmd & Hrun & (Hitems & _) & _).
  exists m', cmd. split; [exact Hrun | exact Hitems].
Defined.

(** Shift+down on the three-item store rearranges its items. *)
Lemma Update_keeps_the_items_witness :
  exists m' cmd,
    Update store3 (KeyMsg "shift+down") = Ok (m', cmd) /\
    Permutation [A; B; C] (elems (items m')) /\ len (items m') = 3.
Proof.
  destruct (Update_keeps_the_items store3 (@KeyMsg externals "shift+down"))
    as (m' & cmd & Hrun & Hperm & Hlen).
  - intros m. reflexivity.
  - right. split; vm_compute; [reflexivity | discriminate].
  - exists m', cmd. split; [exact Hrun|]. split; [exact Hperm | exact Hlen].
Defined.

(** The window left at [4 .. 4] with the selection at 3: the second
    reconciliation ends it at the last item. *)
Lemma updateViewportBounds_settles_witness :
  exists m1 m2,
    updateViewportBounds scrolled = Ok m1 /\
    updateViewportBounds m1 = Ok m2 /\
    updateViewportBounds m2 = Ok m2 /\
    lastItemIndexInView m2 < 5.
Proof.
  destruct (updateViewportBounds_settles scrolled 3)
    as (m1 & m2 & H1 & H2 & H3 & _ & _ & _ & _ & Hlast).
  - intros f l. reflexivity.
  - split; vm_compute; [discriminate | reflexivity].
  - vm_compute; discriminate.
  - vm_compute; discriminate.
  - vm_compute; discriminate.
  - exists m1, m2. split; [exact H1|]. split; [exact H2|]. split; [exact H3 | exact Hlast].
Defined.

(** Every binding of the full help of the three-item store is enabled. *)
Lemma countEnabledBindings_counts_witness :
  countEnabledBindings (FullHelp store3) = 12.
Proof.
  assert (Hmax : Z.of_nat (List.length (List.concat (FullHelp store3))) <= GoInt.max_int)
    by (vm_compute; discriminate).
  exact (countEnabledBindings_counts (FullHelp store3) Hmax).
Defined.

(** Spacing -1 on the default delegate. *)
Lemma DefaultDelegate_SetSpacing_item_height_witness :
  updateViewportBounds spaced = Panic IntegerDivideByZero.
Proof.
  destruct (DefaultDelegate_SetSpacing_item_height spaced (-1)) as (Hpanic & _).
  - reflexivity.
  - split; vm_compute; discriminate.
  - vm_compute; discriminate.
  - apply Hpanic. reflexivity.
Defined.

(** Escape with the filter "A" applied clears the filter. *)
Lemma clear_filter_comes_before_quit_witness :
  exists m',
    Update applied (KeyMsg "esc")
      = Ok (m', tea_Batch [tea_Batch [cmd_nil]; tea_Batch [cmd_nil]]) /\
    filterState m' = Unfiltered /\ AvailableItems m' = mk_slice [A; B; C].
Proof.
  assert (Hstate : filterState applied <> Filtering) by discriminate.
  assert (Hforce : key_Matches "esc" (KeyMap.ForceQuit (keyMap applied)) = false)
    by reflexivity.
  assert (Hidle : delegate_idle (delegate applied) (@KeyMsg externals "esc"))
    by (intros m; reflexivity).
  destruct (clear_filter_comes_before_quit applied "esc" Hstate Hforce Hidle)
    as (Hclear & _).
  destruct (Hclear eq_refl eq_refl eq_refl) as (Hrun & _ & Hav & Hreset).
  destruct (Hreset eq_refl) as (Hs & _).
  exists (resetFiltering applied). split; [exact Hrun|]. split; [exact Hs | exact Hav].
Defined.

End Runs.
